(** * Inversionson: minibatch selection, iteration numbering, artifact store,
      iteration preparation, optimizer start-up, remote interpolation worker,
      and the look-ups of seismograms, gradients, event meshes and the LASIF
      project.

    A shallow embedding of
      - [inversionson/components/lasif_comp.py]
      - [inversionson/optimizers/optimizer.py]
      - [inversionson/remote_scripts/interpolation.py]
    Python values that the code handles dynamically are kept dynamic
    ([value]); exceptions are explicit ([result]); files and catalogues are
    explicit state that is threaded through the calls. *)

From Stdlib Require Import ZArith Ascii String List Lia Permutation Sorted.
From stdpp Require Import base option list strings gmap sorting.

Local Open Scope Z_scope.

(** Closing an equation between closed terms by evaluation. *)
Ltac vm_refl :=
  lazymatch goal with
  | |- @eq ?T _ ?r => vm_cast_no_check (@eq_refl T r)
  end.

(** ** Python prelude: exceptions, dynamic values, string methods *)

Module Py.

(** The exceptions that can leave the modelled functions. The exceptions of
    the file system carry the path they are about, [SameFileError] the two
    paths it was given, [ShutilError] ([shutil.Error]) its message.
    [External] stands for whatever a collaborator (LASIF, Salvus, h5py, the
    project component) raises from inside one of its own calls. *)
Inductive exn :=
  | TypeError (msg : string)
  | ValueError (msg : string)
  | KeyError (key : string)
  | IndexError (msg : string)
  | FileNotFoundError (path : string)
  | FileExistsError (path : string)
  | NotADirectoryError (path : string)
  | IsADirectoryError (path : string)
  | SameFileError (src dst : string)
  | ShutilError (msg : string)
  | AttributeError (msg : string)
  | Exception (msg : string)
  | InversionsonError (msg : string)
  | SystemExit
  | External (what : string).

Inductive result (A : Type) :=
  | Ok (a : A)
  | Raise (e : exn).
Arguments Ok {A} a.
Arguments Raise {A} e.

Global Instance result_ret : MRet result := fun _ a => Ok a.
Global Instance result_bind : MBind result := fun _ _ f m =>
  match m with
  | Ok a => f a
  | Raise e => Raise e
  end.

Definition returns {A} (m : result A) : Prop := exists a, m = Ok a.
Definition raises {A} (m : result A) : Prop := exists e, m = Raise e.

Global Instance exn_eq_dec : EqDecision exn.
Proof. solve_decision. Defined.

(** Values as the selector and the catalogue queries see them. A [VSet]
    carries its elements without duplicates; the order in which Python
    iterates over it is not part of the value (see [set_order] below). *)
Inductive value :=
  | VNone
  | VBool (b : bool)
  | VInt (z : Z)
  | VStr (s : string)
  | VList (l : list string)
  | VSet (l : list string).

Global Instance value_eq_dec : EqDecision value.
Proof. solve_decision. Defined.

Definition type_name (v : value) : string :=
  match v with
  | VNone => "NoneType"
  | VBool _ => "bool"
  | VInt _ => "int"
  | VStr _ => "str"
  | VList _ => "list"
  | VSet _ => "set"
  end.

(** [bool(v)] *)
Definition truthy (v : value) : bool :=
  match v with
  | VNone => false
  | VBool b => b
  | VInt z => negb (z =? 0)
  | VStr s => negb (String.eqb s "")
  | VList l => negb (bool_decide (l = []))
  | VSet l => negb (bool_decide (l = []))
  end.

(** Integers, with [bool] as the subtype of [int] that Python makes it. *)
Definition as_int (v : value) : option Z :=
  match v with
  | VInt z => Some z
  | VBool b => Some (if b then 1 else 0)
  | _ => None
  end.

Definition unsupported (op : string) (a b : value) : exn :=
  TypeError ("unsupported operand type(s) for " +:+ op +:+ ": '"
             +:+ type_name a +:+ "' and '" +:+ type_name b +:+ "'").

(** [a - b] and [a -= b]: numbers subtract, sets take the difference,
    everything else is a [TypeError]. *)
Definition py_sub_op (op : string) (a b : value) : result value :=
  match as_int a, as_int b with
  | Some x, Some y => Ok (VInt (x - y))
  | _, _ =>
      match a, b with
      | VSet s, VSet t => Ok (VSet (list_difference s t))
      | _, _ => Raise (unsupported op a b)
      end
  end.
Definition py_sub := py_sub_op "-".
Definition py_isub := py_sub_op "-=".

(** The double quote, for the messages that hold one. *)
Definition dquote : string := String (ascii_of_nat 34) EmptyString.

(** The message of a list or a string that is given something else to
    concatenate. *)
Definition cannot_concatenate (a b : value) : exn :=
  TypeError ("can only concatenate " +:+ type_name a +:+ " (not " +:+ dquote
             +:+ type_name b +:+ dquote +:+ ") to " +:+ type_name a).

(** [a + b]: numbers add, lists and strings concatenate; sets have no [+]. *)
Definition py_add (a b : value) : result value :=
  match as_int a, as_int b with
  | Some x, Some y => Ok (VInt (x + y))
  | _, _ =>
      match a, b with
      | VList l, VList k => Ok (VList (l ++ k))
      | VStr s, VStr t => Ok (VStr (s +:+ t))
      | VList _, _ | VStr _, _ => Raise (cannot_concatenate a b)
      | _, _ => Raise (unsupported "+" a b)
      end
  end.

Definition chars (s : string) : list string :=
  (fun c => String c EmptyString) <$> list_ascii_of_string s.

(** [len(v)] *)
Definition py_len (v : value) : result Z :=
  match v with
  | VStr s => Ok (Z.of_nat (String.length s))
  | VList l | VSet l => Ok (Z.of_nat (length l))
  | _ => Raise (TypeError ("object of type '" +:+ type_name v +:+ "' has no len()"))
  end.

(** [set(v)] *)
Definition py_set (v : value) : result value :=
  match v with
  | VList l | VSet l => Ok (VSet (remove_dups l))
  | VStr s => Ok (VSet (remove_dups (chars s)))
  | _ => Raise (TypeError ("'" +:+ type_name v +:+ "' object is not iterable"))
  end.

(** The order in which a set is iterated depends on the hash seed of the
    process and on the history of the set. A run fixes it as a function
    [ord] from the elements to their iteration order. *)
Definition set_order := list string -> list string.
Definition valid_order (ord : set_order) : Prop := forall l, ord l ≡ₚ l.

(** [list(v)] *)
Definition py_list (ord : set_order) (v : value) : result value :=
  match v with
  | VList l => Ok (VList l)
  | VSet l => Ok (VList (ord l))
  | VStr s => Ok (VList (chars s))
  | _ => Raise (TypeError ("'" +:+ type_name v +:+ "' object is not iterable"))
  end.

(** [x in v] for a list, set or string (substring test, see [contains]). *)
Definition isinstance_list (v : value) : bool :=
  match v with VList _ => true | _ => false end.

(** *** String methods *)

(** [s.startswith(p)] *)
Definition startswith (p s : string) : bool := String.prefix p s.

(** [s.endswith(p)] *)
Fixpoint endswith (p s : string) : bool :=
  String.eqb p s ||
  match s with
  | EmptyString => false
  | String _ s' => endswith p s'
  end.

(** [p in s] for strings *)
Fixpoint contains (p s : string) : bool :=
  String.prefix p s ||
  match s with
  | EmptyString => false
  | String _ s' => contains p s'
  end.

(** [s.split(sep)] for a one-character separator: never empty. *)
Fixpoint split (sep : ascii) (s : string) : list string :=
  match s with
  | EmptyString => [EmptyString]
  | String c s' =>
      if Ascii.eqb c sep then EmptyString :: split sep s'
      else match split sep s' with
           | [] => [String c EmptyString]
           | w :: ws => String c w :: ws
           end
  end.

(** [s.replace(" ", "")] *)
Fixpoint remove_spaces (s : string) : string :=
  match s with
  | EmptyString => EmptyString
  | String c s' =>
      if Ascii.eqb c " " then remove_spaces s' else String c (remove_spaces s')
  end.

(** [s[1:-1]] *)
Definition strip_ends (s : string) : string :=
  match s with
  | EmptyString => EmptyString
  | String _ s' => String.rev (match String.rev s' with
                               | EmptyString => EmptyString
                               | String _ r => r
                               end)
  end.

(** [os.path.join(a, b)] on POSIX: an absolute [b] starts over. *)
Definition join2 (a b : string) : string :=
  if startswith "/" b then b
  else if String.eqb a "" || endswith "/" a then a +:+ b
  else a +:+ "/" +:+ b.

(** [pathlib.Path(a) / b], as the string that reaches the file system
    (which resolves it, so that repeated slashes and [.] do not count): an
    absolute [b] starts over. *)
Definition path_div (a b : string) : string :=
  if startswith "/" b then b
  else if String.eqb a "" then b else a +:+ "/" +:+ b.

(** [os.path.join(a, *ps)] *)
Definition os_path_join (a : string) (ps : list string) : string :=
  foldl join2 a ps.

(** *** State and exceptions

    Code that changes files or catalogues is a function of the state; a
    raise keeps the state reached so far. *)
Definition M (S A : Type) : Type := S -> result A * S.

Definition ret {S A} (a : A) : M S A := fun s => (Ok a, s).
Definition raise {S A} (e : exn) : M S A := fun s => (Raise e, s).
Definition bind {S A B} (m : M S A) (f : A -> M S B) : M S B := fun s =>
  match m s with
  | (Ok a, s') => f a s'
  | (Raise e, s') => (Raise e, s')
  end.
(** A pure computation that may raise. *)
Definition lift {S A} (r : result A) : M S A := fun s => (r, s).
(** Reading the state. *)
Definition read {S A} (f : S -> A) : M S A := fun s => (Ok (f s), s).
(** A step of a collaborator on the state: when it raises, the state is the
    one it was given. *)
Definition update {S} (f : S -> result S) : M S unit := fun s =>
  match f s with
  | Ok s' => (Ok (), s')
  | Raise e => (Raise e, s)
  end.

Global Instance M_ret {S} : MRet (M S) := fun _ a => ret a.
Global Instance M_bind {S} : MBind (M S) := fun _ _ f m => bind m f.

End Py.
Import Py.

(** ** Minibatch selector: [LasifComponent.get_minibatch] *)

Module Selector.

(** What the selector asks of its collaborators. Every call may raise. The
    samplers draw from whatever random state they hold; a fixed seed makes
    them the functions of their arguments that they are here. *)
Record Comm := {
  (** [salvus_opt.read_salvus_opt()["task"][0]["input"]["num_events"]] *)
  read_num_events : result value;
  (** [lapi.list_events(lasif_comm, just_list=True, iteration=None, output=True)] *)
  list_events : result value;
  (** [lapi.get_subset(lasif_comm, count, events, existing_events)] *)
  get_subset : value -> value -> value -> result value;
  (** [salvus_opt.find_blocked_events()]: blocked events and forced events *)
  find_blocked_events : result (value * value);
  (** [salvus_opt.get_batch_size()] *)
  get_batch_size : result value;
  (** [salvus_opt.get_previous_iteration_name()] *)
  get_previous_iteration_name : result value;
  (** [project.get_old_iteration_info(prev_iter)["new_control_group"]] *)
  new_control_group : value -> result value;
  (** [salvus_opt.get_random_event(n, existing)] *)
  get_random_event : value -> value -> result value;
  (** [project.n_random_events_picked] *)
  n_random_events_picked : value;
}.

Section get_minibatch.
Variable ord : set_order.
Variable comm : Comm.

  (** [list(set(a) + set(b))] *)
Definition list_of_set_sum (a b : value) : result value :=
    sa ← py_set a;
    sb ← py_set b;
    u ← py_add sa sb;
    py_list ord u.

  (** [list(set(a) - set(b))] *)
Definition list_of_set_diff (a b : value) : result value :=
    sa ← py_set a;
    sb ← py_set b;
    d ← py_sub sa sb;
    py_list ord d.

  (** The branch [if first:] *)
Definition first_batch : result value :=
    count ← read_num_events comm;
    events ← list_events comm;
    get_subset comm count events VNone.

  (** The branch [if use_these:] yields [(count, batch, avail_events, existing)]. *)
Definition with_forced (count events blocked_events use_these existing : value)
    : result (value * value * value * value) :=
    n ← py_len use_these;
    count ← py_isub count (VInt n);
    batch ← py_add use_these existing;
    se ← py_set events;
    sb ← py_set blocked_events;
    d ← py_sub se sb;
    su ← py_set use_these;
    d ← py_sub d su;
    avail_events ← py_list ord d;
    both ← py_add existing use_these;
    sboth ← py_set both;
    existing ← py_list ord sboth;
    Ok (count, batch, avail_events, existing).

  (** Its [else:] branch. *)
Definition without_forced (count events blocked_events existing : value)
    : result (value * value * value * value) :=
    let batch := existing in
    n ← py_len blocked_events;
    '(batch, existing) ←
      (if n =? 0 then
         rand_batch ← get_random_event comm (n_random_events_picked comm) existing;
         batch ← list_of_set_sum batch rand_batch;
         Ok (batch, batch)
       else Ok (batch, existing));
    avail_events ← list_of_set_diff events blocked_events;
    Ok (count, batch, avail_events, existing).

Definition later_batch : result value :=
    '(blocked_events, use_these) ← find_blocked_events comm;
    count ← get_batch_size comm;
    events ← list_events comm;
    prev_iter ← get_previous_iteration_name comm;
    existing ← new_control_group comm prev_iter;
    count ← py_isub count existing;
    '(count, batch, avail_events, existing) ←
      (if truthy use_these
       then with_forced count events blocked_events use_these existing
       else without_forced count events blocked_events existing);
    add_batch ← get_subset comm count avail_events existing;
    list_of_set_sum batch add_batch.

Definition get_minibatch (first : bool) : result value :=
    if first then first_batch else later_batch.
End get_minibatch.

(** The quantities the selector's contract speaks of, read off a call that
    got them from its collaborators. *)
Record Inputs := {
  quota : Z;
  all_events : list string;
  blocked_events : list string;
  forced_events : value;
  control_group : list string;
}.

(** Collaborators that answer with the given inputs and never fail; the
    samplers are left to the caller. *)
Definition comm_of (i : Inputs)
    (subset : value -> value -> value -> result value)
    (random_event : value -> value -> result value) : Comm :=
  {| read_num_events := Ok (VInt (quota i));
     list_events := Ok (VList (all_events i));
     get_subset := subset;
     find_blocked_events := Ok (VList (blocked_events i), forced_events i);
     get_batch_size := Ok (VInt (quota i));
     get_previous_iteration_name := Ok (VStr "it0000_model");
     new_control_group := fun _ => Ok (VList (control_group i));
     get_random_event := random_event;
     n_random_events_picked := VInt 0 |}.

(** A sampler that honours the catalogue's contract: [count] events taken
    from the front of the candidates that are not yet chosen, an error when
    there are too few. *)
Definition take_subset (count events existing : value) : result value :=
  match count, events with
  | VInt n, VList evs =>
      let chosen := match existing with VList ex => ex | _ => [] end in
      let free := list_difference evs chosen in
      if (Z.of_nat (length free) <? n) || (n <? 1)
      then Raise (External "Insufficient amount of events specified.")
      else Ok (VList (take (Z.to_nat n) free))
  | _, _ => Raise (External "count should be an integer value.")
  end.

Definition no_random_event (n existing : value) : result value := Ok (VList []).


(** A later iteration in which nothing is blocked or carried over: three
    events to choose from, two wanted. *)
Definition open_call : Inputs :=
  {| quota := 2;
     all_events := ["event_a"; "event_b"; "event_c"];
     blocked_events := [];
     forced_events := VNone;
     control_group := [] |}.

End Selector.

(** ** Iteration numbering: [Optimize.find_iteration_numbers],
       [iteration_number], [iteration_name], [model_path] *)

Module IterationNumber.

Definition is_digit (c : ascii) : bool :=
  let n := nat_of_ascii c in (48 <=? n)%nat && (n <=? 57)%nat.

Definition digit_value (c : ascii) : Z := Z.of_nat (nat_of_ascii c) - 48.

(** White space as [int()] skips it around a literal of ASCII text: the
    blank and the control characters 9 to 13. *)
Definition is_space (c : ascii) : bool :=
  let n := nat_of_ascii c in
  ((9 <=? n)%nat && (n <=? 13)%nat) || (n =? 32)%nat.

Fixpoint lstrip (s : string) : string :=
  match s with
  | String c s' => if is_space c then lstrip s' else s
  | EmptyString => EmptyString
  end.

Fixpoint rstrip (s : string) : string :=
  match s with
  | String c s' =>
      match rstrip s' with
      | EmptyString => if is_space c then EmptyString else String c EmptyString
      | r => String c r
      end
  | EmptyString => EmptyString
  end.

Definition strip (s : string) : string := rstrip (lstrip s).

(** Decimal digits, single underscores allowed between two digits. *)
Fixpoint parse_digits (s : string) (acc : Z) : option Z :=
  match s with
  | EmptyString => None
  | String c rest =>
      if is_digit c then
        let acc' := 10 * acc + digit_value c in
        match rest with
        | EmptyString => Some acc'
        | String u rest' =>
            if Ascii.eqb u "_" then
              match rest' with
              | String d _ => if is_digit d then parse_digits rest' acc' else None
              | EmptyString => None
              end
            else parse_digits rest acc'
        end
      else None
  end.

(** [int(s)] on a string of ASCII text: an optional sign, decimal digits,
    white space around them. (A decimal digit or a blank of Unicode outside
    ASCII, which [int] takes as well, is not modelled. The message shows the
    string as [repr] does: between single quotes, for printable text without
    quotes or backslashes.) *)
Definition py_int (s : string) : result Z :=
  let invalid := Raise (ValueError ("invalid literal for int() with base 10: '" +:+ s +:+ "'")) in
  match strip s with
  | String c r =>
      if Ascii.eqb c "+" then from_option Ok invalid (parse_digits r 0)
      else if Ascii.eqb c "-" then from_option (fun z => Ok (- z)) invalid (parse_digits r 0)
      else from_option Ok invalid (parse_digits (String c r) 0)
  | EmptyString => invalid
  end.

Definition digit_char (d : N) : ascii := ascii_of_N (48 + d).

(** Decimal digits of [n], most significant first, in front of [acc]. *)
Fixpoint digits_of (fuel : nat) (n : N) (acc : string) : string :=
  match fuel with
  | O => acc
  | S fuel' =>
      let acc' := String (digit_char (n mod 10)%N) acc in
      if (n / 10 =? 0)%N then acc' else digits_of fuel' (n / 10)%N acc'
  end.

Definition str_of_N (n : N) : string := digits_of (S (N.to_nat (N.log2 n))) n "".

Fixpoint zeros (k : nat) : string :=
  match k with O => EmptyString | S k' => String "0" (zeros k') end.

(** The format [{z:05d}]: the sign counts towards the width. *)
Definition format_05d (z : Z) : string :=
  let body := str_of_N (Z.abs_N z) in
  let sign := if z <? 0 then "-" else "" in
  sign +:+ zeros (5 - String.length sign - String.length body) +:+ body.

(** Strings of decimal digits and the numbers they denote. *)
Fixpoint all_digits (s : string) : bool :=
  match s with
  | EmptyString => true
  | String c s' => is_digit c && all_digits s'
  end.

Fixpoint decimal_value (s : string) : Z :=
  match s with
  | EmptyString => 0
  | String c s' => digit_value c * 10 ^ Z.of_nat (String.length s') + decimal_value s'
  end.

(** The pattern [*.h5] on one directory entry; [glob] leaves hidden entries
    out. *)
Definition fnmatch_h5 (name : string) : bool :=
  endswith ".h5" name && negb (startswith "." name).

(** [glob.has_magic]: one of the wildcard characters of [glob] occurs. *)
Definition has_magic (s : string) : bool :=
  contains "*" s || contains "?" s || contains "[" s.

(** [glob.glob(f"{model_dir}/*.h5")], given the entries of [model_dir]:
    [glob] lists the folder, drops the hidden entries, filters by the
    pattern and joins every match to the folder. [model_dir] is the text of
    a [pathlib] path (no slash at its end) and is taken as it stands, as
    [glob] takes a folder part without wildcards; where [has_magic model_dir]
    holds, [glob] matches the folder part as a pattern against other folders
    and the entries of this one do not say what it returns. *)
Definition glob_h5 (model_dir : string) (entries : list string) : list string :=
  (fun name => model_dir +:+ "/" +:+ name) <$> List.filter fnmatch_h5 entries.

(** [int(model.split(".")[0].split("_")[-1])] *)
Definition parse_model (model : string) : result Z :=
  py_int (List.last (split "_" (List.hd "" (split "." model))) "").

Definition find_iteration_numbers (model_dir : string) (entries : list string)
  : result (list Z) :=
  let models := glob_h5 model_dir entries in
  if (length models =? 0)%nat then Ok [0]
  else mapM parse_model models.

(** [max(l)] *)
Definition py_max (l : list Z) : result Z :=
  match l with
  | [] => Raise (ValueError "max() arg is an empty sequence")
  | x :: xs => Ok (foldl Z.max x xs)
  end.

Definition iteration_number (model_dir : string) (entries : list string) : result Z :=
  numbers ← find_iteration_numbers model_dir entries;
  py_max numbers.

Definition iteration_name (model_dir : string) (entries : list string) : result string :=
  n ← iteration_number model_dir entries;
  Ok ("model_" +:+ format_05d n).

Definition model_path (model_dir : string) (entries : list string) : result string :=
  n ← iteration_number model_dir entries;
  Ok (model_dir +:+ "/model_" +:+ format_05d n +:+ ".h5").

(** The artifact of iteration [n] as the optimizer names it. *)
Definition model_file (n : nat) : string :=
  "model_" +:+ format_05d (Z.of_nat n) +:+ ".h5".

End IterationNumber.

(** ** Artifact store: [get_parameter_indices], [get_h5_data], [set_h5_data] *)

Module ArtifactStore.

(** The dataset [MODEL/data]: [data[e][p][k]] with axis 0 the elements,
    axis 1 the parameters and axis 2 the points of an element. The shape of
    an array is the shape of the nesting. *)
Definition tensor (A : Type) : Type := list (list (list A)).

Section arrays.
Context {A : Type}.

Definition has_shape (a n c : nat) (t : tensor A) : Prop :=
  length t = a /\
  Forall (fun plane => length plane = n /\ Forall (fun row => length row = c) plane) t.

Definition row_at (plane : list (list A)) (i : nat) : result (list A) :=
  match plane !! i with
  | Some r => Ok r
  | None => Raise (IndexError "index out of bounds for axis 1")
  end.

(** [data[:, i, :]] *)
Definition slice_axis1 (i : nat) (data : tensor A) : result (list (list A)) :=
  mapM (fun plane => row_at plane i) data.

(** [data[:, indices, :]] on an array in memory *)
Definition take_axis1 (indices : list nat) (data : tensor A) : result (tensor A) :=
  mapM (fun plane => mapM (row_at plane) indices) data.

(** Broadcasting of one axis: equal length, or length one repeated. *)
Definition broadcast {X} (n : nat) (l : list X) : result (list X) :=
  if decide (length l = n) then Ok l
  else match l with
       | [x] => Ok (replicate n x)
       | _ => Raise (ValueError "could not broadcast input array")
       end.

End arrays.

(** [data.astype(dtype)]: every element converted by the cast of numpy from
    the element type of [data] to [dtype]. *)
Definition astype {A B} (cast : B -> A) (data : tensor B) : tensor A :=
  (fun plane : list (list B) => (fun row : list B => cast <$> row) <$> plane)
    <$> (data : list (list (list B))).

Section store.
(** [A] is the element type of the dataset in the file, [B] the one of the
    array that [set_h5_data] is given, and [cast] the conversion that numpy
    applies when values of type [B] are assigned into an array of type [A]
    (it rounds or wraps where [A] cannot hold the value). *)
Context {A B : Type} (cast : B -> A).

(** An artifact: the dataset and the second entry of its [DIMENSION_LABELS]
    attribute (decoded). *)
Record h5file := {
  dimension_labels : string;
  model_data : tensor A;
}.

(** The files that exist, and the index lists of the dataset writes that
    reached the storage layer, oldest first. *)
Record store := {
  files : gmap string h5file;
  write_log : list (string * list nat);
}.

(** [os.path.exists(filename)] *)
Definition path_exists (st : store) (filename : string) : bool :=
  bool_decide (is_Some (files st !! filename)).

(** [h5py.File(filename, mode)] for modes that do not create *)
Definition open_h5 (st : store) (filename : string) : result h5file :=
  match files st !! filename with
  | Some f => Ok f
  | None => Raise (External ("h5py.File: unable to open " +:+ filename))
  end.

(** [l.index(x)] *)
Fixpoint index_of (l : list string) (x : string) : option nat :=
  match l with
  | [] => None
  | y :: l' => if String.eqb y x then Some O else S <$> index_of l' x
  end.

Definition py_index (l : list string) (x : string) : result nat :=
  match index_of l x with
  | Some i => Ok i
  | None => Raise (ValueError ("'" +:+ x +:+ "' is not in list"))
  end.

(** [attrs.get("DIMENSION_LABELS")[1][1:-1].replace(" ", "").split("|")] *)
Definition dim_labels_of (f : h5file) : list string :=
  split "|" (remove_spaces (strip_ends (dimension_labels f))).

Definition get_parameter_indices (parameters : list string) (st : store)
    (filename : string) : result (list nat) :=
  h5 ← open_h5 st filename;
  mapM (py_index (dim_labels_of h5)) parameters.

(** One plane of [dest[:, j, :] = rows]: the row takes the length of the
    one it replaces, and its values the element type of [dest]. *)
Definition assign_row (j : nat) (plane : list (list A)) (row : list B)
  : result (list (list A)) :=
  old ← row_at plane j;
  row' ← broadcast (length old) row;
  Ok (<[j := (cast <$> row' : list A)]> plane).

Fixpoint zip_mapM {X Y Z} (f : X -> Y -> result Z) (xs : list X) (ys : list Y)
  : result (list Z) :=
  match xs, ys with
  | x :: xs', y :: ys' => z ← f x y; zs ← zip_mapM f xs' ys'; Ok (z :: zs)
  | _, _ => Ok []
  end.

(** [dest[:, j, :] = rows] on an array in memory: numpy converts the values
    to the element type of [dest]. *)
Definition assign_axis1 (j : nat) (rows : list (list B)) (dest : tensor A)
  : result (tensor A) :=
  rows' ← broadcast (length dest) rows;
  zip_mapM (assign_row j) dest rows'.

(** The loop [for i in range(len(indices)): data_copy[:, indices[i], :] = data[:, i, :]] *)
Fixpoint overwrite_slices (indices : list nat) (i : nat) (data : tensor B)
    (data_copy : tensor A) : result (tensor A) :=
  match indices with
  | [] => Ok data_copy
  | j :: rest =>
      rows ← slice_axis1 i data;
      data_copy ← assign_axis1 j rows data_copy;
      overwrite_slices rest (S i) data data_copy
  end.

(** [indices.sort()] *)
Definition sort_indices (indices : list nat) : list nat := merge_sort le indices.

Fixpoint increasing (l : list nat) : bool :=
  match l with
  | x :: ((y :: _) as l') => (x <? y)%nat && increasing l'
  | _ => true
  end.

Fixpoint put_rows (indices : list nat) (rows plane : list (list A)) : list (list A) :=
  match indices, rows with
  | j :: indices', r :: rows' => put_rows indices' rows' (<[j := r]> plane)
  | _, _ => plane
  end.

(** [dat[:, indices, :] = value] on the dataset in the file, [value] an
    array of the element type of the dataset: the storage layer takes an
    index list only in increasing order and within the axis. *)
Definition h5_write_axis1 (indices : list nat) (value dat : tensor A)
  : result (tensor A) :=
  if negb (increasing indices) then
    Raise (TypeError "Indexing elements must be in increasing order")
  else if negb (forallb (fun plane => forallb (fun j => (j <? length plane)%nat) indices) dat) then
    Raise (IndexError "Index out of range")
  else Ok (zip_with (put_rows indices) value dat).

(** The rows of a plane at the given indices (nothing where there is none). *)
Definition rows_of (plane : list (list A)) (indices : list nat) : list (list A) :=
  (fun j => default [] (plane !! j)) <$> indices.

(** [get_h5_data(filename)] with [self.parameters = parameters] *)
Definition get_h5_data (parameters : list string) (st : store) (filename : string)
  : result (tensor A) :=
  indices ← get_parameter_indices parameters st filename;
  h5 ← open_h5 st filename;
  let data := model_data h5 in
  take_axis1 indices data.

(** What [set_h5_data] computes before it touches the file: the new dataset
    and the index list of the write. [data_copy] is a copy of the dataset
    and has its element type. *)
Definition updated_dataset (parameters : list string) (st : store)
    (filename : string) (data : tensor B) : result (h5file * list nat) :=
  indices ← get_parameter_indices parameters st filename;
  h5 ← open_h5 st filename;
  let dat := model_data h5 in
  data_copy ← overwrite_slices indices 0 data dat;
  let indices := sort_indices indices in
  value ← take_axis1 indices data_copy;
  dat ← h5_write_axis1 indices value dat;
  Ok ({| dimension_labels := dimension_labels h5; model_data := dat |}, indices).

(** [set_h5_data(filename, data)] with [self.parameters = parameters]: the
    outcome and the store it leaves. *)
Definition set_h5_data (parameters : list string) (filename : string)
    (data : tensor B) (st : store) : result unit * store :=
  if negb (path_exists st filename) then
    (Raise (Exception "only works on existing files."), st)
  else
    match updated_dataset parameters st filename data with
    | Ok (h5, indices) =>
        (Ok (), {| files := <[filename := h5]> (files st);
                   write_log := write_log st ++ [(filename, indices)] |})
    | Raise e => (Raise e, st)
    end.

End store.
Arguments h5file : clear implicits.
Arguments store : clear implicits.

(** The values of [data] are held exactly by the element type that [cast]
    converts to: [valA] and [valB] give the number that an element of either
    type stands for. *)
Definition exact_in {A B V} (valA : A -> V) (valB : B -> V) (cast : B -> A)
    (data : tensor B) : Prop :=
  Forall (Forall (Forall (fun v => valA (cast v) = valB v))) data.

(** The cast of numpy from a signed 64-bit integer to an unsigned byte: the
    value wraps around. *)
Definition to_uint8 (z : Z) : Z := z mod 256.

(** A small artifact with three parameters, two elements and two points per
    element, for the examples. *)
Definition sample_file : h5file Z :=
  {| dimension_labels := "[ VSV | VSH | RHO ]";
     model_data := [ [[1; 2]; [3; 4]; [5; 6]];
                     [[7; 8]; [9; 10]; [11; 12]] ] |}.

Definition sample_store : store Z :=
  {| files := {[ "OPTIMIZATION/MODELS/model_00000.h5" := sample_file ]};
     write_log := [] |}.

Definition sample_update : tensor Z :=
  [ [[50; 60]; [10; 20]];
    [[110; 120]; [70; 80]] ].

(** An update with a value that an unsigned byte does not hold. *)
Definition wide_update : tensor Z :=
  [ [[300; 60]; [10; 20]];
    [[110; 120]; [70; 80]] ].

End ArtifactStore.

(** ** Preparing an iteration: [LasifComponent.has_iteration],
       [LasifComponent.set_up_iteration], [Optimize.prepare_iteration] *)

Module PrepareIteration.

Section prepare.
(** [L] is the state of the LASIF project (its catalogue of iterations and
    events), [P] the state of the project component (its attributes and
    the bookkeeping records of the iterations). *)
Context {L P : Type}.

Record World := {
  lasif : L;
  project : P;
  (** the entries of [OPTIMIZATION/MODELS], from which the default name of
      an iteration is read *)
  model_dir : string;
  model_dir_entries : list string;
  (** what [warnings.warn] was given, oldest first *)
  warnings : list string;
}.

(** The calls that leave this repository's source files. A call that raises
    leaves the state it was given. *)
Record Collaborators := {
  (** [lapi.list_iterations(lasif_comm, output=True)] *)
  lapi_list_iterations : L -> value;
  (** [lapi.list_events(lasif_comm, just_list=True, iteration=None, output=True)] *)
  lapi_list_events : L -> result value;
  (** [lapi.set_up_iteration(lasif_comm, iteration=name, events=events)] *)
  lapi_set_up_iteration : string -> value -> L -> result L;
  (** [project.change_attribute(attribute, new_value)] *)
  change_attribute : string -> string -> P -> result P;
  (** [project.validation_dataset] *)
  validation_dataset : P -> value;
  (** [project.create_iteration_toml(it_name)] *)
  create_iteration_toml : string -> P -> result P;
  (** [project.get_iteration_attributes(validation)] *)
  get_iteration_attributes : bool -> P -> result P;
  (** [project.meshes], [project.interpolation_mode], [project.interpolation_site] *)
  meshes : P -> string;
  interpolation_mode : P -> string;
  interpolation_site : P -> string;
  (** [salvus.flow.api.get_site(name)] *)
  get_site : string -> result string;
  (** [multi_mesh.add_fields_for_interpolation_to_mesh()] *)
  add_fields_for_interpolation_to_mesh : L * P -> result (L * P);
  (** [LasifComponent.move_mesh(event=None, iteration=it_name)], as it acts
      on the project: the calls of LASIF in it and the copy of the mesh *)
  lasif_move_mesh : string -> L * P -> result (L * P);
}.

Variable c : Collaborators.

Definition on_lasif (f : L -> result L) : M World unit := fun w =>
  match f (lasif w) with
  | Ok l => (Ok (), {| lasif := l; project := project w; model_dir := model_dir w;
                       model_dir_entries := model_dir_entries w; warnings := warnings w |})
  | Raise e => (Raise e, w)
  end.



Definition warn (msg : string) : M World unit := fun w =>
  (Ok (), {| lasif := lasif w; project := project w; model_dir := model_dir w;
             model_dir_entries := model_dir_entries w; warnings := warnings w ++ [msg] |}).

(** [it_name in iterations] *)
Definition name_in (it_name : string) (iterations : value) : bool :=
  match iterations with
  | VList l | VSet l => bool_decide (it_name ∈ l)
  | VStr s => contains it_name s
  | _ => false
  end.

(** [LasifComponent.has_iteration]: [True], [False], or [None] when the
    function runs off its end. *)
Definition has_iteration (it_name : string) : M World value :=
  bind (read (fun w => lapi_list_iterations c (lasif w))) (fun iterations =>
  if isinstance_list iterations then
    if name_in it_name iterations then ret (VBool true)
    else ret VNone
  else ret (VBool false)).

(** [LasifComponent.set_up_iteration] *)
Definition set_up_iteration (name : string) (events : value) : M World unit :=
  bind (read (fun w => lapi_list_iterations c (lasif w))) (fun iterations =>
  bind (if isinstance_list iterations && name_in name iterations
        then warn ("Iteration " +:+ name +:+ " already exists")
        else ret ()) (fun _ =>
  on_lasif (lapi_set_up_iteration c name events))).

(** [LasifComponent.list_events()] *)
Definition list_events : M World value :=
  fun w => (lapi_list_events c (lasif w), w).









(** The name is registered in the event catalogue. *)
Definition registered (it_name : string) (w : World) : Prop :=
  exists l, lapi_list_iterations c (lasif w) = VList l /\ it_name ∈ l.

End prepare.
Arguments World : clear implicits.
Arguments Collaborators : clear implicits.




End PrepareIteration.

(** ** The file system as the code sees it through [os], [shutil] and [open] *)

Module FS.

Section fs.
Context {C : Type}.

Inductive node :=
  | Dir
  | File (content : C).

(** A path is resolved into its components before it is looked up: empty
    components and [.] vanish, an absolute path starts with the component
    [/]. The working directory (no component) and the root always exist.
    Links and [..] are not resolved. *)
Definition keep (c : string) : bool :=
  negb (String.eqb c "") && negb (String.eqb c ".").

Definition resolve (s : string) : list string :=
  (if startswith "/" s then ["/"] else []) ++ List.filter keep (split "/" s).

Definition parent (p : list string) : list string := removelast p.

Definition is_dir (fs : gmap (list string) node) (p : list string) : bool :=
  bool_decide (p = [] \/ p = ["/"]) ||
  match fs !! p with
  | Some Dir => true
  | _ => false
  end.

Definition present (fs : gmap (list string) node) (p : list string) : bool :=
  is_dir fs p || bool_decide (is_Some (fs !! p)).

(** [os.path.exists(s)] *)
Definition path_exists (s : string) (fs : gmap (list string) node) : bool :=
  present fs (resolve s).

(** How the look-up of a path fails when [p], a folder it has to go
    through, is not one. The first component on the way to [p] that is not a
    folder decides: a regular file there and the path runs through a file
    ([NotADirectoryError]), nothing there and the path does not exist
    ([FileNotFoundError]). *)
Fixpoint file_in_the_way (fs : gmap (list string) node) (done todo : list string) : bool :=
  match todo with
  | [] => false
  | d :: todo' =>
      let q := done ++ [d] in
      if is_dir fs q then file_in_the_way fs q todo'
      else match fs !! q with
           | Some (File _) => true
           | _ => false
           end
  end.

Definition missing_error (fs : gmap (list string) node) (p : list string) (s : string)
  : exn :=
  if file_in_the_way fs [] p then NotADirectoryError s else FileNotFoundError s.

(** [os.mkdir(s)]: one level only *)
Definition mkdir (s : string) : M (gmap (list string) node) unit := fun fs =>
  let p := resolve s in
  if present fs p then (Raise (FileExistsError s), fs)
  else if negb (is_dir fs (parent p)) then (Raise (missing_error fs (parent p) s), fs)
  else (Ok (), <[p := Dir]> fs).

(** The text of a path given by its components, as [pathlib] writes it. *)
Fixpoint join_path (p : list string) : string :=
  match p with
  | [] => ""
  | [d] => d
  | d :: p' => d +:+ "/" +:+ join_path p'
  end.

Definition path_text (p : list string) : string :=
  match p with
  | d :: p' => if String.eqb d "/" then "/" +:+ join_path p' else join_path p
  | [] => "."
  end.

(** The missing directories on the way to [p], shortest first; or, when a
    regular file is in the way, the path just below it, at which [os.mkdir]
    is refused. *)
Fixpoint missing_dirs (fs : gmap (list string) node) (done todo : list string)
  : list (list string) + list string :=
  match todo with
  | [] => inl []
  | d :: todo' =>
      let q := done ++ [d] in
      if is_dir fs q then missing_dirs fs q todo'
      else if present fs q then inr (q ++ take 1 todo')
      else match missing_dirs fs q todo' with
           | inl qs => inl (q :: qs)
           | inr r => inr r
           end
  end.

(** [os.makedirs(s)], [s] the text of a [pathlib] path: the directories
    are made from the top, and a regular file in the way makes the first
    [os.mkdir] below it raise. *)
Definition makedirs (s : string) : M (gmap (list string) node) unit := fun fs =>
  let p := resolve s in
  if present fs p then (Raise (FileExistsError s), fs)
  else match missing_dirs fs [] p with
       | inl qs => (Ok (), foldl (fun fs q => <[q := Dir]> fs) fs qs)
       | inr q => (Raise (NotADirectoryError (path_text q)), fs)
       end.

Definition put (p : list string) (c : C) (s : string)
  : M (gmap (list string) node) unit := fun fs =>
  if is_dir fs p then (Raise (IsADirectoryError s), fs)
  else if negb (is_dir fs (parent p)) then (Raise (missing_error fs (parent p) s), fs)
  else (Ok (), <[p := File c]> fs).

(** [open(s, "w")] followed by the write of the whole content *)
Definition write_file (s : string) (c : C) : M (gmap (list string) node) unit :=
  put (resolve s) c s.

(** Reading the whole content of [s] *)
Definition read_file (s : string) : M (gmap (list string) node) C := fun fs =>
  match fs !! resolve s with
  | Some (File c) => (Ok c, fs)
  | Some Dir => (Raise (IsADirectoryError s), fs)
  | None =>
      if is_dir fs (resolve s) then (Raise (IsADirectoryError s), fs)
      else (Raise (missing_error fs (resolve s) s), fs)
  end.

(** [os.path.basename(s)] *)
Definition basename (s : string) : string := List.last (split "/" s) "".

(** [s.rstrip("/")] *)
Fixpoint rstrip_slashes (s : string) : string :=
  match s with
  | String c s' =>
      match rstrip_slashes s' with
      | EmptyString => if Ascii.eqb c "/" then EmptyString else String c EmptyString
      | r => String c r
      end
  | EmptyString => EmptyString
  end.

(** Where [shutil.copy] puts a file: inside [dst] when it is a directory,
    under the name of the source. *)
Definition real_dst (fs : gmap (list string) node) (src dst : string) : string :=
  if is_dir fs (resolve dst) then join2 dst (basename src) else dst.

(** [shutil.copy(src, dst)] of a regular file: a file is not copied onto
    itself; the source is opened, then the destination. *)
Definition copy (src dst : string) : M (gmap (list string) node) unit :=
  d ← read (fun fs => real_dst fs src dst);
  same ← read (fun fs => bool_decide (resolve d = resolve src) && present fs (resolve src));
  if (same : bool) then raise (SameFileError src d)
  else
    c ← read_file src;
    put (resolve d) c d.

Definition unlink (p : list string) : M (gmap (list string) node) unit := fun fs =>
  (Ok (), delete p fs).

(** [shutil.move(src, dst)] of a regular file: into [dst] when it is a
    directory, unless the name is taken there; else onto [dst]. *)
Definition move (src dst : string) : M (gmap (list string) node) unit :=
  into ← read (fun fs => is_dir fs (resolve dst));
  let d := if (into : bool) then join2 dst (basename (rstrip_slashes src)) else dst in
  clash ← read (fun fs => into && present fs (resolve d));
  if (clash : bool) then
    raise (ShutilError ("Destination path '" +:+ d +:+ "' already exists"))
  else
    c ← read_file src;
    put (resolve d) c d;;
    if bool_decide (resolve d = resolve src) then ret () else unlink (resolve src).

(** No regular file stands at [p] or on the way to it. *)
Definition clear_way (fs : gmap (list string) node) (p : list string) : Prop :=
  forall q c, q `prefix_of` p -> fs !! q <> Some (File c).

End fs.
Arguments node : clear implicits.

End FS.

(** ** Start-up of an optimizer: [Optimize.__init__], [_write_initial_config],
       [_read_config] *)

Module Startup.

Inductive toml_value :=
  | TStr (s : string)
  | TInt (z : Z)
  | TFloat (num : Z) (den : positive)
  | TBool (b : bool)
  | TArray (items : list string).

Global Instance toml_value_eq_dec : EqDecision toml_value.
Proof. solve_decision. Defined.

(** A configuration file holds one TOML table; directories and files are
    the nodes of [FS]. Paths are built as [pathlib] builds them; the file
    system resolves them. *)

(** The attributes [__init__] has set when it is past the configuration. *)
Record Optimize := {
  opt_folder : string;
  config_file : string;
  initial_model : toml_value;
  step_length : toml_value;
  max_iterations : option toml_value;
  parameters : toml_value;
}.

(** What a derived optimizer supplies: its name, its own folders, and the
    rest of the constructor (lines 82 to 93: [_get_path_for_iteration],
    [_init_directories], [_issue_first_task], [_read_task_file]). *)
Record Derived := {
  optimizer_name : string;
  _initialize_derived_class_folders :
    M (gmap (list string) (FS.node (gmap string toml_value))) unit;
  initialize_folders_and_tasks :
    Optimize -> M (gmap (list string) (FS.node (gmap string toml_value))) Optimize;
}.

Definition default_config : gmap string toml_value :=
  {[ "step_length" := TFloat 1 1000;
     "parameters" := TArray ["VSV"; "VSH"; "VPV"; "VPH"];
     "initial_model" := TStr "";
     "max_iterations" := TInt 1000 ]}.

(** [_write_initial_config] *)
Definition _write_initial_config (config_file : string)
  : M (gmap (list string) (FS.node (gmap string toml_value))) unit :=
  FS.write_file config_file default_config.

(** [config[key]] *)
Definition getitem (config : gmap string toml_value) (key : string) : result toml_value :=
  match config !! key with
  | Some v => Ok v
  | None => Raise (KeyError key)
  end.

(** [_read_config] *)
Definition _read_config (opt_folder config_file : string)
  : M (gmap (list string) (FS.node (gmap string toml_value))) Optimize :=
  ex ← read (FS.path_exists config_file);
  if (ex : bool) then
    config ← FS.read_file config_file;
    initial_model ← lift (getitem config "initial_model");
    step_length ← lift (getitem config "step_length");
    let max_iterations := config !! "max_iterations" in
    parameters ← lift (getitem config "parameters");
    ret {| opt_folder := opt_folder; config_file := config_file;
           initial_model := initial_model; step_length := step_length;
           max_iterations := max_iterations; parameters := parameters |}
  else raise (Exception "Can't read the ADAM config file").

(** [sys.exit()] *)
Definition sys_exit {S A} : M S A := raise SystemExit.

(** Lines 62 to 80 of [__init__]: the configuration must be there and name
    an initial model. *)
Definition check_config (opt_folder : string)
  : M (gmap (list string) (FS.node (gmap string toml_value))) Optimize :=
  let config_file := path_div opt_folder "opt_config.toml" in
  ex ← read (FS.path_exists config_file);
  if (ex : bool) then
    self ← _read_config opt_folder config_file;
    if decide (initial_model self = TStr "") then sys_exit
    else ret self
  else
    _write_initial_config config_file;;
    sys_exit.

(** Lines 44 to 60: the optimization folder and the folders of the derived
    class. *)
Definition prepare_folders (d : Derived) (inversion_root : string)
  : M (gmap (list string) (FS.node (gmap string toml_value))) unit :=
  let opt_folder := path_div inversion_root "OPTIMIZATION" in
  ex ← read (FS.path_exists opt_folder);
  (if (ex : bool) then ret () else FS.mkdir opt_folder);;
  _initialize_derived_class_folders d.

(** [Optimize.__init__(comm)] with [comm.project.paths["inversion_root"]] *)
Definition __init__ (d : Derived) (inversion_root : string)
  : M (gmap (list string) (FS.node (gmap string toml_value))) Optimize :=
  prepare_folders d inversion_root;;
  self ← check_config (path_div inversion_root "OPTIMIZATION");
  initialize_folders_and_tasks d self.

(** A derived optimizer without folders of its own. *)
Definition plain_optimizer : Derived :=
  {| optimizer_name := "SGDM";
     _initialize_derived_class_folders := ret ();
     initialize_folders_and_tasks := ret |}.

Definition fresh_project : gmap (list string) (FS.node (gmap string toml_value)) :=
  {[ ["inversion"] := FS.Dir ]}.

Definition filled_config : gmap string toml_value :=
  <[ "initial_model" := TStr "/models/start.h5" ]> default_config.

Definition configured_project : gmap (list string) (FS.node (gmap string toml_value)) :=
  {[ ["inversion"] := FS.Dir;
     ["inversion"; "OPTIMIZATION"] := FS.Dir;
     ["inversion"; "OPTIMIZATION"; "opt_config.toml"] := FS.File filled_config ]}.

End Startup.

(** ** The remote worker: [remote_scripts/interpolation.py] *)

Module RemoteWorker.

Section worker.
(** Meshes, simulation descriptions and the tables of the input document
    are opaque to the script. *)
Context {Mesh Doc MeshSettings SourceInfo ReceiverInfo SimulationInfo : Type}.

Inductive blob :=
  | BMesh (m : Mesh)
  | BDoc (d : Doc).

(** [info["mesh_info"]]; a key that the document does not have is [None]. *)
Record MeshInfo := {
  mesh_folder : string;
  event_name : option string;
  long_term_mesh_folder : option string;
  settings : MeshSettings;
}.

(** The input document, as [toml.load] returns it. *)
Record Info := {
  mesh_info : MeshInfo;
  gradient : bool;
  source_info : option SourceInfo;
  receiver_info : option ReceiverInfo;
  simulation_info : option SimulationInfo;
}.

Record Collaborators := {
  (** [SmoothieSEM] configured from the two tables, then [create_mesh()] *)
  smoothie_mesh : MeshInfo -> SourceInfo -> result Mesh;
  (** [multi_mesh.api.gll_2_gll_layered_multi(from_mesh, to_mesh,
      nelem_to_search, layers, parameters, stored_array=None)]: the target
      mesh with the fields put in *)
  gll_2_gll_layered_multi :
    Mesh -> Mesh -> Z -> string -> list string -> result Mesh;
  (** [sc.simulation.Waveform] built on [output/mesh.h5], validated, and
      turned into its dictionary *)
  simulation_dictionary :
    MeshInfo -> SourceInfo -> ReceiverInfo -> SimulationInfo -> result Doc;
}.

Variable c : Collaborators.

(** [d[key]] *)
Definition getitem {X} (key : string) (o : option X) : result X :=
  match o with
  | Some x => Ok x
  | None => Raise (KeyError key)
  end.

Definition read_mesh (path : string) : M (gmap (list string) (FS.node blob)) Mesh :=
  b ← FS.read_file path;
  match b with
  | BMesh m => ret m
  | BDoc _ => raise (External ("UnstructuredMesh.from_h5: not a mesh: " +:+ path))
  end.

(** [create_mesh(mesh_info, source_info)] *)
Definition create_mesh (mesh_info : MeshInfo) (source_info : SourceInfo)
  : M (gmap (list string) (FS.node blob)) unit :=
  ev ← lift (getitem "event_name" (event_name mesh_info));
  let mesh_location := os_path_join (mesh_folder mesh_info) [ev; "mesh.h5"] in
  lt ← lift (getitem "long_term_mesh_folder" (long_term_mesh_folder mesh_info));
  let long_term_mesh_location := os_path_join lt [ev; "mesh.h5"] in
  here ← read (FS.path_exists mesh_location);
  if (here : bool) then FS.copy mesh_location "./to_mesh.h5"
  else
    there ← read (FS.path_exists long_term_mesh_location);
    if (there : bool) then FS.copy long_term_mesh_location "./to_mesh.h5"
    else
      m ← lift (smoothie_mesh c mesh_info source_info);
      FS.write_file "to_mesh.h5" (BMesh m).

(** [get_standard_gradient(mesh_info)] *)
Definition get_standard_gradient (mesh_info : MeshInfo)
  : M (gmap (list string) (FS.node blob)) unit :=
  let remote_gradient :=
    path_div (path_div (mesh_folder mesh_info) "standard_gradient") "mesh.h5" in
  FS.copy remote_gradient "./to_mesh.h5".

(** The parent of [pathlib.Path(a) / b / "mesh.h5"] *)
Definition store_folder (mesh_folder event_name : string) : string :=
  path_div mesh_folder event_name.

Definition store_location (mesh_folder event_name : string) : string :=
  path_div (store_folder mesh_folder event_name) "mesh.h5".

(** [move_mesh(mesh_folder, event_name)] *)
Definition move_mesh (mesh_folder event_name : string)
  : M (gmap (list string) (FS.node blob)) unit :=
  let mesh_location := store_location mesh_folder event_name in
  here ← read (FS.path_exists mesh_location);
  if (here : bool) then ret ()
  else
    parent_here ← read (FS.path_exists (store_folder mesh_folder event_name));
    (if (parent_here : bool) then ret ()
     else FS.makedirs (store_folder mesh_folder event_name));;
    FS.copy "./output/mesh.h5" mesh_location.

(** [interpolate_fields(from_mesh, to_mesh, layers, parameters)]: the
    target file is changed in place. *)
Definition interpolate_fields (from_mesh to_mesh layers : string)
    (parameters : list string) : M (gmap (list string) (FS.node blob)) unit :=
  src ← read_mesh from_mesh;
  dst ← read_mesh to_mesh;
  m ← lift (gll_2_gll_layered_multi c src dst 20 layers parameters);
  FS.write_file to_mesh (BMesh m).

(** [create_simulation_object(mesh_info, source_info, receiver_info,
    simulation_info)] *)
Definition create_simulation_object (mesh_info : MeshInfo) (source_info : SourceInfo)
    (receiver_info : ReceiverInfo) (simulation_info : SimulationInfo)
  : M (gmap (list string) (FS.node blob)) unit :=
  d ← lift (simulation_dictionary c mesh_info source_info receiver_info simulation_info);
  FS.write_file "output/simulation_dict.toml" (BDoc d).

Definition interpolated_parameters : list string :=
  ["VPV"; "VPH"; "VSV"; "VSH"; "RHO"].

(** The script, from the loaded document on. The names [source_info],
    [receiver_info] and [simulation_info] that the first branch binds are
    the ones the last branch uses; both branches test the same
    [info["gradient"]], so here the last branch reads them again from the
    same document. *)
Definition main (info : Info) : M (gmap (list string) (FS.node blob)) unit :=
  let mesh_info := mesh_info info in
  (if negb (gradient info) then
     source_info ← lift (getitem "source_info" (source_info info));
     receiver_info ← lift (getitem "receiver_info" (receiver_info info));
     simulation_info ← lift (getitem "simulation_info" (simulation_info info));
     create_mesh mesh_info source_info
   else get_standard_gradient mesh_info);;
  interpolate_fields "./from_mesh.h5" "./to_mesh.h5" "nocore" interpolated_parameters;;
  FS.move "./to_mesh.h5" "./output/mesh.h5";;
  if negb (gradient info) then
    ev ← lift (getitem "event_name" (event_name mesh_info));
    move_mesh (mesh_folder mesh_info) ev;;
    source_info ← lift (getitem "source_info" (source_info info));
    receiver_info ← lift (getitem "receiver_info" (receiver_info info));
    simulation_info ← lift (getitem "simulation_info" (simulation_info info));
    create_simulation_object mesh_info source_info receiver_info simulation_info
  else ret ().

(** Where the mesh that [create_mesh] leaves in [to_mesh.h5] comes from:
    the mesh folder, else the long-term folder, else the mesher. *)
Inductive mesh_source (fs : gmap (list string) (FS.node blob)) (mi : MeshInfo)
    (si : SourceInfo) (m : Mesh) : Prop :=
  | reused_mesh ev lt :
      event_name mi = Some ev ->
      long_term_mesh_folder mi = Some lt ->
      fs !! FS.resolve (os_path_join (mesh_folder mi) [ev; "mesh.h5"]) = Some (FS.File (BMesh m)) ->
      mesh_source fs mi si m
  | reused_long_term_mesh ev lt :
      event_name mi = Some ev ->
      long_term_mesh_folder mi = Some lt ->
      FS.path_exists (os_path_join (mesh_folder mi) [ev; "mesh.h5"]) fs = false ->
      fs !! FS.resolve (os_path_join lt [ev; "mesh.h5"]) = Some (FS.File (BMesh m)) ->
      mesh_source fs mi si m
  | built_mesh ev lt :
      event_name mi = Some ev ->
      long_term_mesh_folder mi = Some lt ->
      FS.path_exists (os_path_join (mesh_folder mi) [ev; "mesh.h5"]) fs = false ->
      FS.path_exists (os_path_join lt [ev; "mesh.h5"]) fs = false ->
      smoothie_mesh c mi si = Ok m ->
      mesh_source fs mi si m.

(** The folder of a job as the script expects it: the output folder is
    there, and no folder stands where the script puts its files. *)
Definition job_folder_ready (fs : gmap (list string) (FS.node blob)) : Prop :=
  fs !! ["output"] = Some FS.Dir
  /\ fs !! ["to_mesh.h5"] <> Some FS.Dir
  /\ fs !! ["output"; "mesh.h5"] <> Some FS.Dir
  /\ fs !! ["output"; "simulation_dict.toml"] <> Some FS.Dir.

End worker.
Arguments blob : clear implicits.
Arguments MeshInfo : clear implicits.
Arguments Info : clear implicits.
Arguments Collaborators : clear implicits.

(** Meshes as the list of the steps that made them, for the examples. *)
Definition trace_tools : Collaborators (list string) string unit unit unit unit :=
  {| smoothie_mesh := fun _ _ => Ok ["smoothie"];
     gll_2_gll_layered_multi := fun src dst _ layers _ =>
       Ok (dst ++ ["fields of " +:+ String.concat "+" src +:+ " (" +:+ layers +:+ ")"]);
     simulation_dictionary := fun _ _ _ _ => Ok "simulation on output/mesh.h5" |}.

Definition forward_info : Info unit unit unit unit :=
  {| mesh_info := {| mesh_folder := "/scratch/meshes"; event_name := Some "event_a";
                     long_term_mesh_folder := Some "/project/meshes"; settings := () |};
     gradient := false;
     source_info := Some (); receiver_info := Some (); simulation_info := Some () |}.

Definition gradient_info : Info unit unit unit unit :=
  {| mesh_info := {| mesh_folder := "/scratch/meshes"; event_name := None;
                     long_term_mesh_folder := None; settings := () |};
     gradient := true;
     source_info := None; receiver_info := None; simulation_info := None |}.

Definition job_folder : gmap (list string) (FS.node (blob (list string) string)) :=
  {[ ["from_mesh.h5"] := FS.File (BMesh ["model"]);
     ["output"] := FS.Dir;
     ["/"; "scratch"] := FS.Dir;
     ["/"; "scratch"; "meshes"] := FS.Dir;
     ["/"; "scratch"; "meshes"; "standard_gradient"] := FS.Dir;
     ["/"; "scratch"; "meshes"; "standard_gradient"; "mesh.h5"] :=
       FS.File (BMesh ["gradient mesh"]) ]}.

End RemoteWorker.

(** ** Seismogram lookup: [LasifComponent.find_seismograms] *)

Module Seismograms.

Definition iteration_folder (iteration : string) : string :=
  if negb (startswith "ITERATION_" iteration) then "ITERATION_" +:+ iteration
  else iteration.

Definition event_folder (lasif_root event iteration : string) : string :=
  os_path_join lasif_root
    ["SYNTHETICS"; "EARTHQUAKES"; iteration_folder iteration; event].

Definition find_seismograms {C} (lasif_root event iteration : string)
  : M (gmap (list string) (FS.node C)) string :=
  let iteration := iteration_folder iteration in
  let event_folder :=
    os_path_join lasif_root ["SYNTHETICS"; "EARTHQUAKES"; iteration; event] in
  here ← read (FS.path_exists event_folder);
  (if (here : bool) then ret () else FS.mkdir event_folder);;
  ret (os_path_join event_folder ["receivers.h5"]).

(** The folder of the iteration, in which the event folders stand. *)
Definition iteration_path (lasif_root iteration : string) : string :=
  os_path_join lasif_root ["SYNTHETICS"; "EARTHQUAKES"; iteration_folder iteration].

(** A name of an event or an iteration: one path component (not empty, not
    [.], no separator in it). *)
Definition plain_name (s : string) : Prop :=
  FS.keep s = true /\ contains "/" s = false.

(** A LASIF project with the synthetics of one iteration set up. *)
Definition lasif_project : gmap (list string) (FS.node string) :=
  {[ ["lasif"] := FS.Dir;
     ["lasif"; "SYNTHETICS"] := FS.Dir;
     ["lasif"; "SYNTHETICS"; "EARTHQUAKES"] := FS.Dir;
     ["lasif"; "SYNTHETICS"; "EARTHQUAKES"; "ITERATION_model_00000"] := FS.Dir;
     ["lasif"; "SYNTHETICS"; "EARTHQUAKES"; "ITERATION_model_00000"; "event_a"] := FS.Dir;
     ["lasif"; "SYNTHETICS"; "EARTHQUAKES"; "ITERATION_model_00000"; "event_a"; "receivers.h5"] :=
       FS.File "seismograms of event_a" ]}.

End Seismograms.

(** ** Gradient lookup: [LasifComponent.find_gradient] *)

Module Gradients.

(** [find_gradient(iteration, event, smooth)]; [gradients] is what the
    look-up [lasif_comm.project.Project["gradients"]] gives. *)
Definition find_gradient {C} (gradients : result string) (iteration event : string)
    (smooth : bool) : M (gmap (list string) (FS.node C)) string :=
  gradients ← lift gradients;
  let gradient :=
    if smooth then
      os_path_join gradients ["ITERATION_" +:+ iteration; event; "smooth_gradient.h5"]
    else
      os_path_join gradients ["ITERATION_" +:+ iteration; event; "gradient.h5"] in
  here ← read (FS.path_exists gradient);
  if (here : bool) then ret gradient
  else raise (ValueError ("File: " +:+ gradient +:+ " does not exist.")).

(** The gradients of one event of one iteration, raw and smoothed. *)
Definition gradient_store : gmap (list string) (FS.node string) :=
  {[ ["lasif"] := FS.Dir;
     ["lasif"; "GRADIENTS"] := FS.Dir;
     ["lasif"; "GRADIENTS"; "ITERATION_model_00000"] := FS.Dir;
     ["lasif"; "GRADIENTS"; "ITERATION_model_00000"; "event_a"] := FS.Dir;
     ["lasif"; "GRADIENTS"; "ITERATION_model_00000"; "event_a"; "gradient.h5"] :=
       FS.File "gradient of event_a";
     ["lasif"; "GRADIENTS"; "ITERATION_model_00000"; "event_a"; "smooth_gradient.h5"] :=
       FS.File "smoothed gradient of event_a" ]}.

End Gradients.

(** ** Finding the LASIF project: [LasifComponent._find_project_comm] *)

Module ProjectComm.

Section search.
Context {C Comm : Type}.

(** [folder.parent] for an absolute path given by its components, the root
    [/] first: the root is its own parent. *)
Definition path_parent (folder : list string) : list string :=
  if decide (folder = ["/"]) then folder else removelast folder.

(** [(folder / "lasif_config.toml").exists()] *)
Definition has_config (fs : gmap (list string) (FS.node C)) (folder : list string) : bool :=
  FS.present fs (folder ++ ["lasif_config.toml"]).

(** The loop [for _ in range(max_folder_depth)]: the folder in which the
    configuration file is found, if any. *)
Fixpoint search (fs : gmap (list string) (FS.node C)) (depth : nat)
    (folder : list string) : option (list string) :=
  match depth with
  | O => None
  | S depth' =>
      if has_config fs folder then Some folder
      else search fs depth' (path_parent folder)
  end.

Definition max_folder_depth : nat := 4.

(** [_find_project_comm()]: [folder] is [pathlib.Path(lasif_root).absolute()],
    [get_communicator folder] is [Project(folder).get_communicator()]. *)
Definition _find_project_comm (get_communicator : list string -> result Comm)
    (lasif_root : string) (folder : list string)
    (fs : gmap (list string) (FS.node C)) : result Comm :=
  match search fs max_folder_depth folder with
  | Some found => get_communicator found
  | None => Raise (ValueError ("Path " +:+ lasif_root +:+ " is not a LASIF project"))
  end.

End search.

(** A project whose root is given by a folder two levels inside it, and a
    folder five levels below a project. *)
Definition nested_project : gmap (list string) (FS.node string) :=
  {[ ["/"; "p"] := FS.Dir;
     ["/"; "p"; "lasif_config.toml"] := FS.File "[lasif_project]";
     ["/"; "p"; "a"] := FS.Dir;
     ["/"; "p"; "a"; "b"] := FS.Dir;
     ["/"; "p"; "a"; "b"; "c"] := FS.Dir;
     ["/"; "p"; "a"; "b"; "c"; "d"] := FS.Dir ]}.

End ProjectComm.

(** ** The mesh of an event for an iteration: [LasifComponent.move_mesh] *)

Module EventMesh.

(** [move_mesh(event, iteration)]; [find_event_mesh event] is
    [lapi.find_event_mesh(lasif_comm, event)], [get_simulation_mesh] is
    [lapi.get_simulation_mesh(lasif_comm, event, iteration)]. *)
Definition move_mesh {C} (find_event_mesh : string -> result (bool * string))
    (get_simulation_mesh : string -> string -> result string)
    (event iteration : string) : M (gmap (list string) (FS.node C)) unit :=
  '(has, event_mesh) ← lift (find_event_mesh event);
  if negb has then raise (ValueError (event_mesh +:+ " does not exist"))
  else
    event_iteration_mesh ← lift (get_simulation_mesh event iteration);
    FS.copy event_mesh event_iteration_mesh.

(** A project with the mesh of one event and the folder of one iteration. *)
Definition mesh_project : gmap (list string) (FS.node string) :=
  {[ ["lasif"] := FS.Dir;
     ["lasif"; "MESHES"] := FS.Dir;
     ["lasif"; "MESHES"; "event_a.h5"] := FS.File "mesh of event_a";
     ["lasif"; "MODELS"] := FS.Dir;
     ["lasif"; "MODELS"; "ITERATION_model_00000"] := FS.Dir ]}.

End EventMesh.

(** * Properties *)

(** ** The result monad *)

Lemma bind_raises {A B} (m : result A) (f : A -> result B) :
  (forall a, raises (f a)) -> raises (m ≫= f).
Proof.
  intros Hf. destruct m as [a|e]; simpl.
  - apply Hf.
  - by exists e.
Qed.

Lemma raises_not_returns {A} (m : result A) : raises m -> ~ returns m.
Proof. intros [e ->] [a Ha]. discriminate. Qed.

(** ** Minibatch selector *)

Section selector_facts.
Import Selector.

Lemma py_set_is_set (v w : value) : py_set v = Ok w -> exists l, w = VSet l.
Proof. destruct v; simpl; intros; simplify_eq; eauto. Qed.

(** Sets cannot be added: [list(set(a) + set(b))] raises whatever [a] and
    [b] are. *)
Lemma list_of_set_sum_raises ord (a b : value) : raises (list_of_set_sum ord a b).
Proof.
  unfold list_of_set_sum.
  destruct (py_set a) as [sa|e] eqn:Ha; simpl; [|by exists e].
  destruct (py_set b) as [sb|e] eqn:Hb; simpl; [|by exists e].
  apply py_set_is_set in Ha as [la ->]. apply py_set_is_set in Hb as [lb ->].
  simpl. eexists; reflexivity.
Qed.

(** An integer minus a list is a [TypeError]. *)
Lemma py_isub_list (count : value) (l : list string) :
  py_isub count (VList l) = Raise (unsupported "-=" count (VList l)).
Proof. unfold py_isub, py_sub_op. by destruct count. Qed.

(** C1. Every call of the selector after the first iteration (the calls that
    have a control group and a blocked-event set) ends in an exception: no
    batch is returned, so none that holds the control group, avoids the
    blocked events and is free of duplicates. *)
Theorem get_minibatch_later_raises (ord : set_order) (comm : Comm) :
  raises (get_minibatch ord comm false).
Proof.
  unfold get_minibatch, later_batch.
  apply bind_raises; intros [blocked use_these].
  do 5 (apply bind_raises; intros ?).
  apply bind_raises; intros [[[count batch] avail] existing].
  apply bind_raises; intros add_batch.
  apply list_of_set_sum_raises.
Qed.

(** With collaborators that answer as typed (an integer quota, lists of
    events), the exception is the [TypeError] of [count -= existing]. *)
Lemma get_minibatch_later_type_error ord i subset random_event :
  get_minibatch ord (comm_of i subset random_event) false
  = Raise (TypeError "unsupported operand type(s) for -=: 'int' and 'list'").
Proof. reflexivity. Qed.

(** The first iteration hands back what the sampler of the catalogue
    answers. *)
Lemma get_minibatch_first_is_subset ord i subset random_event :
  get_minibatch ord (comm_of i subset random_event) true
  = subset (VInt (quota i)) (VList (all_events i)) VNone.
Proof. reflexivity. Qed.

(** C2. A call whose quota can be met (two events wanted, three free) gets
    neither a batch of two events nor an exhaustion signal from the
    selector: the call ends in the [TypeError] of [count -= existing]. *)
Theorem get_minibatch_quota_type_error :
  quota open_call
    <= Z.of_nat (length (list_difference (all_events open_call) (blocked_events open_call)))
  /\ forall ord,
       get_minibatch ord (comm_of open_call take_subset no_random_event) false
       = Raise (TypeError "unsupported operand type(s) for -=: 'int' and 'list'").
Proof. split; [by vm_compute | reflexivity]. Qed.


End selector_facts.

(** ** Artifact store *)

Section artifact_facts.
Import ArtifactStore.
Context {A : Type}.
Implicit Types (plane : list (list A)) (data : tensor A) (idx : list nat).

Lemma mapM_Ok {X Y} (f : X -> result Y) (g : X -> Y) (l : list X) :
  Forall (fun x => f x = Ok (g x)) l -> mapM f l = Ok (g <$> l).
Proof.
  induction 1 as [|x l Hx _ IH]; [done|].
  simpl. rewrite Hx. simpl. rewrite IH. done.
Qed.

Lemma index_of_lookup (l : list string) x i :
  index_of l x = Some i -> l !! i = Some x.
Proof.
  revert i. induction l as [|y l IH]; intros i; simpl; [done|].
  destruct (String.eqb_spec y x) as [->|Hne].
  - by intros [= <-].
  - destruct (index_of l x) as [k|]; simpl; [|done].
    intros [= <-]. by apply IH.
Qed.

Lemma index_of_elem_of (l : list string) x :
  x ∈ l -> is_Some (index_of l x).
Proof.
  induction 1 as [y l|y z l _ IH]; simpl.
  - rewrite String.eqb_refl. eauto.
  - destruct (String.eqb z y); [eauto|]. destruct IH as [k ->]. simpl. eauto.
Qed.

(** The indices of distinct parameters that are all labels of the file:
    they exist, are distinct and lie within the labels. *)
Lemma parameter_indices (labels P : list string) :
  Forall (fun p => p ∈ labels) P ->
  exists idx, mapM (py_index labels) P = Ok idx
    /\ Forall2 (fun p i => labels !! i = Some p) P idx.
Proof.
  induction 1 as [|p P Hp _ (idx & Hidx & Hall)].
  - by exists [].
  - destruct (index_of_elem_of _ _ Hp) as [i Hi].
    exists (i :: idx). split.
    + assert (py_index labels p = Ok i) as Hpi by (unfold py_index; by rewrite Hi).
      simpl. rewrite Hpi. simpl. by rewrite Hidx.
    + constructor; [by apply index_of_lookup|done].
Qed.

Lemma indices_NoDup (labels P : list string) idx :
  Forall2 (fun p i => labels !! i = Some p) P idx -> NoDup P -> NoDup idx.
Proof.
  induction 1 as [|p i P idx Hpi Hall IH]; intros Hnd; [constructor|].
  apply NoDup_cons in Hnd as [Hp HP]. apply NoDup_cons. split; [|by apply IH].
  intros Hi. apply Hp.
  apply list_elem_of_lookup in Hi as [k Hk].
  destruct (Forall2_lookup_r _ _ _ _ _ Hall Hk) as (q & Hq & Hlab).
  assert (q = p) as -> by congruence.
  by eapply list_elem_of_lookup_2.
Qed.

Lemma indices_bound (labels P : list string) idx :
  Forall2 (fun p i => labels !! i = Some p) P idx ->
  Forall (fun i => (i < length labels)%nat) idx.
Proof.
  induction 1; constructor; [by eapply lookup_lt_Some|done].
Qed.

Lemma indices_disjoint (labels P Q : list string) idx jdx :
  Forall2 (fun p i => labels !! i = Some p) P idx ->
  Forall2 (fun p i => labels !! i = Some p) Q jdx ->
  (forall q, q ∈ Q -> q ∉ P) ->
  forall j, j ∈ jdx -> j ∉ idx.
Proof.
  intros HP HQ Hdis j Hj Hi.
  apply list_elem_of_lookup in Hj as [k Hk]. apply list_elem_of_lookup in Hi as [k' Hk'].
  destruct (Forall2_lookup_r _ _ _ _ _ HQ Hk) as (q & Hq & Hlq).
  destruct (Forall2_lookup_r _ _ _ _ _ HP Hk') as (p & Hp & Hlp).
  assert (q = p) as -> by congruence.
  eapply Hdis; by eapply list_elem_of_lookup_2.
Qed.

(** *** Rows put into a plane *)

Lemma put_rows_length idx rows plane :
  length (put_rows idx rows plane) = length plane.
Proof.
  revert rows plane. induction idx as [|j idx IH]; intros [|r rows] plane; simpl; try done.
  by rewrite IH, length_insert.
Qed.

Lemma put_rows_lookup_ne idx rows plane k :
  k ∉ idx -> put_rows idx rows plane !! k = plane !! k.
Proof.
  revert rows plane. induction idx as [|j idx IH]; intros [|r rows] plane Hk; simpl; try done.
  apply not_elem_of_cons in Hk as [Hkj Hk].
  rewrite IH by done. by apply list_lookup_insert_ne.
Qed.

Lemma put_rows_lookup idx rows plane i k r :
  NoDup idx -> idx !! i = Some k -> rows !! i = Some r -> (k < length plane)%nat ->
  put_rows idx rows plane !! k = Some r.
Proof.
  revert rows plane i. induction idx as [|j idx IH]; intros [|r' rows] plane [|i] Hnd Hi Hr Hk;
    simplify_eq/=.
  - apply NoDup_cons in Hnd as [Hj _].
    rewrite put_rows_lookup_ne by done. by apply list_lookup_insert_eq.
  - apply NoDup_cons in Hnd as [_ Hnd].
    eapply IH; eauto. by rewrite length_insert.
Qed.


(** *** Arrays in memory *)

Lemma mapM_ext_Forall {X Y} (f g : X -> result Y) (l : list X) :
  Forall (fun x => f x = g x) l -> mapM f l = mapM g l.
Proof.
  induction 1 as [|x l Hx _ IH]; [done|]. simpl. by rewrite Hx, IH.
Qed.

Lemma row_at_Ok plane j :
  (j < length plane)%nat -> row_at plane j = Ok (default [] (plane !! j)).
Proof.
  intros Hj. unfold row_at. by destruct (lookup_lt_is_Some_2 _ _ Hj) as [r ->].
Qed.

Lemma rows_at_Ok plane idx :
  Forall (fun j => (j < length plane)%nat) idx ->
  mapM (row_at plane) idx = Ok (rows_of plane idx).
Proof.
  intros Hidx. apply mapM_Ok. eapply Forall_impl; [done|]. apply row_at_Ok.
Qed.

Lemma take_axis1_Ok idx data n :
  Forall (fun plane => length plane = n) data ->
  Forall (fun j => (j < n)%nat) idx ->
  take_axis1 idx data = Ok ((fun plane => rows_of plane idx) <$> data).
Proof.
  intros Hdata Hidx. apply mapM_Ok. eapply Forall_impl; [done|].
  intros plane <-. by apply rows_at_Ok.
Qed.

Lemma slice_axis1_Ok i data n :
  Forall (fun plane => length plane = n) data -> (i < n)%nat ->
  slice_axis1 i data = Ok ((fun plane => default [] (plane !! i)) <$> data).
Proof.
  intros Hdata Hi. apply mapM_Ok. eapply Forall_impl; [done|].
  intros plane <-. by apply row_at_Ok.
Qed.

Lemma zip_mapM_Ok {X Y Z} (f : X -> Y -> result Z) (g : X -> Y -> Z) xs ys :
  Forall2 (fun x y => f x y = Ok (g x y)) xs ys ->
  zip_mapM f xs ys = Ok (zip_with g xs ys).
Proof.
  induction 1 as [|x y xs ys Hxy _ IH]; [done|].
  simpl. rewrite Hxy. simpl. by rewrite IH.
Qed.

Lemma has_shape_planes a n c data :
  has_shape a n c data -> Forall (fun plane => length plane = n) data.
Proof. intros [_ H]. eapply Forall_impl; [done|]. by intros ? [? _]. Qed.

Lemma has_shape_row a n c data plane j r :
  has_shape a n c data -> plane ∈ data -> plane !! j = Some r -> length r = c.
Proof.
  intros [_ H] Hp Hr. rewrite Forall_forall in H. destruct (H _ Hp) as [_ Hrows].
  rewrite Forall_forall in Hrows. eapply Hrows, list_elem_of_lookup_2, Hr.
Qed.


Lemma has_shape_lookup a n c data :
  has_shape a n c data <->
  length data = a /\
  forall e plane, data !! e = Some plane ->
    length plane = n /\ forall j r, plane !! j = Some r -> length r = c.
Proof.
  unfold has_shape. rewrite Forall_lookup.
  split; intros [Ha H]; (split; [done|]); intros e plane He;
    destruct (H e plane He) as [Hn Hrows]; (split; [done|]).
  - by rewrite Forall_lookup in Hrows.
  - by rewrite Forall_lookup.
Qed.

Lemma zip_with_keep_left {X Y} (xs : list X) (ys : list Y) :
  length xs = length ys -> zip_with (fun x _ => x) xs ys = xs.
Proof.
  revert ys. induction xs as [|x xs IH]; intros [|y ys] Hlen; simplify_eq/=; [done|].
  by rewrite IH.
Qed.

(** *** The sorted index list *)

Lemma sort_indices_Permutation idx : sort_indices idx ≡ₚ idx.
Proof. apply merge_sort_Permutation. Qed.

Lemma sort_indices_sorted idx : NoDup idx -> StronglySorted lt (sort_indices idx).
Proof.
  intros Hnd.
  assert (NoDup (sort_indices idx)) as Hnd' by (by rewrite sort_indices_Permutation).
  assert (StronglySorted le (sort_indices idx)) as Hs
    by (apply StronglySorted_merge_sort; apply _).
  induction Hs as [|x l _ IH Hx]; [constructor|].
  apply NoDup_cons in Hnd' as [Hxl Hl]. constructor; [by apply IH|].
  rewrite Forall_forall in Hx |- *. intros y Hy.
  specialize (Hx y Hy). assert (x <> y) by (by intros ->). lia.
Qed.

Lemma increasing_sorted (l : list nat) : StronglySorted lt l -> increasing l = true.
Proof.
  induction 1 as [|x l _ IH Hx]; [done|].
  destruct l as [|y l]; [done|]. simpl in *. rewrite IH.
  apply Forall_cons in Hx as [Hxy _]. apply Nat.ltb_lt in Hxy. by rewrite Hxy.
Qed.

Lemma indices_in_range idx data n :
  Forall (fun plane => length plane = n) data -> Forall (fun j => (j < n)%nat) idx ->
  forallb (fun plane => forallb (fun j => (j <? length plane)%nat) idx) data = true.
Proof.
  intros Hdata Hidx. apply forallb_forall. intros plane Hp%list_elem_of_In.
  apply forallb_forall. intros j Hj%list_elem_of_In.
  rewrite Forall_forall in Hdata. rewrite Forall_forall in Hidx. rewrite (Hdata _ Hp).
  apply Nat.ltb_lt. auto.
Qed.

(** *** One plane: what is written back is the copy; what is read back is
    the data *)

Lemma put_rows_rows_of srt idx (tp dp : list (list A)) :
  NoDup srt -> srt ≡ₚ idx -> Forall (fun k => (k < length dp)%nat) idx ->
  put_rows srt (rows_of (put_rows idx tp dp) srt) dp = put_rows idx tp dp.
Proof.
  intros Hnd Hperm Hidx. apply list_eq. intros k.
  destruct (decide (k ∈ srt)) as [Hk|Hk].
  - pose proof Hk as [i Hi]%list_elem_of_lookup.
    assert (k < length dp)%nat as Hlt.
    { rewrite Forall_forall in Hidx. apply Hidx. by rewrite <- Hperm. }
    destruct (lookup_lt_is_Some_2 (put_rows idx tp dp) k) as [r Hr];
      [by rewrite put_rows_length|].
    rewrite Hr. eapply put_rows_lookup; [done|done| |done].
    unfold rows_of. rewrite list_lookup_fmap, Hi. simpl. by rewrite Hr.
  - rewrite !put_rows_lookup_ne; [done| |done]. by rewrite <- Hperm.
Qed.

Lemma rows_of_put_rows idx (tp dp : list (list A)) :
  NoDup idx -> length tp = length idx -> Forall (fun k => (k < length dp)%nat) idx ->
  rows_of (put_rows idx tp dp) idx = tp.
Proof.
  intros Hnd Hlen Hidx. apply list_eq. intros i.
  unfold rows_of. rewrite list_lookup_fmap.
  destruct (idx !! i) as [k|] eqn:Hk; simpl.
  - destruct (lookup_lt_is_Some_2 tp i) as [r Hr].
    { rewrite Hlen. by eapply lookup_lt_Some. }
    rewrite Forall_lookup in Hidx.
    rewrite (put_rows_lookup idx tp dp i k r); eauto.
  - symmetry. apply lookup_ge_None. rewrite Hlen. by apply lookup_ge_None.
Qed.

Lemma row_at_put_rows_ne idx (tp dp : list (list A)) j :
  j ∉ idx -> row_at (put_rows idx tp dp) j = row_at dp j.
Proof. intros Hj. unfold row_at. by rewrite put_rows_lookup_ne. Qed.


Lemma mapM_py_index_Forall2 (labels Q : list string) jdx :
  mapM (py_index labels) Q = Ok jdx ->
  Forall2 (fun q j => labels !! j = Some q) Q jdx.
Proof.
  revert jdx. induction Q as [|q Q IH]; intros jdx; simpl.
  - intros [= <-]. constructor.
  - destruct (py_index labels q) as [j|] eqn:Hj; simpl; [|done].
    destruct (mapM (py_index labels) Q) as [jdx'|]; simpl; [|done].
    intros [= <-]. constructor; [|by apply IH].
    unfold py_index in Hj. destruct (index_of labels q) eqn:Hi; simplify_eq.
    by apply index_of_lookup.
Qed.

(** *** The whole array *)

Lemma written_back_is_copy srt idx (T D : tensor A) :
  NoDup srt -> srt ≡ₚ idx ->
  Forall (fun dp => Forall (fun k => (k < length dp)%nat) idx) D ->
  zip_with (put_rows srt)
    ((fun cp => rows_of cp srt) <$> zip_with (fun dp tp => put_rows idx tp dp) D T) D
  = zip_with (fun dp tp => put_rows idx tp dp) D T.
Proof.
  unfold tensor in *. intros Hnd Hperm HD. apply list_eq. intros e.
  rewrite !lookup_zip_with, list_lookup_fmap, lookup_zip_with.
  destruct (D !! e) as [dp|] eqn:Hdp; simpl; [|done].
  destruct (T !! e) as [tp|]; simpl; [|done].
  rewrite Forall_lookup in HD. by rewrite put_rows_rows_of by eauto.
Qed.

Lemma read_back_is_data idx (T D : tensor A) :
  NoDup idx -> length D = length T ->
  Forall (fun tp => length tp = length idx) T ->
  Forall (fun dp => Forall (fun k => (k < length dp)%nat) idx) D ->
  (fun cp => rows_of cp idx) <$> zip_with (fun dp tp => put_rows idx tp dp) D T = T.
Proof.
  unfold tensor in *. intros Hnd Hlen HT HD. apply list_eq. intros e.
  rewrite list_lookup_fmap, lookup_zip_with.
  destruct (T !! e) as [tp|] eqn:Htp.
  - destruct (lookup_lt_is_Some_2 D e) as [dp Hdp].
    { rewrite Hlen. by eapply lookup_lt_Some. }
    rewrite Hdp. simpl.
    rewrite Forall_lookup in HT. rewrite Forall_lookup in HD.
    by rewrite rows_of_put_rows by eauto.
  - by destruct (D !! e).
Qed.

Lemma mapM_zip_with_left {X Y Z} (h : X -> result Z) (F : X -> Y -> X) xs ys :
  length xs = length ys -> (forall x y, h (F x y) = h x) ->
  mapM h (zip_with F xs ys) = mapM h xs.
Proof.
  intros Hlen Hh. revert ys Hlen.
  induction xs as [|x xs IH]; intros [|y ys] Hlen; simplify_eq/=; [done|].
  by rewrite Hh, IH.
Qed.

Lemma take_axis1_untouched idx jdx (T D : tensor A) :
  length D = length T -> (forall j, j ∈ jdx -> j ∉ idx) ->
  take_axis1 jdx (zip_with (fun dp tp => put_rows idx tp dp) D T) = take_axis1 jdx D.
Proof.
  intros Hlen Hdis. unfold take_axis1.
  apply (mapM_zip_with_left (fun plane => mapM (row_at plane) jdx)); [done|].
  intros dp tp. apply mapM_ext_Forall, Forall_forall.
  intros j Hj. apply row_at_put_rows_ne. auto.
Qed.

End artifact_facts.

(** *** Assignment into the copy of the dataset *)

Section write_facts.
Import ArtifactStore.
Context {A B : Type} (cast : B -> A).
Implicit Types (plane : list (list A)) (idx : list nat).

Lemma astype_lookup (T : list (list (list B))) (e : nat) :
  (astype cast T : list (list (list A))) !! e
  = (fun plane : list (list B) => (fun row : list B => cast <$> row) <$> plane) <$> T !! e.
Proof. apply list_lookup_fmap. Qed.

Lemma has_shape_astype a n c (T : tensor B) :
  has_shape a n c T -> has_shape a n c (astype cast T).
Proof.
  intros [Hlen HT]. split; [unfold astype; by rewrite length_fmap|].
  unfold astype. apply Forall_fmap. eapply Forall_impl; [exact HT|].
  intros tp [Hn Hrows]. simpl. split; [by rewrite length_fmap|].
  apply Forall_fmap. eapply Forall_impl; [exact Hrows|].
  intros r Hr. simpl. by rewrite length_fmap.
Qed.

Lemma assign_axis1_Ok j (rows : list (list B)) (dest : tensor A) a n c :
  has_shape a n c dest -> length rows = a -> Forall (fun r => length r = c) rows ->
  (j < n)%nat ->
  assign_axis1 cast j rows dest
  = Ok (zip_with (fun plane r => <[j := cast <$> r]> plane) dest rows).
Proof.
  intros Hdest Hlen Hrows Hj. apply has_shape_lookup in Hdest as [Ha Hdest].
  unfold assign_axis1, broadcast. rewrite decide_True by congruence. simpl.
  apply zip_mapM_Ok. apply Forall2_same_length_lookup. split; [congruence|].
  intros e plane r He Hr. destruct (Hdest e plane He) as [Hn Hc].
  unfold assign_row. rewrite row_at_Ok by lia. simpl.
  destruct (lookup_lt_is_Some_2 plane j) as [old Hold]; [lia|].
  rewrite Hold. simpl. unfold broadcast.
  rewrite Forall_lookup in Hrows.
  rewrite decide_True; [done|]. rewrite (Hc j old Hold). eauto.
Qed.

Lemma assign_axis1_shape j (rows : list (list B)) (dest : tensor A) a n c :
  has_shape a n c dest -> length rows = a -> Forall (fun r => length r = c) rows ->
  has_shape a n c (zip_with (fun plane r => <[j := cast <$> r]> plane) dest rows).
Proof.
  intros Hdest Hlen Hrows. apply has_shape_lookup in Hdest as [Ha Hdest].
  apply has_shape_lookup. split; [rewrite length_zip_with; lia|].
  intros e plane He. apply lookup_zip_with_Some in He as (dp & r & -> & Hdp & Hr).
  destruct (Hdest e dp Hdp) as [Hn Hc]. split; [by rewrite length_insert|].
  intros k r' Hk. apply list_lookup_insert_Some in Hk as [(_ & <- & _)|(_ & Hk)].
  - rewrite Forall_lookup in Hrows. rewrite length_fmap. eauto.
  - eauto.
Qed.

(** The loop of [set_h5_data] puts slice [i] of the data, converted to the
    element type of the dataset, at index [indices[i]] of the copy, plane
    by plane. *)
Lemma overwrite_slices_Ok (T : tensor B) a m n c idx : forall i0 (D : tensor A),
  has_shape a m c T -> has_shape a n c D ->
  (i0 + length idx = m)%nat -> Forall (fun j => (j < n)%nat) idx ->
  overwrite_slices cast idx i0 T D
  = Ok (zip_with (fun dp tp => put_rows idx (drop i0 tp) dp) D (astype cast T)).
Proof.
  unfold tensor in *.
  induction idx as [|j idx IH]; intros i0 D HT HD Hlen Hidx.
  - simpl. rewrite zip_with_keep_left; [done|].
    unfold astype. rewrite length_fmap. destruct HT as [-> _], HD as [-> _]. done.
  - apply Forall_cons in Hidx as [Hj Hidx]. simpl in Hlen. simpl.
    pose proof (has_shape_planes _ _ _ _ HT) as HTp.
    rewrite (slice_axis1_Ok i0 T m) by (done || lia). simpl.
    set (rows := (fun tp : list (list B) => default [] (tp !! i0)) <$> T).
    assert (length rows = a) as Hrl.
    { unfold rows. rewrite length_fmap. by destruct HT. }
    assert (Forall (fun r => length r = c) rows) as Hrc.
    { apply Forall_fmap, Forall_forall. intros tp Htp. simpl.
      rewrite Forall_forall in HTp.
      destruct (lookup_lt_is_Some_2 tp i0) as [r Hr]; [rewrite (HTp _ Htp); lia|].
      rewrite Hr. simpl. exact (has_shape_row _ _ _ _ _ _ _ HT Htp Hr). }
    rewrite (assign_axis1_Ok j rows D a n c) by done. simpl.
    rewrite (IH (S i0)); [|done|by apply assign_axis1_shape|lia|done].
    f_equal. apply list_eq. intros e.
    rewrite !lookup_zip_with. unfold rows. rewrite list_lookup_fmap, astype_lookup.
    destruct (D !! e) as [dp|]; simpl; [|done].
    destruct (T !! e) as [tp|] eqn:Htp; simpl; [|done].
    rewrite Forall_lookup in HTp.
    destruct (lookup_lt_is_Some_2 tp i0) as [r Hr]; [rewrite (HTp _ _ Htp); lia|].
    rewrite Hr. simpl.
    assert (((fun row : list B => cast <$> row) <$> tp) !! i0 = Some (cast <$> r)) as Hr'
      by (by rewrite list_lookup_fmap, Hr).
    by rewrite (drop_S _ _ _ Hr').
Qed.

Lemma updated_dataset_Ok P (st : store A) filename (T : tensor B) h5 a c idx :
  files st !! filename = Some h5 ->
  mapM (py_index (dim_labels_of h5)) P = Ok idx ->
  NoDup idx -> length idx = length P ->
  Forall (fun j => (j < length (dim_labels_of h5))%nat) idx ->
  has_shape a (length (dim_labels_of h5)) c (model_data h5) ->
  has_shape a (length P) c T ->
  updated_dataset cast P st filename T
  = Ok ({| dimension_labels := dimension_labels h5;
           model_data := zip_with (fun dp tp => put_rows idx tp dp) (model_data h5)
                           (astype cast T) |},
        sort_indices idx).
Proof.
  intros Hfile Hidx Hnd Hlen Hrange HD HT.
  unfold updated_dataset, get_parameter_indices, open_h5. rewrite Hfile. simpl.
  rewrite Hidx. simpl.
  rewrite (overwrite_slices_Ok T a (length P) (length (dim_labels_of h5)) c idx 0)
    by (done || lia).
  simpl.
  set (n := length (dim_labels_of h5)) in *.
  set (C := zip_with _ (model_data h5) (astype cast T)).
  pose proof (has_shape_planes _ _ _ _ HD) as HDp.
  assert (Forall (fun plane => length plane = n) C) as HC.
  { apply Forall_lookup. intros e cp He.
    apply lookup_zip_with_Some in He as (dp & tp & -> & Hdp & _).
    rewrite put_rows_length. rewrite Forall_lookup in HDp. eauto. }
  assert (Forall (fun j => (j < n)%nat) (sort_indices idx)) as Hsrt
    by (by rewrite sort_indices_Permutation).
  rewrite (take_axis1_Ok _ C n) by done. simpl.
  unfold h5_write_axis1.
  rewrite (increasing_sorted _ (sort_indices_sorted _ Hnd)). simpl.
  rewrite (indices_in_range _ _ n) by done. simpl.
  unfold C. rewrite written_back_is_copy; [done| | |].
  - eapply NoDup_Permutation_proper; [apply sort_indices_Permutation|done].
  - apply sort_indices_Permutation.
  - eapply Forall_impl; [exact HDp|]. intros dp ->. done.
Qed.

(** What a write leaves, under the conditions of the round trip. *)
Lemma set_h5_data_Ok (P : list string) (filename : string) (T : tensor B)
    (st : store A) (h5 : h5file A) (a c : nat) idx :
  files st !! filename = Some h5 ->
  mapM (py_index (dim_labels_of h5)) P = Ok idx ->
  NoDup idx ->
  has_shape a (length (dim_labels_of h5)) c (model_data h5) ->
  has_shape a (length P) c T ->
  set_h5_data cast P filename T st
  = (Ok (),
     {| files := <[filename :=
                     {| dimension_labels := dimension_labels h5;
                        model_data := zip_with (fun dp tp => put_rows idx tp dp)
                                        (model_data h5) (astype cast T) |}]> (files st);
        write_log := write_log st ++ [(filename, sort_indices idx)] |}).
Proof.
  intros Hfile Hidx Hnd HD HT.
  pose proof (mapM_py_index_Forall2 _ _ _ Hidx) as Hall.
  pose proof (indices_bound _ _ _ Hall) as Hrange.
  pose proof (Forall2_length _ _ _ Hall) as Hlen. symmetry in Hlen.
  unfold set_h5_data, path_exists.
  rewrite bool_decide_true by (rewrite Hfile; eauto). simpl.
  by rewrite (updated_dataset_Ok P st filename T h5 a c idx).
Qed.

Lemma exact_in_astype {V} (valA : A -> V) (valB : B -> V) (T : tensor B) :
  exact_in valA valB cast T -> astype valA (astype cast T) = astype valB T.
Proof.
  unfold exact_in, astype. intros HT.
  rewrite <- list_fmap_compose. apply Forall_fmap_ext_1.
  eapply Forall_impl; [exact HT|]. intros tp Htp. simpl.
  rewrite <- list_fmap_compose. apply Forall_fmap_ext_1.
  eapply Forall_impl; [exact Htp|]. intros r Hr. simpl.
  rewrite <- list_fmap_compose. by apply Forall_fmap_ext_1.
Qed.

(** C4, as the code has it. The tensor [T] is written for the parameter
    subset [P] into an existing artifact; its values are converted to the
    element type of the dataset when they are assigned into the copy of the
    dataset. Reading [P] back returns the converted [T], which has the
    values of [T] when the element type of the dataset holds them exactly;
    reading parameters that are not in [P] returns what it returned before
    the write; the one write that reaches the storage layer uses the indices
    of [P] in strictly increasing order. *)
Theorem set_h5_data_round_trip {V : Type} (valA : A -> V) (valB : B -> V)
    (P : list string) (filename : string) (T : tensor B)
    (st : store A) (h5 : h5file A) (a c : nat) :
  files st !! filename = Some h5 ->
  NoDup P ->
  Forall (fun p => p ∈ dim_labels_of h5) P ->
  has_shape a (length (dim_labels_of h5)) c (model_data h5) ->
  has_shape a (length P) c T ->
  exact_in valA valB cast T ->
  exists st' indices,
    set_h5_data cast P filename T st = (Ok (), st')
    /\ get_h5_data P st' filename = Ok (astype cast T)
    /\ astype valA (astype cast T) = astype valB T
    /\ (forall Q, (forall q, q ∈ Q -> q ∉ P) ->
          get_h5_data Q st' filename = get_h5_data Q st filename)
    /\ write_log st' = write_log st ++ [(filename, indices)]
    /\ StronglySorted lt indices
    /\ (exists idx, get_parameter_indices P st filename = Ok idx /\ indices ≡ₚ idx)
    /\ (forall other, other <> filename -> files st' !! other = files st !! other).
Proof.
  intros Hfile HndP HP HD HT0 Hexact.
  pose proof (has_shape_astype _ _ _ _ HT0) as HT.
  destruct (parameter_indices _ _ HP) as (idx & Hidx & Hall).
  pose proof (indices_NoDup _ _ _ Hall HndP) as Hnd.
  pose proof (indices_bound _ _ _ Hall) as Hrange.
  pose proof (Forall2_length _ _ _ Hall) as Hlen. symmetry in Hlen.
  pose proof (updated_dataset_Ok P st filename T h5 a c idx
                Hfile Hidx Hnd Hlen Hrange HD HT0) as Hupd.
  pose proof (has_shape_planes _ _ _ _ HD) as HDp.
  pose proof (has_shape_planes _ _ _ _ HT) as HTp.
  assert (length (model_data h5) = length (astype cast T)) as Hsame
    by (destruct HD as [-> _], HT as [-> _]; done).
  set (n := length (dim_labels_of h5)) in *.
  set (C := zip_with (fun dp tp => put_rows idx tp dp) (model_data h5) (astype cast T)) in *.
  set (h5' := {| dimension_labels := dimension_labels h5; model_data := C |}) in *.
  exists {| files := <[filename := h5']> (files st);
            write_log := write_log st ++ [(filename, sort_indices idx)] |},
         (sort_indices idx).
  assert (Forall (fun dp => Forall (fun k => (k < length dp)%nat) idx) (model_data h5)) as HDidx.
  { eapply Forall_impl; [exact HDp|]. intros dp ->. done. }
  split; [|split; [|split; [|split; [|split; [|split; [|split]]]]]].
  - unfold set_h5_data, path_exists.
    rewrite bool_decide_true by (rewrite Hfile; eauto). simpl. by rewrite Hupd.
  - unfold get_h5_data, get_parameter_indices, open_h5. simpl.
    rewrite lookup_insert_eq. simpl.
    change (dim_labels_of h5') with (dim_labels_of h5). rewrite Hidx. simpl.
    rewrite (take_axis1_Ok idx C n); [| |done].
    + f_equal. apply read_back_is_data; [done|done| |done].
      eapply Forall_impl; [exact HTp|]. intros tp ->. done.
    + apply Forall_lookup. intros e cp He.
      apply lookup_zip_with_Some in He as (dp & tp & -> & Hdp & _).
      rewrite put_rows_length. rewrite Forall_lookup in HDp. eauto.
  - by apply exact_in_astype.
  - intros Q Hdis. unfold get_h5_data, get_parameter_indices, open_h5. simpl.
    rewrite lookup_insert_eq, Hfile. simpl.
    change (dim_labels_of h5') with (dim_labels_of h5).
    destruct (mapM (py_index (dim_labels_of h5)) Q) as [jdx|e] eqn:Hjdx; simpl; [|done].
    apply take_axis1_untouched; [done|].
    eapply indices_disjoint; [exact Hall|by apply mapM_py_index_Forall2|done].
  - done.
  - by apply sort_indices_sorted.
  - exists idx. split; [|apply sort_indices_Permutation].
    unfold get_parameter_indices, open_h5. rewrite Hfile. simpl. done.
  - intros other Hother. simpl. by rewrite lookup_insert_ne.
Qed.

(** C5. Writing into a file that does not exist raises the exception of
    the guard; no file is created and nothing is written: the store is the
    one the call was given. *)
Theorem set_h5_data_missing_file (P : list string) (filename : string) (T : tensor B)
    (st : store A) :
  files st !! filename = None ->
  set_h5_data cast P filename T st
  = (Raise (Exception "only works on existing files."), st).
Proof.
  intros Hnone. unfold set_h5_data, path_exists.
  rewrite bool_decide_false; [done|]. rewrite Hnone. by intros [? ?].
Qed.

End write_facts.

(** The claim as the specification words it fails where the array holds a
    value that the element type of the dataset does not: numpy converts on
    assignment. A dataset of unsigned bytes takes 300 as 44, and 44 is read
    back. *)
Lemma set_h5_data_wraps :
  fst (ArtifactStore.set_h5_data ArtifactStore.to_uint8 ["RHO"; "VSV"]
         "OPTIMIZATION/MODELS/model_00000.h5"
         ArtifactStore.wide_update ArtifactStore.sample_store) = Ok ()
  /\ ArtifactStore.get_h5_data ["RHO"; "VSV"]
       (snd (ArtifactStore.set_h5_data ArtifactStore.to_uint8 ["RHO"; "VSV"]
               "OPTIMIZATION/MODELS/model_00000.h5"
               ArtifactStore.wide_update ArtifactStore.sample_store))
       "OPTIMIZATION/MODELS/model_00000.h5"
     = Ok [ [[44; 60]; [10; 20]]; [[110; 120]; [70; 80]] ]
  /\ [ [[44; 60]; [10; 20]]; [[110; 120]; [70; 80]] ] <> ArtifactStore.wide_update.
Proof. split; [vm_refl|]. split; [vm_refl|discriminate]. Qed.

Lemma sample_rows_NoDup : NoDup ["RHO"; "VSV"].
Proof. apply (bool_decide_unpack _). by vm_compute. Qed.

Lemma sample_rows_labels :
  Forall (fun p => p ∈ ArtifactStore.dim_labels_of ArtifactStore.sample_file) ["RHO"; "VSV"].
Proof.
  change (ArtifactStore.dim_labels_of ArtifactStore.sample_file) with ["VSV"; "VSH"; "RHO"].
  repeat constructor.
Qed.

Lemma sample_shape :
  ArtifactStore.has_shape 2 (length (ArtifactStore.dim_labels_of ArtifactStore.sample_file)) 2
    (ArtifactStore.model_data ArtifactStore.sample_file).
Proof. vm_compute. repeat constructor. Qed.

Lemma sample_update_shape :
  ArtifactStore.has_shape 2 (length ["RHO"; "VSV"]) 2 ArtifactStore.sample_update.
Proof. vm_compute. repeat constructor. Qed.

Lemma sample_update_bytes :
  ArtifactStore.exact_in id id ArtifactStore.to_uint8 ArtifactStore.sample_update.
Proof. repeat constructor. Qed.

Lemma set_h5_data_round_trip_witness :
  (exists st' indices,
     ArtifactStore.set_h5_data id ["RHO"; "VSV"] "OPTIMIZATION/MODELS/model_00000.h5"
       ArtifactStore.sample_update ArtifactStore.sample_store = (Ok (), st')
     /\ ArtifactStore.get_h5_data ["RHO"; "VSV"] st' "OPTIMIZATION/MODELS/model_00000.h5"
        = Ok ArtifactStore.sample_update
     /\ (forall Q, (forall q, q ∈ Q -> q ∉ ["RHO"; "VSV"]) ->
           ArtifactStore.get_h5_data Q st' "OPTIMIZATION/MODELS/model_00000.h5"
           = ArtifactStore.get_h5_data Q ArtifactStore.sample_store
               "OPTIMIZATION/MODELS/model_00000.h5")
     /\ ArtifactStore.write_log st'
        = ArtifactStore.write_log ArtifactStore.sample_store
          ++ [("OPTIMIZATION/MODELS/model_00000.h5", indices)]
     /\ StronglySorted lt indices)
  /\ (exists st',
        ArtifactStore.set_h5_data ArtifactStore.to_uint8 ["RHO"; "VSV"]
          "OPTIMIZATION/MODELS/model_00000.h5"
          ArtifactStore.sample_update ArtifactStore.sample_store = (Ok (), st')
        /\ ArtifactStore.get_h5_data ["RHO"; "VSV"] st' "OPTIMIZATION/MODELS/model_00000.h5"
           = Ok ArtifactStore.sample_update).
Proof.
  split.
  - destruct (set_h5_data_round_trip (@id Z) (@id Z) (@id Z) ["RHO"; "VSV"]
                "OPTIMIZATION/MODELS/model_00000.h5"
                ArtifactStore.sample_update ArtifactStore.sample_store
                ArtifactStore.sample_file 2 2 eq_refl sample_rows_NoDup sample_rows_labels
                sample_shape sample_update_shape ltac:(repeat constructor))
      as (st' & indices & Hset & Hget & _ & Hframe & Hlog & Hsorted & _).
    exists st', indices. split; [exact Hset|]. split; [exact Hget|].
    split; [exact Hframe|]. split; [exact Hlog|exact Hsorted].
  - destruct (set_h5_data_round_trip ArtifactStore.to_uint8 (@id Z) (@id Z) ["RHO"; "VSV"]
                "OPTIMIZATION/MODELS/model_00000.h5"
                ArtifactStore.sample_update ArtifactStore.sample_store
                ArtifactStore.sample_file 2 2 eq_refl sample_rows_NoDup sample_rows_labels
                sample_shape sample_update_shape sample_update_bytes)
      as (st' & indices & Hset & Hget & _).
    exists st'. split; [exact Hset|exact Hget].
Defined.

Lemma set_h5_data_missing_file_witness :
  ArtifactStore.set_h5_data id ["RHO"; "VSV"] "OPTIMIZATION/MODELS/model_00007.h5"
    ArtifactStore.sample_update ArtifactStore.sample_store
  = (Raise (Exception "only works on existing files."), ArtifactStore.sample_store).
Proof.
  apply (set_h5_data_missing_file (@id Z) ["RHO"; "VSV"] "OPTIMIZATION/MODELS/model_00007.h5").
  reflexivity.
Defined.

(** ** Strings *)

Section string_facts.

Lemma str_app_cons (x : ascii) (a b : string) : String x a +:+ b = String x (a +:+ b).
Proof. reflexivity. Qed.

Lemma str_app_assoc (a b c : string) : (a +:+ b) +:+ c = a +:+ b +:+ c.
Proof. induction a as [|x a IH]; [done|]. rewrite !str_app_cons. by f_equal. Qed.

Lemma str_app_nil_r (a : string) : a +:+ "" = a.
Proof. induction a as [|x a IH]; [done|]. rewrite str_app_cons. by f_equal. Qed.

Lemma contains_char_cons (sep c : ascii) (s : string) :
  contains (String sep "") (String c s)
  = Ascii.eqb c sep || contains (String sep "") s.
Proof.
  simpl. destruct (ascii_dec sep c) as [->|Hne].
  - rewrite Ascii.eqb_refl. by destruct s.
  - destruct (Ascii.eqb_spec c sep) as [->|_]; [done|]. done.
Qed.

Lemma contains_char_nil (sep : ascii) : contains (String sep "") "" = false.
Proof. done. Qed.

Lemma contains_char_app (sep : ascii) (a b : string) :
  contains (String sep "") (a +:+ b)
  = contains (String sep "") a || contains (String sep "") b.
Proof.
  induction a as [|x a IH]; [done|].
  change (String x a +:+ b) with (String x (a +:+ b)).
  rewrite !contains_char_cons, IH. by rewrite orb_assoc.
Qed.

Lemma split_nonempty (sep : ascii) (s : string) : split sep s <> [].
Proof.
  destruct s as [|c s]; simpl; [done|].
  destruct (Ascii.eqb c sep); [done|]. by destruct (split sep s).
Qed.

Lemma split_no_sep (sep : ascii) (s : string) :
  contains (String sep "") s = false -> split sep s = [s].
Proof.
  induction s as [|c s IH]; [done|].
  rewrite contains_char_cons. intros [Hc Hs]%orb_false_elim.
  simpl. rewrite Hc, IH by done. done.
Qed.

(** The first piece of a split is what stands before the first separator. *)
Lemma hd_split (sep : ascii) (a b : string) :
  contains (String sep "") a = false ->
  List.hd "" (split sep (a +:+ String sep b)) = a.
Proof.
  induction a as [|c a IH].
  - intros _. simpl. by rewrite Ascii.eqb_refl.
  - rewrite contains_char_cons. intros [Hc Ha]%orb_false_elim.
    specialize (IH Ha). simpl. rewrite Hc.
    destruct (split sep (a +:+ String sep b)); simpl in *; by subst.
Qed.

Lemma split_app_length (sep : ascii) (a b : string) :
  (2 <= length (split sep (a +:+ String sep b)))%nat.
Proof.
  induction a as [|c a IH]; simpl.
  - rewrite Ascii.eqb_refl. simpl.
    pose proof (split_nonempty sep b). destruct (split sep b); simpl; [done|lia].
  - destruct (Ascii.eqb c sep); simpl; [lia|].
    destruct (split sep (a +:+ String sep b)); simpl in *; lia.
Qed.

(** The last piece of a split is what stands after the last separator. *)
Lemma last_split (sep : ascii) (a b : string) :
  contains (String sep "") b = false ->
  List.last (split sep (a +:+ String sep b)) "" = b.
Proof.
  intros Hb. induction a as [|c a IH]; simpl.
  - rewrite Ascii.eqb_refl. by rewrite split_no_sep.
  - pose proof (split_app_length sep a b) as Hlen.
    destruct (split sep (a +:+ String sep b)) as [|w [|w' ws]]; simpl in Hlen; try lia.
    by destruct (Ascii.eqb c sep).
Qed.

Lemma endswith_refl (p : string) : endswith p p = true.
Proof. destruct p; simpl; [done|]. by rewrite Ascii.eqb_refl, String.eqb_refl. Qed.

Lemma endswith_app (p a : string) : endswith p (a +:+ p) = true.
Proof.
  induction a as [|c a IH]; simpl.
  - apply endswith_refl.
  - rewrite IH. apply orb_true_r.
Qed.

End string_facts.

(** ** Iteration numbering *)

Section iteration_facts.
Import IterationNumber.

Lemma digit_char_spec (d : N) :
  (d < 10)%N -> is_digit (digit_char d) = true /\ digit_value (digit_char d) = Z.of_N d.
Proof.
  intros Hd.
  assert (d = 0 \/ d = 1 \/ d = 2 \/ d = 3 \/ d = 4 \/ d = 5 \/ d = 6 \/ d = 7
          \/ d = 8 \/ d = 9)%N as Hcases by lia.
  repeat (destruct Hcases as [->|Hcases]; [by vm_compute|]). subst. by vm_compute.
Qed.

Lemma is_digit_bounds (c : ascii) :
  is_digit c = true -> (48 <= nat_of_ascii c <= 57)%nat.
Proof.
  unfold is_digit. intros [H1 H2]%andb_true_iff.
  apply Nat.leb_le in H1. apply Nat.leb_le in H2. lia.
Qed.

Lemma is_digit_not_space (c : ascii) : is_digit c = true -> is_space c = false.
Proof.
  intros Hc%is_digit_bounds. unfold is_space.
  apply orb_false_intro.
  - apply andb_false_iff. right. apply Nat.leb_gt. lia.
  - apply Nat.eqb_neq. lia.
Qed.

Lemma is_digit_not_char (c x : ascii) :
  is_digit x = false -> is_digit c = true -> Ascii.eqb c x = false.
Proof. intros Hx Hc. destruct (Ascii.eqb_spec c x) as [->|]; congruence. Qed.

Lemma all_digits_app (a b : string) :
  all_digits (a +:+ b) = all_digits a && all_digits b.
Proof.
  induction a as [|c a IH]; [done|].
  rewrite str_app_cons. simpl. rewrite IH. by rewrite andb_assoc.
Qed.

Lemma all_digits_zeros (k : nat) : all_digits (zeros k) = true.
Proof. induction k; [done|]. simpl. by rewrite IHk. Qed.

Lemma all_digits_no_char (x : ascii) (s : string) :
  is_digit x = false -> all_digits s = true -> contains (String x "") s = false.
Proof.
  intros Hx. induction s as [|c s IH]; [done|].
  simpl all_digits. intros [Hc Hs]%andb_true_iff.
  rewrite contains_char_cons, IH by done. by rewrite (is_digit_not_char c x).
Qed.

(** *** Printing a number *)

Lemma digits_of_all_digits (fuel : nat) (n : N) (tail : string) :
  all_digits tail = true -> all_digits (digits_of fuel n tail) = true.
Proof.
  revert n tail. induction fuel as [|fuel IH]; intros n tail Ht; [done|].
  simpl.
  assert (all_digits (String (digit_char (n mod 10)) tail) = true) as Ht'.
  { simpl. rewrite Ht. destruct (digit_char_spec (n mod 10)) as [-> _]; [|done].
    apply N.mod_lt. done. }
  destruct (n / 10 =? 0)%N; [done|]. by apply IH.
Qed.

Lemma digits_of_nonempty (fuel : nat) (n : N) (tail : string) :
  digits_of (S fuel) n tail <> "".
Proof.
  revert n tail. induction fuel as [|fuel IH]; intros n tail.
  - simpl. by destruct (n / 10 =? 0)%N.
  - change (digits_of (S (S fuel)) n tail)
      with (let acc' := String (digit_char (n mod 10)) tail in
            if (n / 10 =? 0)%N then acc' else digits_of (S fuel) (n / 10) acc').
    simpl. destruct (n / 10 =? 0)%N; [done|]. apply IH.
Qed.

Lemma digits_of_value (fuel : nat) (n : N) (tail : string) :
  (n < 2 ^ N.of_nat fuel)%N ->
  decimal_value (digits_of fuel n tail)
  = Z.of_N n * 10 ^ Z.of_nat (String.length tail) + decimal_value tail.
Proof.
  revert n tail. induction fuel as [|fuel IH]; intros n tail Hn.
  - simpl in *. assert (n = 0%N) as -> by lia. simpl. lia.
  - simpl digits_of.
    pose proof (N.div_mod n 10 ltac:(done)) as Hdm.
    pose proof (N.mod_lt n 10 ltac:(done)) as Hmod.
    destruct (digit_char_spec (n mod 10) Hmod) as [_ Hval].
    destruct (N.eqb_spec (n / 10) 0) as [Hz|Hnz].
    + simpl. rewrite Hval. assert (n = n mod 10)%N as <- by lia. done.
    + rewrite IH.
      * simpl. rewrite Hval.
        replace (Z.of_nat (S (String.length tail))) with (Z.succ (Z.of_nat (String.length tail))) by lia.
        rewrite Z.pow_succ_r by lia.
        assert (Z.of_N n = 10 * Z.of_N (n / 10) + Z.of_N (n mod 10)) as -> by lia.
        ring.
      * rewrite Nat2N.inj_succ, N.pow_succ_r' in Hn.
        apply N.Div0.div_lt_upper_bound. lia.
Qed.

Lemma str_of_N_spec (n : N) :
  all_digits (str_of_N n) = true /\ str_of_N n <> "" /\ decimal_value (str_of_N n) = Z.of_N n.
Proof.
  unfold str_of_N. split; [by apply digits_of_all_digits|]. split; [apply digits_of_nonempty|].
  rewrite digits_of_value; [simpl; lia|].
  rewrite Nat2N.inj_succ, N2Nat.id.
  destruct (N.eq_dec n 0%N) as [->|Hn]; [done|].
  apply N.log2_spec. lia.
Qed.

Lemma decimal_value_zeros (k : nat) (s : string) :
  decimal_value (zeros k +:+ s) = decimal_value s.
Proof. induction k as [|k IH]; [done|]. simpl zeros. rewrite str_app_cons. simpl. by rewrite IH. Qed.

Lemma format_05d_spec (n : nat) :
  all_digits (format_05d (Z.of_nat n)) = true
  /\ format_05d (Z.of_nat n) <> ""
  /\ decimal_value (format_05d (Z.of_nat n)) = Z.of_nat n.
Proof.
  unfold format_05d.
  assert ((Z.of_nat n <? 0) = false) as -> by (apply Z.ltb_ge; lia).
  replace (Z.abs_N (Z.of_nat n)) with (N.of_nat n) by lia.
  destruct (str_of_N_spec (N.of_nat n)) as (Hd & Hne & Hv).
  change (String.append "" ?s) with s.
  split; [|split].
  - by rewrite all_digits_app, all_digits_zeros, Hd.
  - destruct (zeros _); [done|]. by rewrite str_app_cons.
  - rewrite decimal_value_zeros, Hv. lia.
Qed.


(** *** Reading a number *)

Lemma parse_digits_all_digits (s : string) : forall acc,
  all_digits s = true -> s <> "" ->
  parse_digits s acc = Some (acc * 10 ^ Z.of_nat (String.length s) + decimal_value s).
Proof.
  induction s as [|c rest IH]; intros acc Hs Hne; [done|].
  simpl in Hs. apply andb_true_iff in Hs as [Hc Hrest].
  cbn [parse_digits]. rewrite Hc.
  destruct rest as [|u rest'].
  - simpl. f_equal. lia.
  - assert (Ascii.eqb u "_" = false) as ->.
    { apply is_digit_not_char; [done|]. simpl in Hrest. by apply andb_true_iff in Hrest as [? _]. }
    rewrite IH by done.
    f_equal. cbn [decimal_value String.length].
    replace (Z.of_nat (S (S (String.length rest'))))
      with (Z.succ (Z.of_nat (S (String.length rest')))) by lia.
    rewrite Z.pow_succ_r by lia. ring.
Qed.

Lemma rstrip_all_digits (s : string) : all_digits s = true -> rstrip s = s.
Proof.
  induction s as [|c s IH]; [done|].
  simpl. intros [Hc Hs]%andb_true_iff. rewrite IH by done.
  destruct s; [|done]. by rewrite is_digit_not_space.
Qed.

Lemma strip_all_digits (s : string) : all_digits s = true -> strip s = s.
Proof.
  intros Hs. unfold strip.
  assert (lstrip s = s) as ->; [|by apply rstrip_all_digits].
  destruct s as [|c s]; [done|]. simpl in *.
  apply andb_true_iff in Hs as [Hc _]. by rewrite is_digit_not_space.
Qed.

(** [int()] reads a string of digits as the number it denotes. *)
Lemma py_int_digits (s : string) :
  all_digits s = true -> s <> "" -> py_int s = Ok (decimal_value s).
Proof.
  intros Hs Hne. unfold py_int. rewrite strip_all_digits by done.
  destruct s as [|c r]; [done|].
  assert (is_digit c = true) as Hc by (simpl in Hs; by apply andb_true_iff in Hs as [? _]).
  rewrite (is_digit_not_char c "+"), (is_digit_not_char c "-") by done.
  rewrite parse_digits_all_digits by done. simpl. f_equal; lia.
Qed.

Lemma py_int_format_05d (n : nat) : py_int (format_05d (Z.of_nat n)) = Ok (Z.of_nat n).
Proof.
  destruct (format_05d_spec n) as (Hd & Hne & Hv).
  by rewrite py_int_digits, Hv.
Qed.

(** *** The artifacts of a directory without a dot in its path *)

Lemma fnmatch_model_file (n : nat) : fnmatch_h5 (model_file n) = true.
Proof.
  unfold fnmatch_h5, model_file.
  rewrite <- (str_app_assoc "model_"), endswith_app. done.
Qed.

Lemma parse_model_file (model_dir : string) (n : nat) :
  contains "." model_dir = false ->
  parse_model (model_dir +:+ "/" +:+ model_file n) = Ok (Z.of_nat n).
Proof.
  intros Hdir. unfold parse_model, model_file.
  destruct (format_05d_spec n) as (Hd & Hne & Hv).
  set (number := format_05d (Z.of_nat n)) in *.
  replace (model_dir +:+ "/" +:+ "model_" +:+ number +:+ ".h5")
    with ((model_dir +:+ "/model" +:+ String "_" number) +:+ String "." "h5")
    by (by rewrite !str_app_assoc).
  rewrite hd_split.
  - rewrite <- (str_app_assoc model_dir "/model"), last_split.
    + apply py_int_format_05d.
    + by apply all_digits_no_char.
  - assert (contains "." (String "_" number) = false) as Hnum.
    { rewrite contains_char_cons. by rewrite (all_digits_no_char "." number). }
    by rewrite !contains_char_app, Hdir, Hnum.
Qed.

Lemma filter_model_files (ns : list nat) :
  List.filter fnmatch_h5 (model_file <$> ns) = model_file <$> ns.
Proof.
  induction ns as [|n ns IH]; [done|].
  cbn [fmap list_fmap List.filter]. by rewrite fnmatch_model_file, IH.
Qed.

Lemma max_of_nats (n : nat) (ns : list nat) :
  foldl Z.max (Z.of_nat n) (Z.of_nat <$> ns) = Z.of_nat (max_list (n :: ns)).
Proof.
  revert n. induction ns as [|k ns IH]; intros n; simpl; [lia|].
  replace (Z.of_nat n `max` Z.of_nat k) with (Z.of_nat (n `max` k)) by lia.
  rewrite IH. simpl. lia.
Qed.

(** Where no dot stands in the path of the model directory, the iteration
    number is the largest index among the artifacts [model_<index>.h5]. *)
Lemma iteration_number_artifacts (model_dir : string) (ns : list nat) :
  contains "." model_dir = false -> ns <> [] ->
  iteration_number model_dir (model_file <$> ns) = Ok (Z.of_nat (max_list ns)).
Proof.
  intros Hdir Hne. unfold iteration_number, find_iteration_numbers, glob_h5.
  rewrite filter_model_files.
  destruct ns as [|n ns]; [done|]. cbn [fmap list_fmap length Nat.eqb].
  change (Z.of_nat (max_list (n :: ns))) with (Z.of_nat (max_list (n :: ns))).
  assert (mapM parse_model
            ((fun name => model_dir +:+ "/" +:+ name) <$> (model_file <$> (n :: ns)))
          = Ok (Z.of_nat <$> (n :: ns))) as Hall.
  { generalize (n :: ns). intros ks. induction ks as [|k ks IH]; [done|].
    rewrite !fmap_cons. cbn [mapM]. rewrite parse_model_file by done.
    simpl. rewrite IH. done. }
  cbn [fmap list_fmap] in Hall. rewrite Hall. simpl. f_equal.
  apply (max_of_nats n ns).
Qed.

(** Without artifacts the iteration number is 0. *)
Lemma iteration_number_no_artifacts (model_dir : string) :
  iteration_number model_dir [] = Ok 0.
Proof. reflexivity. Qed.

(** After the first update, [model_00000.h5] and [model_00001.h5] exist. *)
Lemma iteration_number_after_first_update :
  iteration_number "/data/inversion/OPTIMIZATION/MODELS" [model_file 0; model_file 1] = Ok 1.
Proof. by vm_compute. Qed.

(** C3. The parsed string is what stands before the first dot of the whole
    path, so a dot in the path of the model directory makes the lookup of the
    iteration number fail, with the artifact of suffix [00001] in place. *)
Theorem iteration_number_dotted_directory :
  iteration_number "/data/run.1/OPTIMIZATION/MODELS" [model_file 0; model_file 1]
  = Raise (ValueError "invalid literal for int() with base 10: '/data/run'").
Proof. by vm_compute. Qed.

End iteration_facts.

(** ** Preparing an iteration *)

Section prepare_facts.
Import PrepareIteration.
Context {L P : Type} (c : Collaborators L P).




End prepare_facts.



(** ** The file system *)

Section fs_facts.
Context {C : Type}.
Implicit Types (fs : gmap (list string) (FS.node C)).

Lemma split_app (sep : ascii) (a b : string) :
  split sep (a +:+ String sep b) = split sep a ++ split sep b.
Proof.
  induction a as [|c a IH].
  - simpl. by rewrite Ascii.eqb_refl.
  - rewrite str_app_cons. simpl. rewrite IH.
    destruct (Ascii.eqb c sep); [done|].
    pose proof (split_nonempty sep a). by destruct (split sep a).
Qed.

Lemma prefix_nil (s : string) : String.prefix "" s = true.
Proof. by destruct s. Qed.

Lemma startswith_char_cons (p c : ascii) (s : string) :
  startswith (String p "") (String c s) = Ascii.eqb c p.
Proof.
  unfold startswith. simpl. rewrite prefix_nil.
  destruct (ascii_dec p c) as [->|Hne]; [by rewrite Ascii.eqb_refl|].
  by destruct (Ascii.eqb_spec c p) as [->|_].
Qed.

Lemma startswith_app (p : ascii) (a b : string) :
  a <> "" -> startswith (String p "") (a +:+ b) = startswith (String p "") a.
Proof.
  destruct a as [|c a]; [done|]. intros _. rewrite str_app_cons.
  by rewrite !startswith_char_cons.
Qed.

Lemma no_slash_relative (name : string) :
  contains "/" name = false -> startswith "/" name = false.
Proof.
  destruct name as [|c name]; [done|].
  rewrite contains_char_cons. intros [Hc _]%orb_false_elim.
  by rewrite startswith_char_cons.
Qed.

(** A plain name under a folder resolves to one more component. *)
Lemma resolve_path_div (a name : string) :
  contains "/" name = false -> FS.keep name = true ->
  FS.resolve (path_div a name) = FS.resolve a ++ [name].
Proof.
  intros Hname Hkeep. unfold path_div. rewrite (no_slash_relative name Hname).
  unfold FS.resolve.
  destruct (String.eqb_spec a "") as [->|Ha].
  - rewrite split_no_sep by done. simpl. rewrite Hkeep.
    destruct name as [|c name]; [done|].
    rewrite contains_char_cons in Hname. apply orb_false_elim in Hname as [Hc _].
    by rewrite startswith_char_cons, Hc.
  - change (a +:+ "/" +:+ name) with (a +:+ String "/" name).
    rewrite startswith_app by done. rewrite split_app, (split_no_sep "/" name) by done.
    rewrite List.filter_app. simpl. rewrite Hkeep. by rewrite <- app_assoc.
Qed.

Lemma parent_resolve_path_div (a name : string) :
  contains "/" name = false -> FS.keep name = true ->
  FS.parent (FS.resolve (path_div a name)) = FS.resolve a.
Proof.
  intros. rewrite resolve_path_div by done. unfold FS.parent. apply removelast_last.
Qed.

Lemma put_Ok fs (p : list string) (c : C) (s : string) :
  FS.is_dir fs p = false -> FS.is_dir fs (FS.parent p) = true ->
  FS.put p c s fs = (Ok (), <[p := FS.File c]> fs).
Proof. intros Hp Hparent. unfold FS.put. by rewrite Hp, Hparent. Qed.

Lemma present_false fs (p : list string) :
  FS.present fs p = false -> FS.is_dir fs p = false /\ fs !! p = None.
Proof.
  unfold FS.present. intros [Hd Hs]%orb_false_elim. split; [done|].
  apply bool_decide_eq_false in Hs. by apply eq_None_not_Some.
Qed.

End fs_facts.

(** ** Start-up of an optimizer *)

Section startup_facts.
Import Startup.
Implicit Types (fs : gmap (list string) (FS.node (gmap string toml_value))).

Lemma config_file_resolved (opt : string) :
  FS.resolve (path_div opt "opt_config.toml") = FS.resolve opt ++ ["opt_config.toml"].
Proof. by apply resolve_path_div. Qed.

Lemma check_config_missing (opt : string) fs :
  FS.is_dir fs (FS.resolve opt) = true ->
  FS.path_exists (path_div opt "opt_config.toml") fs = false ->
  check_config opt fs
  = (Raise SystemExit,
     <[FS.resolve (path_div opt "opt_config.toml") := FS.File default_config]> fs).
Proof.
  intros Hdir Hmissing.
  unfold check_config, mbind, M_bind, bind, read. rewrite Hmissing.
  unfold _write_initial_config, FS.write_file.
  apply present_false in Hmissing as [Hnodir _].
  rewrite put_Ok; [done|done|].
  by rewrite parent_resolve_path_div.
Qed.

Lemma check_config_empty_model (opt : string) fs (doc : gmap string toml_value) :
  fs !! FS.resolve (path_div opt "opt_config.toml") = Some (FS.File doc) ->
  doc !! "initial_model" = Some (TStr "") ->
  is_Some (doc !! "step_length") -> is_Some (doc !! "parameters") ->
  check_config opt fs = (Raise SystemExit, fs).
Proof.
  intros Hfile Hmodel [step Hstep] [params Hparams].
  assert (FS.path_exists (path_div opt "opt_config.toml") fs = true) as Hex.
  { unfold FS.path_exists, FS.present. rewrite Hfile.
    rewrite (bool_decide_true (is_Some _)) by eauto. apply orb_true_r. }
  unfold check_config, _read_config, mbind, M_bind, bind, read, lift, ret, FS.read_file, getitem.
  rewrite Hex. cbn beta iota. rewrite Hex. cbn beta iota. rewrite Hfile. cbn beta iota.
  rewrite Hmodel, Hstep, Hparams. cbn beta iota.
  by rewrite decide_True.
Qed.

Lemma check_config_continues (opt : string) fs fs2 (self : Optimize) :
  check_config opt fs = (Ok self, fs2) ->
  fs2 = fs
  /\ exists doc,
       fs !! FS.resolve (path_div opt "opt_config.toml") = Some (FS.File doc)
       /\ doc !! "initial_model" = Some (initial_model self)
       /\ initial_model self <> TStr "".
Proof.
  unfold check_config, _read_config, _write_initial_config, FS.write_file, FS.put, sys_exit,
    mbind, M_bind, bind, read, lift, ret, raise, FS.read_file, getitem.
  destruct (FS.path_exists (path_div opt "opt_config.toml") fs) eqn:Hex;
    cbn beta iota; rewrite ?Hex; cbn beta iota.
  - destruct (fs !! FS.resolve (path_div opt "opt_config.toml")) as [[|doc]|] eqn:Hfile;
      [done| |by destruct (FS.is_dir fs _)].
    destruct (doc !! "initial_model") as [model|] eqn:Hmodel; [|done].
    destruct (doc !! "step_length") as [step|]; [|done].
    destruct (doc !! "parameters") as [params|]; [|done].
    simpl. destruct (decide (model = TStr "")) as [->|Hne]; [done|].
    intros [= <- <-]. split; [done|]. exists doc. done.
  - by repeat case_match.
Qed.

(** C7. At start-up, once the optimization folder is there: without a
    configuration file the default configuration is written and the process
    exits; with a configuration whose [initial_model] is empty the process
    exits; and the constructor goes on past the configuration only when the
    file is present and names an initial model. *)
Theorem init_config_gate (d : Derived) (inversion_root : string) fs fs1 :
  prepare_folders d inversion_root fs = (Ok (), fs1) ->
  FS.is_dir fs1 (FS.resolve (path_div inversion_root "OPTIMIZATION")) = true ->
  let config := path_div (path_div inversion_root "OPTIMIZATION") "opt_config.toml" in
  (FS.path_exists config fs1 = false ->
     __init__ d inversion_root fs
     = (Raise SystemExit, <[FS.resolve config := FS.File default_config]> fs1)
     /\ default_config !! "initial_model" = Some (TStr "")
     /\ dom default_config
        = {[ "step_length"; "parameters"; "initial_model"; "max_iterations" ]})
  /\ (forall doc,
        fs1 !! FS.resolve config = Some (FS.File doc) ->
        doc !! "initial_model" = Some (TStr "") ->
        is_Some (doc !! "step_length") -> is_Some (doc !! "parameters") ->
        __init__ d inversion_root fs = (Raise SystemExit, fs1))
  /\ (forall self fs2,
        check_config (path_div inversion_root "OPTIMIZATION") fs1 = (Ok self, fs2) ->
        __init__ d inversion_root fs = initialize_folders_and_tasks d self fs1
        /\ exists doc,
             fs1 !! FS.resolve config = Some (FS.File doc)
             /\ doc !! "initial_model" = Some (initial_model self)
             /\ initial_model self <> TStr "").
Proof.
  intros Hprep Hdir config.
  assert (forall r, check_config (path_div inversion_root "OPTIMIZATION") fs1 = r ->
            __init__ d inversion_root fs
            = match r with
              | (Ok self, fs2) => initialize_folders_and_tasks d self fs2
              | (Raise e, fs2) => (Raise e, fs2)
              end) as Hinit.
  { intros r <-. unfold __init__, mbind, M_bind, bind. rewrite Hprep.
    by destruct (check_config _ fs1) as [[self|e] fs2]. }
  split; [|split].
  - intros Hmissing. split; [|split].
    + by rewrite (Hinit _ (check_config_missing _ _ Hdir Hmissing)).
    + done.
    + unfold default_config. rewrite !dom_insert_L, dom_singleton_L. set_solver.
  - intros doc Hfile Hmodel Hstep Hparams.
    by rewrite (Hinit _ (check_config_empty_model _ _ _ Hfile Hmodel Hstep Hparams)).
  - intros self fs2 Hcheck. rewrite (Hinit _ Hcheck).
    destruct (check_config_continues _ _ _ _ Hcheck) as [-> Hdoc]. done.
Qed.

End startup_facts.

Lemma init_config_gate_witness :
  Startup.__init__ Startup.plain_optimizer "inversion" Startup.fresh_project
  = (Raise SystemExit,
     <[ ["inversion"; "OPTIMIZATION"; "opt_config.toml"] := FS.File Startup.default_config ]>
       (<[ ["inversion"; "OPTIMIZATION"] := FS.Dir ]> Startup.fresh_project))
  /\ Startup.__init__ Startup.plain_optimizer "inversion"
       (<[ ["inversion"; "OPTIMIZATION"; "opt_config.toml"] := FS.File Startup.default_config ]>
          (<[ ["inversion"; "OPTIMIZATION"] := FS.Dir ]> Startup.fresh_project))
     = (Raise SystemExit,
        <[ ["inversion"; "OPTIMIZATION"; "opt_config.toml"] := FS.File Startup.default_config ]>
          (<[ ["inversion"; "OPTIMIZATION"] := FS.Dir ]> Startup.fresh_project))
  /\ fst (Startup.__init__ Startup.plain_optimizer "inversion" Startup.configured_project)
     = Ok {| Startup.opt_folder := "inversion/OPTIMIZATION";
             Startup.config_file := "inversion/OPTIMIZATION/opt_config.toml";
             Startup.initial_model := Startup.TStr "/models/start.h5";
             Startup.step_length := Startup.TFloat 1 1000;
             Startup.max_iterations := Some (Startup.TInt 1000);
             Startup.parameters := Startup.TArray ["VSV"; "VSH"; "VPV"; "VPH"] |}.
Proof.
  split; [|split].
  - destruct (init_config_gate Startup.plain_optimizer "inversion" Startup.fresh_project
                (<[ ["inversion"; "OPTIMIZATION"] := FS.Dir ]> Startup.fresh_project)
                ltac:(vm_refl) ltac:(vm_refl)) as (Hmissing & _ & _).
    destruct (Hmissing ltac:(vm_refl)) as (-> & _). vm_refl.
  - destruct (init_config_gate Startup.plain_optimizer "inversion"
                (<[ ["inversion"; "OPTIMIZATION"; "opt_config.toml"] := FS.File Startup.default_config ]>
                   (<[ ["inversion"; "OPTIMIZATION"] := FS.Dir ]> Startup.fresh_project))
                (<[ ["inversion"; "OPTIMIZATION"; "opt_config.toml"] := FS.File Startup.default_config ]>
                   (<[ ["inversion"; "OPTIMIZATION"] := FS.Dir ]> Startup.fresh_project))
                ltac:(vm_refl) ltac:(vm_refl)) as (_ & Hempty & _).
    apply (Hempty Startup.default_config); [vm_refl|vm_refl| |].
    + exists (Startup.TFloat 1 1000). vm_refl.
    + exists (Startup.TArray ["VSV"; "VSH"; "VPV"; "VPH"]). vm_refl.
  - destruct (init_config_gate Startup.plain_optimizer "inversion"
                Startup.configured_project Startup.configured_project
                ltac:(vm_refl) ltac:(vm_refl)) as (_ & _ & Hgo).
    destruct (Hgo {| Startup.opt_folder := "inversion/OPTIMIZATION";
                     Startup.config_file := "inversion/OPTIMIZATION/opt_config.toml";
                     Startup.initial_model := Startup.TStr "/models/start.h5";
                     Startup.step_length := Startup.TFloat 1 1000;
                     Startup.max_iterations := Some (Startup.TInt 1000);
                     Startup.parameters := Startup.TArray ["VSV"; "VSH"; "VPV"; "VPH"] |}
                Startup.configured_project ltac:(vm_refl)) as [-> _].
    reflexivity.
Defined.

(** ** How a path is found or missed *)

Lemma present_file {C} (fs : gmap (list string) (FS.node C)) (p : list string) n :
  fs !! p = Some n -> FS.present fs p = true.
Proof.
  intros H. unfold FS.present. rewrite H.
  rewrite (bool_decide_true (is_Some _)) by eauto. apply orb_true_r.
Qed.

Lemma is_dir_Dir {C} (fs : gmap (list string) (FS.node C)) (p : list string) :
  fs !! p = Some FS.Dir -> FS.is_dir fs p = true.
Proof. intros H. unfold FS.is_dir. rewrite H. apply orb_true_r. Qed.

(** How a look-up fails: nothing on the way is a regular file, or a
    regular file is reached through folders. *)
Lemma file_in_the_way_clear {C} (fs : gmap (list string) (FS.node C)) (todo : list string) :
  forall pre, FS.clear_way fs (pre ++ todo) -> FS.file_in_the_way fs pre todo = false.
Proof.
  induction todo as [|d todo IH]; intros pre Hclear; [done|]. simpl.
  destruct (FS.is_dir fs (pre ++ [d])).
  - apply IH. by rewrite <- app_assoc.
  - destruct (fs !! (pre ++ [d])) as [[|c]|] eqn:Hq; [done| |done].
    destruct (Hclear (pre ++ [d]) c); [|done].
    exists todo. by rewrite <- app_assoc.
Qed.

Lemma missing_error_clear {C} (fs : gmap (list string) (FS.node C)) (p : list string)
    (s : string) :
  FS.clear_way fs p -> FS.missing_error fs p s = FileNotFoundError s.
Proof. intros H. unfold FS.missing_error. by rewrite file_in_the_way_clear. Qed.

Lemma file_in_the_way_file {C} (fs : gmap (list string) (FS.node C)) (todo : list string) :
  forall pre c,
    todo <> [] ->
    FS.is_dir fs (pre ++ todo) = false -> fs !! (pre ++ todo) = Some (FS.File c) ->
    (forall q, q `prefix_of` pre ++ todo -> q <> pre ++ todo -> FS.is_dir fs q = true) ->
    FS.file_in_the_way fs pre todo = true.
Proof.
  induction todo as [|d todo IH]; intros pre c Hne Hnodir Hfile Habove; [done|]. simpl.
  destruct todo as [|d' todo].
  - by rewrite Hnodir, Hfile.
  - rewrite Habove.
    + apply (IH _ c); [done| | |]; by rewrite <- app_assoc.
    + exists (d' :: todo). by rewrite <- app_assoc.
    + intros Heq. apply (f_equal length) in Heq. rewrite !length_app in Heq.
      simpl in Heq. lia.
Qed.

(** A check of [clear_way] by evaluation: every prefix is looked up. *)
Lemma clear_way_check {C} (fs : gmap (list string) (FS.node C)) (p : list string) :
  forallb (fun n => match fs !! take n p with Some (FS.File _) => false | _ => true end)
          (seq 0 (S (length p))) = true ->
  FS.clear_way fs p.
Proof.
  intros Hall q x [t ->] Hq.
  rewrite forallb_forall in Hall.
  specialize (Hall (length q)).
  rewrite take_app_length, Hq in Hall.
  enough (false = true) by done. apply Hall.
  apply in_seq. rewrite length_app. lia.
Qed.

(** ** Seismogram lookup *)

Section seismogram_facts.
Import Seismograms.
Context {C : Type}.
Implicit Types (fs : gmap (list string) (FS.node C)).

Lemma endswith_char_cons (c x : ascii) (s : string) :
  endswith (String c "") (String x s)
  = (Ascii.eqb c x && String.eqb "" s) || endswith (String c "") s.
Proof. done. Qed.

Lemma endswith_char_app (c : ascii) (a b : string) :
  b <> "" -> endswith (String c "") (a +:+ b) = endswith (String c "") b.
Proof.
  intros Hb. induction a as [|x a IH]; [done|].
  rewrite str_app_cons, endswith_char_cons, IH.
  destruct (a +:+ b) eqn:Hab; [|by rewrite andb_false_r].
  by destruct a, b.
Qed.

Lemma endswith_contains (c : ascii) (s : string) :
  contains (String c "") s = false -> endswith (String c "") s = false.
Proof.
  induction s as [|x s IH]; [done|].
  rewrite contains_char_cons, endswith_char_cons.
  intros [Hx Hs]%orb_false_elim. rewrite IH by done.
  rewrite Ascii.eqb_sym, Hx. done.
Qed.

Lemma endswith_char_inv (x : ascii) (a : string) :
  endswith (String x "") a = true -> exists a', a = a' +:+ String x "".
Proof.
  induction a as [|y a IH]; [done|].
  rewrite endswith_char_cons. intros [[Hy Ha]%andb_true_iff|Hend]%orb_true_iff.
  - apply Ascii.eqb_eq in Hy as <-. apply String.eqb_eq in Ha as <-. by exists "".
  - destruct (IH Hend) as [a' ->]. by exists (String y a').
Qed.

(** [os.path.join] of any folder and a plain name adds one component. *)
Lemma resolve_join2_name (a name : string) :
  contains "/" name = false -> FS.keep name = true ->
  FS.resolve (join2 a name) = FS.resolve a ++ [name].
Proof.
  intros Hname Hkeep. unfold join2. rewrite (no_slash_relative name Hname).
  assert (forall b, FS.resolve (b +:+ String "/" name)
                    = FS.resolve (b +:+ String "/" "") ++ [name]) as Hslash.
  { intros b. unfold FS.resolve.
    rewrite !split_app, (split_no_sep "/" name) by done.
    rewrite !List.filter_app. simpl. rewrite Hkeep, app_nil_r, <- app_assoc. f_equal.
    destruct b as [|y b].
    - change ("" +:+ String "/" name) with (String "/" name).
      change ("" +:+ "/") with (String "/" ""). by rewrite !startswith_char_cons.
    - by rewrite !str_app_cons, !startswith_char_cons. }
  destruct (String.eqb_spec a "") as [->|Ha]; simpl.
  - change ("" +:+ name) with name. unfold FS.resolve.
    rewrite (no_slash_relative name Hname), split_no_sep by done.
    simpl. by rewrite Hkeep.
  - destruct (endswith "/" a) eqn:Hend.
    + destruct (endswith_char_inv _ _ Hend) as [a' ->].
      rewrite str_app_assoc. change ("/" +:+ name) with (String "/" name).
      apply Hslash.
    + change (a +:+ "/" +:+ name) with (a +:+ String "/" name).
      rewrite Hslash. f_equal. unfold FS.resolve.
      rewrite split_app, List.filter_app. simpl. rewrite app_nil_r.
      by rewrite startswith_app.
Qed.

Lemma plain_name_nonempty (s : string) : plain_name s -> s <> "".
Proof. by intros [Hk _] ->. Qed.

Lemma plain_name_relative (s : string) : plain_name s -> startswith "/" s = false.
Proof.
  intros [Hk Hs]. destruct s as [|x s]; [done|].
  rewrite contains_char_cons in Hs. apply orb_false_elim in Hs as [Hx _].
  by rewrite startswith_char_cons.
Qed.

(** [os.path.join] of a folder and a plain name. *)
Lemma join2_plain (a b : string) :
  a <> "" -> endswith "/" a = false -> plain_name b ->
  join2 a b = a +:+ "/" +:+ b
  /\ a +:+ "/" +:+ b <> "" /\ endswith "/" (a +:+ "/" +:+ b) = false.
Proof.
  intros Ha Hend Hb. unfold join2.
  rewrite (plain_name_relative b Hb), Hend.
  destruct (String.eqb_spec a "") as [->|_]; [done|]. simpl.
  split; [done|]. split.
  - destruct a; [done|]. by rewrite str_app_cons.
  - change (a +:+ "/" +:+ b) with (a +:+ String "/" b).
    rewrite endswith_char_app by done.
    rewrite endswith_char_cons, (endswith_contains "/" b) by apply Hb.
    destruct b; [by destruct Hb|done].
Qed.

Lemma plain_iteration_folder (iteration : string) :
  plain_name iteration -> plain_name (iteration_folder iteration).
Proof.
  intros [Hk Hs]. unfold iteration_folder.
  destruct (startswith "ITERATION_" iteration); simpl; [done|].
  split; [done|].
  change ("ITERATION_" +:+ iteration) with ("ITERATION_" +:+ iteration).
  by rewrite contains_char_app, Hs.
Qed.

Lemma resolve_folder_name (a name : string) :
  a <> "" -> plain_name name ->
  FS.resolve (a +:+ "/" +:+ name) = FS.resolve a ++ [name].
Proof.
  intros Ha [Hk Hs]. rewrite <- (resolve_path_div a name) by done.
  unfold path_div. rewrite (no_slash_relative name Hs).
  by destruct (String.eqb_spec a "").
Qed.


Lemma event_folder_path (lasif_root event iteration : string) :
  lasif_root <> "" -> endswith "/" lasif_root = false ->
  plain_name event -> plain_name iteration ->
  iteration_path lasif_root iteration
  = lasif_root +:+ "/SYNTHETICS/EARTHQUAKES/" +:+ iteration_folder iteration
  /\ event_folder lasif_root event iteration
     = iteration_path lasif_root iteration +:+ "/" +:+ event
  /\ os_path_join (event_folder lasif_root event iteration) ["receivers.h5"]
     = lasif_root +:+ "/SYNTHETICS/EARTHQUAKES/" +:+ iteration_folder iteration
       +:+ "/" +:+ event +:+ "/receivers.h5"
  /\ iteration_path lasif_root iteration <> "".
Proof.
  intros Hroot Hend Hevent Hit%plain_iteration_folder.
  unfold event_folder, iteration_path, os_path_join. cbn [foldl].
  destruct (join2_plain lasif_root "SYNTHETICS" Hroot Hend) as (-> & Hne1 & Hend1); [done|].
  destruct (join2_plain _ "EARTHQUAKES" Hne1 Hend1) as (-> & Hne2 & Hend2); [done|].
  destruct (join2_plain _ _ Hne2 Hend2 Hit) as (-> & Hne3 & Hend3).
  destruct (join2_plain _ _ Hne3 Hend3 Hevent) as (-> & Hne4 & Hend4).
  destruct (join2_plain _ "receivers.h5" Hne4 Hend4) as (-> & _ & _); [done|].
  split; [by rewrite !str_app_assoc|]. split; [done|]. split; [|done].
  by rewrite !str_app_assoc.
Qed.

Lemma resolve_event_folder (lasif_root event iteration : string) :
  plain_name event -> plain_name iteration ->
  FS.resolve (iteration_path lasif_root iteration)
  = FS.resolve lasif_root ++ ["SYNTHETICS"; "EARTHQUAKES"; iteration_folder iteration]
  /\ FS.resolve (event_folder lasif_root event iteration)
     = FS.resolve (iteration_path lasif_root iteration) ++ [event]
  /\ FS.resolve (os_path_join (event_folder lasif_root event iteration) ["receivers.h5"])
     = FS.resolve lasif_root
       ++ ["SYNTHETICS"; "EARTHQUAKES"; iteration_folder iteration; event; "receivers.h5"].
Proof.
  intros [Hk Hs] [Hik His]%plain_iteration_folder.
  unfold event_folder, iteration_path, os_path_join. cbn [foldl].
  rewrite !resolve_join2_name by done. by rewrite <- !app_assoc.
Qed.

(** C10, as the code has it. For every project root and plain names of an
    event and an iteration, the path that [find_seismograms] builds is
    [os.path.join(lasif_root, "SYNTHETICS", "EARTHQUAKES", "ITERATION_<name>", event, "receivers.h5")]:
    the components of the root followed by these five, and the text
    [<lasif_root>/SYNTHETICS/EARTHQUAKES/ITERATION_<name>/<event>/receivers.h5]
    for a root that is not empty and does not end in a slash; the prefix
    [ITERATION_] is put in front only of a name that does not start with it.
    An event folder that exists is left alone, with all of the file system,
    and the path is returned; a missing one in an iteration folder that
    exists is created, the only change, and the path is returned; a missing
    one whose iteration folder is missing too makes [os.mkdir] raise
    ([FileNotFoundError] when no regular file stands on the way to the
    iteration folder): no path is returned and nothing is created. *)
Theorem find_seismograms_spec (lasif_root event iteration : string) fs :
  plain_name event -> plain_name iteration ->
  FS.resolve (os_path_join (event_folder lasif_root event iteration) ["receivers.h5"])
  = FS.resolve lasif_root
    ++ ["SYNTHETICS"; "EARTHQUAKES"; iteration_folder iteration; event; "receivers.h5"]
  /\ (lasif_root <> "" -> endswith "/" lasif_root = false ->
      os_path_join (event_folder lasif_root event iteration) ["receivers.h5"]
      = lasif_root +:+ "/SYNTHETICS/EARTHQUAKES/" +:+ iteration_folder iteration
        +:+ "/" +:+ event +:+ "/receivers.h5")
  /\ iteration_folder iteration
     = (if startswith "ITERATION_" iteration then iteration
        else "ITERATION_" +:+ iteration)
  /\ (FS.path_exists (event_folder lasif_root event iteration) fs = true ->
      find_seismograms lasif_root event iteration fs
      = (Ok (os_path_join (event_folder lasif_root event iteration) ["receivers.h5"]), fs))
  /\ (FS.path_exists (event_folder lasif_root event iteration) fs = false ->
      FS.is_dir fs (FS.resolve (iteration_path lasif_root iteration)) = true ->
      find_seismograms lasif_root event iteration fs
      = (Ok (os_path_join (event_folder lasif_root event iteration) ["receivers.h5"]),
         <[FS.resolve (event_folder lasif_root event iteration) := FS.Dir]> fs))
  /\ (FS.path_exists (event_folder lasif_root event iteration) fs = false ->
      FS.is_dir fs (FS.resolve (iteration_path lasif_root iteration)) = false ->
      find_seismograms lasif_root event iteration fs
      = (Raise (FS.missing_error fs (FS.resolve (iteration_path lasif_root iteration))
                  (event_folder lasif_root event iteration)), fs)
      /\ (FS.clear_way fs (FS.resolve (iteration_path lasif_root iteration)) ->
          FS.missing_error fs (FS.resolve (iteration_path lasif_root iteration))
            (event_folder lasif_root event iteration)
          = FileNotFoundError (event_folder lasif_root event iteration))).
Proof.
  intros Hevent Hit.
  destruct (resolve_event_folder lasif_root event iteration Hevent Hit)
    as (_ & Hfolder & Hpath).
  assert (forall here,
            FS.path_exists (event_folder lasif_root event iteration) fs = here ->
            find_seismograms lasif_root event iteration fs
            = (if here
               then (Ok (os_path_join (event_folder lasif_root event iteration)
                           ["receivers.h5"]), fs)
               else match FS.mkdir (event_folder lasif_root event iteration) fs with
                    | (Ok _, fs') =>
                        (Ok (os_path_join (event_folder lasif_root event iteration)
                               ["receivers.h5"]), fs')
                    | (Raise e, fs') => (Raise e, fs')
                    end)) as Hrun.
  { intros here Hhere. unfold find_seismograms.
    change (os_path_join lasif_root
              ["SYNTHETICS"; "EARTHQUAKES"; iteration_folder iteration; event])
      with (event_folder lasif_root event iteration).
    unfold mbind, M_bind, bind, read, ret. rewrite Hhere. by destruct here. }
  split; [exact Hpath|]. split.
  { intros Hroot Hend.
    by destruct (event_folder_path lasif_root event iteration Hroot Hend Hevent Hit)
      as (_ & _ & -> & _). }
  split; [unfold iteration_folder; by destruct (startswith _ iteration)|].
  split; [intros Hex; by rewrite (Hrun true)|]. split.
  - intros Hex Hdir. rewrite (Hrun false) by done.
    unfold FS.mkdir. unfold FS.path_exists in Hex. rewrite Hex.
    rewrite Hfolder. unfold FS.parent. by rewrite removelast_last, Hdir.
  - intros Hex Hdir. split; [|apply missing_error_clear].
    rewrite (Hrun false) by done.
    unfold FS.mkdir. unfold FS.path_exists in Hex. rewrite Hex.
    rewrite Hfolder. unfold FS.parent. by rewrite removelast_last, Hdir.
Qed.

End seismogram_facts.

(** The claim as the specification words it fails where the folder of the
    iteration is missing: [os.mkdir] makes one level only, the call raises,
    returns no path and creates nothing. *)
Lemma find_seismograms_missing_iteration :
  FS.path_exists (Seismograms.event_folder "lasif" "event_a" "model_00001")
    Seismograms.lasif_project = false
  /\ Seismograms.find_seismograms "lasif" "event_a" "model_00001" Seismograms.lasif_project
     = (Raise (FileNotFoundError "lasif/SYNTHETICS/EARTHQUAKES/ITERATION_model_00001/event_a"),
        Seismograms.lasif_project).
Proof. split; vm_refl. Qed.

Lemma find_seismograms_spec_witness :
  Seismograms.find_seismograms "lasif" "event_b" "model_00000" Seismograms.lasif_project
  = (Ok "lasif/SYNTHETICS/EARTHQUAKES/ITERATION_model_00000/event_b/receivers.h5",
     <[ ["lasif"; "SYNTHETICS"; "EARTHQUAKES"; "ITERATION_model_00000"; "event_b"] := FS.Dir ]>
       Seismograms.lasif_project)
  /\ Seismograms.find_seismograms "lasif" "event_a" "ITERATION_model_00000"
       Seismograms.lasif_project
     = (Ok "lasif/SYNTHETICS/EARTHQUAKES/ITERATION_model_00000/event_a/receivers.h5",
        Seismograms.lasif_project)
  /\ Seismograms.find_seismograms "" "event_a" "model_00000" Seismograms.lasif_project
     = (Raise (FileNotFoundError "SYNTHETICS/EARTHQUAKES/ITERATION_model_00000/event_a"),
        Seismograms.lasif_project).
Proof.
  assert (Seismograms.plain_name "event_a") as Ha by done.
  assert (Seismograms.plain_name "event_b") as Hb by done.
  assert (Seismograms.plain_name "model_00000") as Hm by done.
  assert (Seismograms.plain_name "ITERATION_model_00000") as Hi by done.
  split; [|split].
  - destruct (find_seismograms_spec "lasif" "event_b" "model_00000"
                Seismograms.lasif_project Hb Hm) as (_ & _ & _ & _ & Hmake & _).
    exact (Hmake ltac:(vm_refl) ltac:(vm_refl)).
  - destruct (find_seismograms_spec "lasif" "event_a" "ITERATION_model_00000"
                Seismograms.lasif_project Ha Hi) as (_ & _ & _ & Hhere & _).
    exact (Hhere ltac:(vm_refl)).
  - destruct (find_seismograms_spec "" "event_a" "model_00000"
                Seismograms.lasif_project Ha Hm) as (_ & _ & _ & _ & _ & Hmiss).
    destruct (Hmiss ltac:(vm_refl) ltac:(vm_refl)) as [Hrun Hclear].
    rewrite Hrun, Hclear; [vm_refl|]. apply clear_way_check. vm_refl.
Defined.

(** ** More of the file system: reading, copying, moving, making folders *)

Section fs_more_facts.
Context {C : Type}.
Implicit Types (fs : gmap (list string) (FS.node C)).

Lemma read_file_Ok fs (s : string) (c : C) :
  fs !! FS.resolve s = Some (FS.File c) -> FS.read_file s fs = (Ok c, fs).
Proof. intros H. unfold FS.read_file. by rewrite H. Qed.

Lemma is_dir_file fs (p : list string) (c : C) :
  fs !! p = Some (FS.File c) -> p <> [] -> p <> ["/"] -> FS.is_dir fs p = false.
Proof.
  intros H H1 H2. unfold FS.is_dir. rewrite H.
  rewrite bool_decide_false; [done|]. by intros [?|?].
Qed.

Lemma is_dir_insert_ne fs (p q : list string) (n : FS.node C) :
  p <> q -> FS.is_dir (<[p := n]> fs) q = FS.is_dir fs q.
Proof. intros H. unfold FS.is_dir. by rewrite lookup_insert_ne. Qed.

Lemma is_dir_delete_ne fs (p q : list string) :
  p <> q -> FS.is_dir (delete p fs) q = FS.is_dir fs q.
Proof. intros H. unfold FS.is_dir. by rewrite lookup_delete_ne. Qed.

Lemma is_dir_lookup fs fs' (p : list string) :
  fs' !! p = fs !! p -> FS.is_dir fs' p = FS.is_dir fs p.
Proof. intros H. unfold FS.is_dir. by rewrite H. Qed.

Lemma present_lookup fs fs' (p : list string) :
  fs' !! p = fs !! p -> FS.present fs' p = FS.present fs p.
Proof. intros H. unfold FS.present, FS.is_dir. by rewrite H. Qed.

Lemma copy_Ok fs (src dst : string) (c : C) :
  fs !! FS.resolve src = Some (FS.File c) ->
  FS.is_dir fs (FS.resolve dst) = false ->
  FS.is_dir fs (FS.parent (FS.resolve dst)) = true ->
  FS.resolve dst <> FS.resolve src ->
  FS.copy src dst fs = (Ok (), <[FS.resolve dst := FS.File c]> fs).
Proof.
  intros Hsrc Hdst Hparent Hne.
  unfold FS.copy, mbind, M_bind, bind, read. unfold FS.real_dst. rewrite Hdst.
  rewrite bool_decide_false by done. cbn [andb].
  rewrite (read_file_Ok _ _ _ Hsrc). by apply put_Ok.
Qed.

Lemma move_Ok fs (src dst : string) (c : C) :
  fs !! FS.resolve src = Some (FS.File c) ->
  FS.is_dir fs (FS.resolve dst) = false ->
  FS.is_dir fs (FS.parent (FS.resolve dst)) = true ->
  FS.resolve dst <> FS.resolve src ->
  FS.move src dst fs
  = (Ok (), delete (FS.resolve src) (<[FS.resolve dst := FS.File c]> fs)).
Proof.
  intros Hsrc Hdst Hparent Hne.
  unfold FS.move, mbind, M_bind, bind, read. rewrite Hdst. cbn beta iota. cbn [andb].
  rewrite (read_file_Ok _ _ _ Hsrc).
  rewrite put_Ok by done. by rewrite bool_decide_false.
Qed.

(** *** [os.makedirs] *)

Lemma lookup_made_dirs fs (qs : list (list string)) (k : list string) :
  foldl (fun fs q => <[q := FS.Dir]> fs) fs qs !! k
  = if decide (k ∈ qs) then Some FS.Dir else fs !! k.
Proof.
  revert fs. induction qs as [|q qs IH]; intros fs; simpl; [done|].
  rewrite IH. destruct (decide (k ∈ qs)) as [Hin|Hnin].
  - rewrite decide_True; [done|]. by right.
  - destruct (decide (k = q)) as [->|Hne].
    + rewrite decide_True by left. by rewrite lookup_insert_eq.
    + rewrite decide_False by (by intros [?|?]%elem_of_cons).
      by rewrite lookup_insert_ne.
Qed.

Lemma missing_dirs_spec fs (todo : list string) : forall done,
  FS.clear_way fs (done ++ todo) ->
  exists qs,
    FS.missing_dirs fs done todo = inl qs
    /\ (forall q, q ∈ qs -> q <> [] /\ q `prefix_of` (done ++ todo) /\ FS.present fs q = false)
    /\ (todo <> [] -> FS.is_dir fs (done ++ todo) = true \/ (done ++ todo) ∈ qs).
Proof.
  induction todo as [|d todo IH]; intros done Hclear.
  - exists []. split; [done|]. split; [by intros q Hq%elem_of_nil|done].
  - simpl.
    assert (FS.clear_way fs ((done ++ [d]) ++ todo)) as Hclear'
      by (by rewrite <- app_assoc).
    destruct (IH (done ++ [d]) Hclear') as (qs & Hqs & Hall & Hlast).
    rewrite <- app_assoc in Hall, Hlast. simpl in Hall, Hlast.
    destruct (FS.is_dir fs (done ++ [d])) eqn:Hdir.
    + exists qs. split; [done|]. split; [done|]. intros _.
      destruct todo as [|d' todo]; [by left|by apply Hlast].
    + destruct (FS.present fs (done ++ [d])) eqn:Hpres.
      * exfalso. unfold FS.present in Hpres. rewrite Hdir in Hpres. simpl in Hpres.
        apply bool_decide_eq_true in Hpres as [n Hn].
        destruct n as [|c].
        { unfold FS.is_dir in Hdir. rewrite Hn in Hdir. by rewrite orb_true_r in Hdir. }
        eapply (Hclear (done ++ [d]) c); [|done].
        exists todo. by rewrite <- app_assoc.
      * rewrite Hqs. simpl. exists ((done ++ [d]) :: qs). split; [done|]. split.
        { intros q [->|Hq]%elem_of_cons; [|by apply Hall].
          split; [by destruct done|]. split; [|done].
          exists todo. by rewrite <- app_assoc. }
        intros _. destruct todo as [|d' todo].
        { right. by left. }
        destruct Hlast as [?|?]; [done|by left|right; by right].
Qed.

Lemma makedirs_Ok fs (s : string) :
  FS.present fs (FS.resolve s) = false -> FS.clear_way fs (FS.resolve s) ->
  exists fs',
    FS.makedirs s fs = (Ok (), fs')
    /\ FS.is_dir fs' (FS.resolve s) = true
    /\ (forall k, fs' !! k = fs !! k
                  \/ (k <> [] /\ k `prefix_of` FS.resolve s /\ fs !! k = None
                      /\ fs' !! k = Some FS.Dir)).
Proof.
  intros Hpres Hclear.
  destruct (missing_dirs_spec fs (FS.resolve s) [] Hclear) as (qs & Hqs & Hall & Hlast).
  simpl in Hall, Hlast.
  exists (foldl (fun fs q => <[q := FS.Dir]> fs) fs qs).
  split; [|split].
  - unfold FS.makedirs. by rewrite Hpres, Hqs.
  - destruct (FS.resolve s) as [|d p] eqn:Hp; [done|].
    destruct Hlast as [Hdir|Hin]; [done| |].
    + unfold FS.present in Hpres. by rewrite Hdir in Hpres.
    + unfold FS.is_dir. rewrite lookup_made_dirs, decide_True by done. apply orb_true_r.
  - intros k. rewrite lookup_made_dirs. destruct (decide (k ∈ qs)) as [Hk|Hk]; [right|by left].
    destruct (Hall k Hk) as (Hne & Hpre & Hnot). repeat split; try done.
    by apply present_false in Hnot as [_ ?].
Qed.

End fs_more_facts.

(** ** The remote worker *)

Section worker_facts.
Import RemoteWorker.
Context {Mesh Doc MeshSettings SourceInfo ReceiverInfo SimulationInfo : Type}.
Context (c : Collaborators Mesh Doc MeshSettings SourceInfo ReceiverInfo SimulationInfo).
Implicit Types (fs : gmap (list string) (FS.node (blob Mesh Doc))).
Implicit Types (mi : MeshInfo MeshSettings).

Lemma is_dir_not_dir fs (p : list string) :
  fs !! p <> Some FS.Dir -> p <> [] -> p <> ["/"] -> FS.is_dir fs p = false.
Proof.
  intros H H1 H2. unfold FS.is_dir.
  rewrite bool_decide_false by (by intros [?|?]).
  by destruct (fs !! p) as [[|?]|].
Qed.

Lemma present_clear_is_dir fs (p : list string) :
  FS.present fs p = true -> FS.clear_way fs p -> FS.is_dir fs p = true.
Proof.
  intros Hpres Hclear. unfold FS.present in Hpres.
  apply orb_true_iff in Hpres as [?|[n Hn]%bool_decide_eq_true]; [done|].
  destruct n as [|x]; [|by destruct (Hclear p x)].
  unfold FS.is_dir. rewrite Hn. apply orb_true_r.
Qed.

Lemma mesh_location_not_target (a ev : string) :
  FS.resolve "./to_mesh.h5" <> FS.resolve (os_path_join a [ev; "mesh.h5"]).
Proof.
  unfold os_path_join. cbn [foldl]. rewrite resolve_join2_name by done.
  change (FS.resolve "./to_mesh.h5") with ([] ++ ["to_mesh.h5"]).
  by intros [_ [=]]%app_inj_tail.
Qed.

Lemma gradient_location_not_target (mf : string) :
  FS.resolve "./to_mesh.h5"
  <> FS.resolve (path_div (path_div mf "standard_gradient") "mesh.h5").
Proof.
  rewrite resolve_path_div by done.
  change (FS.resolve "./to_mesh.h5") with ([] ++ ["to_mesh.h5"]).
  by intros [_ [=]]%app_inj_tail.
Qed.

Lemma create_mesh_Ok mi (si : SourceInfo) fs (m : Mesh) :
  mesh_source c fs mi si m -> fs !! ["to_mesh.h5"] <> Some FS.Dir ->
  create_mesh c mi si fs = (Ok (), <[ ["to_mesh.h5"] := FS.File (BMesh m) ]> fs).
Proof.
  intros Hsrc Hto.
  assert (FS.is_dir fs ["to_mesh.h5"] = false) as Hnodir by (by apply is_dir_not_dir).
  unfold create_mesh, mbind, M_bind, bind, lift, read.
  destruct Hsrc as [ev lt -> -> Hhere | ev lt -> -> Hhere Hthere | ev lt -> -> Hhere Hthere Hbuilt];
    cbn [getitem].
  - assert (FS.path_exists (os_path_join (mesh_folder mi) [ev; "mesh.h5"]) fs = true) as ->.
    { unfold FS.path_exists, FS.present. rewrite Hhere.
      rewrite (bool_decide_true (is_Some _)) by eauto. apply orb_true_r. }
    apply copy_Ok; [done|done|done|apply mesh_location_not_target].
  - rewrite Hhere.
    assert (FS.path_exists (os_path_join lt [ev; "mesh.h5"]) fs = true) as ->.
    { unfold FS.path_exists, FS.present. rewrite Hthere.
      rewrite (bool_decide_true (is_Some _)) by eauto. apply orb_true_r. }
    apply copy_Ok; [done|done|done|apply mesh_location_not_target].
  - rewrite Hhere, Hthere, Hbuilt. by apply put_Ok.
Qed.

Lemma interpolate_fields_Ok fs (src dst m : Mesh) (layers : string) (ps : list string) :
  fs !! ["from_mesh.h5"] = Some (FS.File (BMesh src)) ->
  fs !! ["to_mesh.h5"] = Some (FS.File (BMesh dst)) ->
  gll_2_gll_layered_multi c src dst 20 layers ps = Ok m ->
  interpolate_fields c "./from_mesh.h5" "./to_mesh.h5" layers ps fs
  = (Ok (), <[ ["to_mesh.h5"] := FS.File (BMesh m) ]> fs).
Proof.
  intros Hfrom Hto Hgll.
  unfold interpolate_fields, read_mesh, mbind, M_bind, bind, lift, ret.
  rewrite (read_file_Ok fs "./from_mesh.h5" (BMesh src)) by done.
  rewrite (read_file_Ok fs "./to_mesh.h5" (BMesh dst)) by done.
  rewrite Hgll. apply put_Ok; [|done].
  by apply (is_dir_file fs ["to_mesh.h5"] (BMesh dst)).
Qed.

Lemma store_location_resolved (mf ev : string) :
  startswith "/" mf = true ->
  FS.resolve (store_location mf ev) = FS.resolve (store_folder mf ev) ++ ["mesh.h5"]
  /\ exists rest, FS.resolve (store_folder mf ev) = "/" :: rest.
Proof.
  intros Habs. unfold store_location. split; [by apply resolve_path_div|].
  unfold store_folder, path_div, FS.resolve.
  destruct (startswith "/" ev) eqn:Hev; [rewrite Hev; eauto|].
  destruct (String.eqb_spec mf "") as [->|Hne]; [done|].
  rewrite (startswith_app "/" mf ("/" +:+ ev)), Habs by done. eauto.
Qed.

(** [move_mesh] leaves the store holding a mesh for the event and touches
    nothing with a relative path. *)
Lemma move_mesh_Ok (mf ev : string) fs (b : blob Mesh Doc) :
  startswith "/" mf = true ->
  fs !! ["output"; "mesh.h5"] = Some (FS.File b) ->
  FS.clear_way fs (FS.resolve (store_folder mf ev)) ->
  exists fs',
    move_mesh mf ev fs = (Ok (), fs')
    /\ (forall k, List.hd "" k <> "/" -> fs' !! k = fs !! k)
    /\ (if FS.path_exists (store_location mf ev) fs then fs' = fs
        else fs' !! FS.resolve (store_location mf ev) = Some (FS.File b)).
Proof.
  intros Habs Hout Hclear.
  destruct (store_location_resolved mf ev Habs) as (Hloc & rest & Hfolder).
  unfold move_mesh, mbind, M_bind, bind, read, ret.
  destruct (FS.path_exists (store_location mf ev) fs) eqn:Hhere; [by exists fs|].
  unfold FS.path_exists in Hhere.
  destruct (present_false _ _ Hhere) as [Hnodir Hnone].
  assert (forall fs1,
            fs1 !! ["output"; "mesh.h5"] = Some (FS.File b) ->
            FS.is_dir fs1 (FS.resolve (store_folder mf ev)) = true ->
            fs1 !! FS.resolve (store_location mf ev) = None ->
            FS.copy "./output/mesh.h5" (store_location mf ev) fs1
            = (Ok (), <[FS.resolve (store_location mf ev) := FS.File b]> fs1)) as Hcopy.
  { intros fs1 Hout1 Hdir1 Hnone1. apply copy_Ok; [done| | |].
    - apply is_dir_not_dir; [by rewrite Hnone1| |]; rewrite Hloc, Hfolder;
        intros Heq; destruct rest; discriminate Heq.
    - unfold FS.parent. by rewrite Hloc, removelast_last.
    - rewrite Hloc, Hfolder. intros Heq. discriminate Heq. }
  destruct (FS.path_exists (store_folder mf ev) fs) eqn:Hfolder_here.
  - rewrite (Hcopy fs) by (done || by apply present_clear_is_dir).
    eexists. split; [done|]. split; [|by rewrite lookup_insert_eq].
    intros k Hk. rewrite lookup_insert_ne; [done|].
    intros <-. apply Hk. by rewrite Hloc, Hfolder.
  - destruct (makedirs_Ok fs (store_folder mf ev) Hfolder_here Hclear)
      as (fs1 & -> & Hdir1 & Hframe).
    assert (forall k, List.hd "" k <> "/" -> fs1 !! k = fs !! k) as Hrel.
    { intros k Hk. destruct (Hframe k) as [?|(Hne & [tail Hpre] & _)]; [done|].
      exfalso. apply Hk. rewrite Hfolder in Hpre. destruct k; [done|]. by injection Hpre as <-. }
    assert (fs1 !! FS.resolve (store_location mf ev) = None) as Hnone1.
    { destruct (Hframe (FS.resolve (store_location mf ev))) as [->|(_ & [tail Hpre] & _)]; [done|].
      exfalso. rewrite Hloc in Hpre. apply (f_equal length) in Hpre.
      rewrite !length_app in Hpre. simpl in Hpre. lia. }
    rewrite (Hcopy fs1); [|by rewrite Hrel|done|done].
    eexists. split; [done|]. split; [|by rewrite lookup_insert_eq].
    intros k Hk. rewrite lookup_insert_ne; [by apply Hrel|].
    intros <-. apply Hk. by rewrite Hloc, Hfolder.
Qed.


(** The state after the interpolation and the move into [output/]. *)
Lemma interpolate_and_move fs (src to0 m : Mesh) :
  RemoteWorker.job_folder_ready fs ->
  fs !! ["from_mesh.h5"] = Some (FS.File (BMesh src)) ->
  gll_2_gll_layered_multi c src to0 20 "nocore" interpolated_parameters = Ok m ->
  exists fs3,
    (interpolate_fields c "./from_mesh.h5" "./to_mesh.h5" "nocore" interpolated_parameters;;
     FS.move "./to_mesh.h5" "./output/mesh.h5")
      (<[ ["to_mesh.h5"] := FS.File (BMesh to0) ]> fs) = (Ok (), fs3)
    /\ fs3 !! ["output"; "mesh.h5"] = Some (FS.File (BMesh m))
    /\ fs3 !! ["to_mesh.h5"] = None
    /\ (forall k, k <> ["to_mesh.h5"] -> k <> ["output"; "mesh.h5"] -> fs3 !! k = fs !! k).
Proof.
  intros (Hout & Hto & Hmesh & Hsim) Hfrom Hgll.
  set (fs1 := <[ ["to_mesh.h5"] := FS.File (BMesh to0) ]> fs).
  set (fs2 := <[ ["to_mesh.h5"] := FS.File (BMesh m) ]> fs1).
  exists (delete ["to_mesh.h5"] (<[ ["output"; "mesh.h5"] := FS.File (BMesh m) ]> fs2)).
  split; [|split; [|split]].
  - unfold mbind, M_bind, bind.
    rewrite (interpolate_fields_Ok fs1 src to0 m); [|by unfold fs1; rewrite lookup_insert_ne
                                                    |by unfold fs1; rewrite lookup_insert_eq|done].
    fold fs2.
    rewrite (move_Ok fs2 "./to_mesh.h5" "./output/mesh.h5" (BMesh m)); [done| | | |done].
    + unfold fs2. by rewrite lookup_insert_eq.
    + apply is_dir_not_dir; [|done|done].
      change (FS.resolve "./output/mesh.h5") with ["output"; "mesh.h5"].
      unfold fs2, fs1. by rewrite !lookup_insert_ne.
    + change (FS.parent (FS.resolve "./output/mesh.h5")) with ["output"].
      unfold FS.is_dir, fs2, fs1. rewrite !lookup_insert_ne, Hout by done. apply orb_true_r.
  - by rewrite lookup_delete_ne, lookup_insert_eq.
  - by rewrite lookup_delete_eq.
  - intros k Hk1 Hk2. unfold fs2, fs1.
    by rewrite lookup_delete_ne, !lookup_insert_ne.
Qed.

(** C8. With [gradient] false the script builds or reuses a mesh, puts the
    five fields of the source mesh into it, leaves the result in
    [output/mesh.h5], keeps a mesh for the event in the mesh folder (the new
    one when there was none) and writes the simulation description; with
    [gradient] true it starts from the stored standard gradient mesh, runs
    the same interpolation into [output/mesh.h5], and writes nothing else. *)
Theorem main_spec (info : Info MeshSettings SourceInfo ReceiverInfo SimulationInfo)
    fs (src m : Mesh) :
  RemoteWorker.job_folder_ready fs ->
  fs !! ["from_mesh.h5"] = Some (FS.File (BMesh src)) ->
  (gradient info = false ->
   forall si ri sim ev to0 d,
     source_info info = Some si -> receiver_info info = Some ri ->
     simulation_info info = Some sim -> event_name (mesh_info info) = Some ev ->
     mesh_source c fs (mesh_info info) si to0 ->
     gll_2_gll_layered_multi c src to0 20 "nocore" interpolated_parameters = Ok m ->
     simulation_dictionary c (mesh_info info) si ri sim = Ok d ->
     startswith "/" (mesh_folder (mesh_info info)) = true ->
     FS.clear_way fs (FS.resolve (store_folder (mesh_folder (mesh_info info)) ev)) ->
     exists fs',
       main c info fs = (Ok (), fs')
       /\ fs' !! ["output"; "mesh.h5"] = Some (FS.File (BMesh m))
       /\ fs' !! ["output"; "simulation_dict.toml"] = Some (FS.File (BDoc d))
       /\ fs' !! FS.resolve (store_location (mesh_folder (mesh_info info)) ev)
          = (if FS.path_exists (store_location (mesh_folder (mesh_info info)) ev) fs
             then fs !! FS.resolve (store_location (mesh_folder (mesh_info info)) ev)
             else Some (FS.File (BMesh m))))
  /\ (gradient info = true ->
     forall g,
       fs !! FS.resolve (path_div (path_div (mesh_folder (mesh_info info)) "standard_gradient")
                           "mesh.h5") = Some (FS.File (BMesh g)) ->
       gll_2_gll_layered_multi c src g 20 "nocore" interpolated_parameters = Ok m ->
       exists fs',
         main c info fs = (Ok (), fs')
         /\ fs' !! ["output"; "mesh.h5"] = Some (FS.File (BMesh m))
         /\ (forall k, k <> ["to_mesh.h5"] -> k <> ["output"; "mesh.h5"] ->
                       fs' !! k = fs !! k)).
Proof.
  intros Hready Hfrom. pose proof Hready as (Hout & Hto & Hmesh & Hsim). split.
  - intros Hgrad si ri sim ev to0 d Hsi Hri Hsimi Hev Hsrc Hgll Hdict Habs Hclear.
    set (mf := mesh_folder (mesh_info info)) in *.
    destruct (interpolate_and_move fs src to0 m Hready Hfrom Hgll)
      as (fs3 & Hrun & Hout3 & Hto3 & Hframe3).
    destruct (store_location_resolved mf ev Habs) as (Hloc & rest & Hfolder).
    assert (forall k, List.hd "" k = "/" -> fs3 !! k = fs !! k) as Habs3.
    { intros k Hk. apply Hframe3; intros ->; discriminate Hk. }
    assert (FS.clear_way fs3 (FS.resolve (store_folder mf ev))) as Hclear3.
    { intros q x Hpre. destruct q as [|q0 q].
      - rewrite Hframe3 by done. by apply Hclear.
      - rewrite Habs3; [by apply Hclear|].
        destruct Hpre as [tail Hpre]. rewrite Hfolder in Hpre. by injection Hpre as <-. }
    destruct (move_mesh_Ok mf ev fs3 (BMesh m) Habs Hout3 Hclear3)
      as (fs4 & Hmove & Hrel4 & Hstore4).
    assert (fs3 !! FS.resolve (store_location mf ev)
            = fs !! FS.resolve (store_location mf ev)) as Hsame.
    { apply Habs3. by rewrite Hloc, Hfolder. }
    assert (FS.path_exists (store_location mf ev) fs3
            = FS.path_exists (store_location mf ev) fs) as Hsame_ex
      by (by apply present_lookup).
    rewrite Hsame_ex in Hstore4.
    exists (<[ ["output"; "simulation_dict.toml"] := FS.File (BDoc d) ]> fs4).
    split; [|split; [|split]].
    + unfold main. rewrite Hgrad. cbn [negb].
      unfold mbind at 1, M_bind at 1, bind at 1.
      assert ((source_info ← lift (getitem "source_info" (source_info info));
               receiver_info ← lift (getitem "receiver_info" (receiver_info info));
               simulation_info ← lift (getitem "simulation_info" (simulation_info info));
               create_mesh c (mesh_info info) source_info) fs
              = (Ok (), <[ ["to_mesh.h5"] := FS.File (BMesh to0) ]> fs)) as ->.
      { rewrite Hsi, Hri, Hsimi. unfold mbind, M_bind, bind, lift. cbn [getitem].
        by apply create_mesh_Ok. }
      unfold mbind at 1, M_bind at 1, bind at 1.
      unfold mbind, M_bind, bind in Hrun.
      destruct (interpolate_fields c "./from_mesh.h5" "./to_mesh.h5" "nocore"
                  interpolated_parameters (<[ ["to_mesh.h5"] := FS.File (BMesh to0) ]> fs))
        as [[[]|e] fsi]; [|done].
      unfold mbind at 1, M_bind at 1, bind at 1. rewrite Hrun.
      rewrite Hev, Hsi, Hri, Hsimi. unfold mbind, M_bind, bind, lift. cbn [getitem].
      fold mf. rewrite Hmove.
      unfold create_simulation_object, mbind, M_bind, bind, lift. rewrite Hdict.
      unfold FS.write_file.
      change (FS.resolve "output/simulation_dict.toml") with ["output"; "simulation_dict.toml"].
      apply put_Ok.
      * apply is_dir_not_dir; [|done|done].
        rewrite Hrel4 by done. by rewrite Hframe3.
      * change (FS.parent ["output"; "simulation_dict.toml"]) with ["output"].
        unfold FS.is_dir. rewrite Hrel4, Hframe3, Hout by done. apply orb_true_r.
    + rewrite lookup_insert_ne by done. by rewrite Hrel4.
    + by rewrite lookup_insert_eq.
    + rewrite lookup_insert_ne by (rewrite Hloc, Hfolder; done).
      destruct (FS.path_exists (store_location mf ev) fs); [by subst fs4|done].
  - intros Hgrad g Hstd Hgll.
    destruct (interpolate_and_move fs src g m Hready Hfrom Hgll)
      as (fs3 & Hrun & Hout3 & Hto3 & Hframe3).
    exists fs3. split; [|done].
    unfold main. rewrite Hgrad. cbn [negb].
    unfold mbind at 1, M_bind at 1, bind at 1.
    assert (get_standard_gradient (mesh_info info) fs
            = (Ok (), <[ ["to_mesh.h5"] := FS.File (BMesh g) ]> fs)) as ->.
    { unfold get_standard_gradient.
      apply copy_Ok; [done| |done|apply gradient_location_not_target].
      by apply is_dir_not_dir. }
    unfold mbind at 1, M_bind at 1, bind at 1.
    unfold mbind, M_bind, bind in Hrun.
    destruct (interpolate_fields c "./from_mesh.h5" "./to_mesh.h5" "nocore"
                interpolated_parameters (<[ ["to_mesh.h5"] := FS.File (BMesh g) ]> fs))
      as [[[]|e] fsi]; [|done].
    unfold mbind at 1, M_bind at 1, bind at 1. by rewrite Hrun.
Qed.

End worker_facts.

Lemma main_spec_witness :
  (exists fs',
     RemoteWorker.main RemoteWorker.trace_tools RemoteWorker.forward_info
       RemoteWorker.job_folder = (Ok (), fs')
     /\ fs' !! ["output"; "mesh.h5"]
        = Some (FS.File (RemoteWorker.BMesh ["smoothie"; "fields of model (nocore)"]))
     /\ fs' !! ["output"; "simulation_dict.toml"]
        = Some (FS.File (RemoteWorker.BDoc "simulation on output/mesh.h5"))
     /\ fs' !! ["/"; "scratch"; "meshes"; "event_a"; "mesh.h5"]
        = Some (FS.File (RemoteWorker.BMesh ["smoothie"; "fields of model (nocore)"])))
  /\ (exists fs',
        RemoteWorker.main RemoteWorker.trace_tools RemoteWorker.gradient_info
          RemoteWorker.job_folder = (Ok (), fs')
        /\ fs' !! ["output"; "mesh.h5"]
           = Some (FS.File (RemoteWorker.BMesh ["gradient mesh"; "fields of model (nocore)"]))
        /\ fs' !! ["output"; "simulation_dict.toml"] = None
        /\ fs' !! ["/"; "scratch"; "meshes"; "standard_gradient"; "mesh.h5"]
           = Some (FS.File (RemoteWorker.BMesh ["gradient mesh"]))).
Proof.
  assert (RemoteWorker.job_folder_ready RemoteWorker.job_folder) as Hready.
  { unfold RemoteWorker.job_folder_ready.
    assert (RemoteWorker.job_folder !! ["to_mesh.h5"] = None) as -> by vm_refl.
    assert (RemoteWorker.job_folder !! ["output"; "mesh.h5"] = None) as -> by vm_refl.
    assert (RemoteWorker.job_folder !! ["output"; "simulation_dict.toml"] = None) as ->
      by vm_refl.
    split; [vm_refl|done]. }
  assert (RemoteWorker.job_folder !! ["from_mesh.h5"]
          = Some (FS.File (RemoteWorker.BMesh ["model"]))) as Hfrom by vm_refl.
  split.
  - destruct (proj1 (main_spec RemoteWorker.trace_tools RemoteWorker.forward_info
                       RemoteWorker.job_folder ["model"]
                       ["smoothie"; "fields of model (nocore)"] Hready Hfrom)
                eq_refl tt tt tt "event_a" ["smoothie"] "simulation on output/mesh.h5"
                eq_refl eq_refl eq_refl eq_refl)
      as (fs' & Hrun & Hmesh & Hdoc & Hstore).
    + apply (RemoteWorker.built_mesh _ _ _ _ _ "event_a" "/project/meshes"); vm_refl.
    + vm_refl.
    + vm_refl.
    + vm_refl.
    + apply clear_way_check. vm_refl.
    + assert (FS.resolve (RemoteWorker.store_location
                (RemoteWorker.mesh_folder (RemoteWorker.mesh_info RemoteWorker.forward_info))
                "event_a")
              = ["/"; "scratch"; "meshes"; "event_a"; "mesh.h5"]) as Hloc by vm_refl.
      assert (FS.path_exists (RemoteWorker.store_location
                (RemoteWorker.mesh_folder (RemoteWorker.mesh_info RemoteWorker.forward_info))
                "event_a") RemoteWorker.job_folder = false) as Hnew by vm_refl.
      rewrite Hloc, Hnew in Hstore. exists fs'.
      split; [exact Hrun|]. split; [exact Hmesh|]. split; [exact Hdoc|exact Hstore].
  - destruct (proj2 (main_spec RemoteWorker.trace_tools RemoteWorker.gradient_info
                       RemoteWorker.job_folder ["model"]
                       ["gradient mesh"; "fields of model (nocore)"] Hready Hfrom)
                eq_refl ["gradient mesh"])
      as (fs' & Hrun & Hmesh & Hframe).
    + vm_refl.
    + vm_refl.
    + exists fs'. split; [exact Hrun|]. split; [exact Hmesh|].
      rewrite !Hframe by done. split; vm_refl.
Defined.

(** * Further properties *)

(** ** Iteration numbering on a real models folder *)

Section numbering_facts.
Import IterationNumber.

Lemma max_list_in (ns : list nat) : ns <> [] -> max_list ns ∈ ns.
Proof.
  induction ns as [|n ns IH]; [done|]. intros _.
  destruct ns as [|m ns].
  - simpl. rewrite Nat.max_0_r. by left.
  - change (max_list (n :: m :: ns)) with (Nat.max n (max_list (m :: ns))).
    destruct (Nat.max_spec n (max_list (m :: ns))) as [[_ ->]|[_ ->]].
    + right. by apply IH.
    + by left.
Qed.

Lemma mapM_raises {X Y} (f : X -> result Y) (l : list X) (x : X) :
  x ∈ l -> raises (f x) -> raises (mapM f l).
Proof.
  intros Hx [e He]. induction l as [|y l IH]; [by apply elem_of_nil in Hx|].
  apply elem_of_cons in Hx as [<-|Hx].
  - exists e. simpl. by rewrite He.
  - destruct (IH Hx) as [e' He']. simpl.
    destruct (f y) as [b|e'']; simpl; [|by eexists].
    rewrite He'. by eexists.
Qed.

Lemma iteration_number_glob (model_dir : string) (entries entries' : list string) :
  List.filter fnmatch_h5 entries = List.filter fnmatch_h5 entries' ->
  iteration_number model_dir entries = iteration_number model_dir entries'.
Proof.
  intros H. unfold iteration_number, find_iteration_numbers, glob_h5. by rewrite H.
Qed.

(** X1. In a models folder whose path has no dot and no wildcard character
    of [glob], whatever else lies there beside the artifacts [model_<n>.h5]
    of the iterations [ns] (entries that [*.h5] does not match), the
    iteration number is the largest [n], the iteration name is [model_] with
    that number zero-padded, and the model path is the path of that
    artifact, one of the globbed files. *)
Theorem newest_model (model_dir : string) (entries : list string) (ns : list nat) :
  has_magic model_dir = false ->
  contains "." model_dir = false -> ns <> [] ->
  List.filter fnmatch_h5 entries = model_file <$> ns ->
  iteration_number model_dir entries = Ok (Z.of_nat (max_list ns))
  /\ iteration_name model_dir entries
     = Ok ("model_" +:+ format_05d (Z.of_nat (max_list ns)))
  /\ model_path model_dir entries
     = Ok (model_dir +:+ "/" +:+ model_file (max_list ns))
  /\ model_dir +:+ "/" +:+ model_file (max_list ns) ∈ glob_h5 model_dir entries
  /\ py_int (format_05d (Z.of_nat (max_list ns))) = Ok (Z.of_nat (max_list ns)).
Proof.
  intros _ Hdot Hns Hglob.
  assert (iteration_number model_dir entries = Ok (Z.of_nat (max_list ns))) as Hnum.
  { rewrite (iteration_number_glob model_dir entries (model_file <$> ns))
      by (by rewrite filter_model_files).
    by apply iteration_number_artifacts. }
  split; [done|]. unfold iteration_name, model_path. rewrite Hnum.
  split; [done|]. split; [done|]. split; [|apply py_int_format_05d].
  unfold glob_h5. rewrite Hglob.
  apply (list_elem_of_fmap_2 (fun name => model_dir +:+ "/" +:+ name)).
  apply (list_elem_of_fmap_2 model_file). by apply max_list_in.
Qed.

(** X2. Where [*.h5] matches nothing in the models folder (it is empty, or
    holds other files only; its path has no wildcard character of [glob]),
    the iteration number is 0, the iteration name [model_00000] and the
    model path [<model_dir>/model_00000.h5], a file that is not there. *)
Theorem no_model_yet (model_dir : string) (entries : list string) :
  has_magic model_dir = false ->
  List.filter fnmatch_h5 entries = [] ->
  find_iteration_numbers model_dir entries = Ok [0]
  /\ iteration_number model_dir entries = Ok 0
  /\ iteration_name model_dir entries = Ok "model_00000"
  /\ model_path model_dir entries = Ok (model_dir +:+ "/model_00000.h5")
  /\ "model_00000.h5" ∉ entries.
Proof.
  intros _ Hnone.
  assert (find_iteration_numbers model_dir entries = Ok [0]) as Hfind.
  { unfold find_iteration_numbers, glob_h5. by rewrite Hnone. }
  unfold model_path, iteration_name, iteration_number. rewrite Hfind.
  split; [done|]. split; [done|]. split; [done|]. split; [done|].
  intros Hin.
  assert ("model_00000.h5" ∈ List.filter fnmatch_h5 entries) as Hf.
  { apply list_elem_of_In, filter_In. split; [by apply list_elem_of_In|done]. }
  rewrite Hnone in Hf. by apply elem_of_nil in Hf.
Qed.

(** X3. One file in the models folder (a folder whose path has no wildcard
    character of [glob]) that [*.h5] matches and whose name does not end in
    a number (after the last underscore, before the first dot of its path)
    makes the iteration number, the iteration name and the model path all
    raise, whatever else is in the folder. *)
Theorem stray_model_file (model_dir : string) (entries : list string) (name : string) :
  has_magic model_dir = false ->
  name ∈ entries -> fnmatch_h5 name = true ->
  raises (parse_model (model_dir +:+ "/" +:+ name)) ->
  raises (iteration_number model_dir entries)
  /\ raises (iteration_name model_dir entries)
  /\ raises (model_path model_dir entries).
Proof.
  intros _ Hin Hmatch Hbad.
  assert (raises (find_iteration_numbers model_dir entries)) as [e He].
  { unfold find_iteration_numbers.
    assert (model_dir +:+ "/" +:+ name ∈ glob_h5 model_dir entries) as Hglob.
    { unfold glob_h5. apply (list_elem_of_fmap_2 (fun n => model_dir +:+ "/" +:+ n)).
      apply list_elem_of_In, filter_In. split; [by apply list_elem_of_In|done]. }
    destruct (glob_h5 model_dir entries) as [|m ms] eqn:Hms;
      [by apply elem_of_nil in Hglob|].
    simpl length. cbn [Nat.eqb]. rewrite <- Hms in *.
    by apply (mapM_raises _ _ (model_dir +:+ "/" +:+ name)). }
  unfold model_path, iteration_name, iteration_number. rewrite He.
  repeat split; by exists e.
Qed.

End numbering_facts.

Lemma newest_model_witness :
  IterationNumber.iteration_number "/data/inversion/OPTIMIZATION/MODELS"
    ["README"; "model_00002.h5"; ".model_00099.h5"; "model_00010.h5"; "model_00003.h5.bak"]
  = Ok 10
  /\ IterationNumber.iteration_name "/data/inversion/OPTIMIZATION/MODELS"
       ["README"; "model_00002.h5"; ".model_00099.h5"; "model_00010.h5"; "model_00003.h5.bak"]
     = Ok "model_00010"
  /\ IterationNumber.model_path "/data/inversion/OPTIMIZATION/MODELS"
       ["README"; "model_00002.h5"; ".model_00099.h5"; "model_00010.h5"; "model_00003.h5.bak"]
     = Ok "/data/inversion/OPTIMIZATION/MODELS/model_00010.h5".
Proof.
  destruct (newest_model "/data/inversion/OPTIMIZATION/MODELS"
              ["README"; "model_00002.h5"; ".model_00099.h5"; "model_00010.h5";
               "model_00003.h5.bak"] [2; 10]%nat
              ltac:(vm_refl) ltac:(vm_refl) ltac:(done) ltac:(vm_refl))
    as (Hnum & Hname & Hpath & _).
  split; [exact Hnum|]. split; [exact Hname|exact Hpath].
Defined.

Lemma no_model_yet_witness :
  IterationNumber.iteration_name "OPTIMIZATION/MODELS" ["notes.txt"; ".cache.h5"]
  = Ok "model_00000"
  /\ IterationNumber.model_path "OPTIMIZATION/MODELS" ["notes.txt"; ".cache.h5"]
     = Ok "OPTIMIZATION/MODELS/model_00000.h5".
Proof.
  destruct (no_model_yet "OPTIMIZATION/MODELS" ["notes.txt"; ".cache.h5"]
              ltac:(vm_refl) ltac:(vm_refl))
    as (_ & _ & Hname & Hpath & _).
  split; [exact Hname|exact Hpath].
Defined.

Lemma stray_model_file_witness :
  raises (IterationNumber.iteration_number "/data/inversion/OPTIMIZATION/MODELS"
            ["model_00000.h5"; "model_final.h5"]).
Proof.
  assert ("model_final.h5" ∈ ["model_00000.h5"; "model_final.h5"]) as Hin
    by (right; left).
  assert (raises (IterationNumber.parse_model
                    ("/data/inversion/OPTIMIZATION/MODELS" +:+ "/" +:+ "model_final.h5")))
    as Hbad
    by (exists (ValueError "invalid literal for int() with base 10: 'final'"); vm_refl).
  exact (proj1 (stray_model_file "/data/inversion/OPTIMIZATION/MODELS"
                  ["model_00000.h5"; "model_final.h5"] "model_final.h5"
                  ltac:(vm_refl) Hin ltac:(vm_refl) Hbad)).
Defined.

(** ** More of the artifact store *)

Section artifact_more_facts.
Import ArtifactStore.
Context {A B : Type} (cast : B -> A).
Implicit Types (plane : list (list A)) (data : tensor A) (idx : list nat).

Lemma index_of_None (labels : list string) (p : string) :
  p ∉ labels -> index_of labels p = None.
Proof.
  induction labels as [|y labels IH]; [done|]. intros Hp. simpl.
  destruct (String.eqb_spec y p) as [->|_]; [destruct Hp; by left|].
  rewrite IH; [done|]. intros Hin. apply Hp. by right.
Qed.

Lemma mapM_first_failure {X Y} (f : X -> result Y) (l1 l2 : list X) (x : X) e :
  Forall (fun y => returns (f y)) l1 -> f x = Raise e ->
  mapM f (l1 ++ x :: l2) = Raise e.
Proof.
  intros Hl1 Hx. induction Hl1 as [|y l1 [b Hy] _ IH]; simpl.
  - by rewrite Hx.
  - rewrite Hy. simpl. by rewrite IH.
Qed.

Lemma py_index_returns (labels : list string) (p : string) :
  p ∈ labels -> returns (py_index labels p).
Proof.
  intros [i Hi]%index_of_elem_of. exists i. unfold py_index. by rewrite Hi.
Qed.

(** X4. A configured parameter that is not among the labels of the file:
    looking up the indices raises [ValueError] for the first such
    parameter, so does reading, and writing raises it too and leaves the
    store as it was. *)
Theorem unknown_parameter (P1 P2 : list string) (p filename : string) (T : tensor B)
    (st : store A) (h5 : h5file A) :
  files st !! filename = Some h5 ->
  Forall (fun q => q ∈ dim_labels_of h5) P1 -> p ∉ dim_labels_of h5 ->
  get_parameter_indices (P1 ++ p :: P2) st filename
  = Raise (ValueError ("'" +:+ p +:+ "' is not in list"))
  /\ get_h5_data (P1 ++ p :: P2) st filename
     = Raise (ValueError ("'" +:+ p +:+ "' is not in list"))
  /\ set_h5_data cast (P1 ++ p :: P2) filename T st
     = (Raise (ValueError ("'" +:+ p +:+ "' is not in list")), st).
Proof.
  intros Hfile HP1 Hp.
  assert (get_parameter_indices (P1 ++ p :: P2) st filename
          = Raise (ValueError ("'" +:+ p +:+ "' is not in list"))) as Hidx.
  { unfold get_parameter_indices, open_h5. rewrite Hfile. simpl.
    apply mapM_first_failure.
    - eapply Forall_impl; [exact HP1|]. intros q. apply py_index_returns.
    - unfold py_index. by rewrite index_of_None. }
  split; [done|]. split.
  - unfold get_h5_data. by rewrite Hidx.
  - unfold set_h5_data, path_exists.
    rewrite bool_decide_true by (rewrite Hfile; eauto). simpl.
    unfold updated_dataset. by rewrite Hidx.
Qed.

Lemma rows_of_shape a n c data idx :
  has_shape a n c data -> Forall (fun j => (j < n)%nat) idx ->
  has_shape a (length idx) c ((fun plane => rows_of plane idx) <$> data).
Proof.
  intros [Hlen Hplanes] Hidx. split; [by rewrite length_fmap|].
  apply Forall_fmap. eapply Forall_impl; [exact Hplanes|].
  intros plane [Hn Hrows]. simpl. unfold rows_of. split; [by rewrite length_fmap|].
  apply Forall_fmap. eapply Forall_impl; [exact Hidx|]. intros j Hj. simpl.
  simpl in Hj. destruct (lookup_lt_is_Some_2 plane j) as [r Hr]; [lia|]. rewrite Hr. simpl.
  rewrite Forall_lookup in Hrows. eauto.
Qed.

Lemma get_h5_data_Ok (P : list string) (filename : string) (st : store A)
    (h5 : h5file A) (a c : nat) idx :
  files st !! filename = Some h5 ->
  mapM (py_index (dim_labels_of h5)) P = Ok idx ->
  has_shape a (length (dim_labels_of h5)) c (model_data h5) ->
  get_parameter_indices P st filename = Ok idx
  /\ get_h5_data P st filename = Ok ((fun plane => rows_of plane idx) <$> model_data h5).
Proof.
  intros Hfile Hidx HD.
  pose proof (mapM_py_index_Forall2 _ _ _ Hidx) as Hall.
  pose proof (indices_bound _ _ _ Hall) as Hrange.
  assert (get_parameter_indices P st filename = Ok idx) as Hget.
  { unfold get_parameter_indices, open_h5. rewrite Hfile. simpl. done. }
  split; [done|].
  unfold get_h5_data. rewrite Hget. simpl. unfold open_h5. rewrite Hfile. simpl.
  apply (take_axis1_Ok idx _ (length (dim_labels_of h5))); [|done].
  by eapply has_shape_planes.
Qed.

(** X5. Reading returns, for every element, the rows of the configured
    parameters in the order in which they are configured (not the order of
    the file; a parameter may repeat): an array of as many elements and
    points as the file has and as many rows as there are parameters. *)
Theorem get_h5_data_rows (P : list string) (filename : string) (st : store A)
    (h5 : h5file A) (a c : nat) :
  files st !! filename = Some h5 ->
  Forall (fun p => p ∈ dim_labels_of h5) P ->
  has_shape a (length (dim_labels_of h5)) c (model_data h5) ->
  exists idx,
    get_parameter_indices P st filename = Ok idx
    /\ Forall2 (fun p i => dim_labels_of h5 !! i = Some p) P idx
    /\ get_h5_data P st filename = Ok ((fun plane => rows_of plane idx) <$> model_data h5)
    /\ has_shape a (length P) c ((fun plane => rows_of plane idx) <$> model_data h5).
Proof.
  intros Hfile HP HD.
  destruct (parameter_indices _ _ HP) as (idx & Hidx & Hall).
  destruct (get_h5_data_Ok P filename st h5 a c idx Hfile Hidx HD) as [Hget Hread].
  exists idx. split; [done|]. split; [done|]. split; [done|].
  rewrite (Forall2_length _ _ _ Hall). apply (rows_of_shape a (length (dim_labels_of h5))); [done|].
  by eapply indices_bound.
Qed.

Lemma put_rows_same idx plane :
  Forall (fun k => (k < length plane)%nat) idx ->
  put_rows idx (rows_of plane idx) plane = plane.
Proof.
  induction 1 as [|j idx Hj _ IH]; [done|].
  simpl. destruct (lookup_lt_is_Some_2 plane j Hj) as [r Hr].
  rewrite Hr. simpl. rewrite list_insert_id by done. exact IH.
Qed.

Lemma zip_put_rows_same idx (D : tensor A) n :
  Forall (fun plane => length plane = n) D -> Forall (fun j => (j < n)%nat) idx ->
  zip_with (fun dp tp => put_rows idx tp dp) D ((fun plane => rows_of plane idx) <$> D) = D.
Proof.
  intros HD Hidx. induction HD as [|dp D Hdp _ IH]; [done|]. simpl. f_equal; [|exact IH].
  apply put_rows_same. by rewrite Hdp.
Qed.

Lemma put_rows_Forall (Q : list A -> Prop) idx : forall rows plane,
  Forall Q plane -> Forall Q rows -> Forall Q (put_rows idx rows plane).
Proof.
  induction idx as [|j idx IH]; intros rows plane Hplane Hrows; [done|].
  destruct rows as [|r rows]; [done|]. simpl.
  apply Forall_cons in Hrows as [Hr Hrows].
  apply IH; [|done]. by apply Forall_insert.
Qed.

Lemma put_rows_shape a n m c idx (D T : tensor A) :
  has_shape a n c D -> has_shape a m c T ->
  has_shape a n c (zip_with (fun dp tp => put_rows idx tp dp) D T).
Proof.
  intros [HDlen HD] [HTlen HT]. split; [rewrite length_zip_with; lia|].
  apply Forall_lookup. intros e cp He.
  apply lookup_zip_with_Some in He as (dp & tp & -> & Hdp & Htp).
  rewrite Forall_lookup in HD, HT.
  destruct (HD _ _ Hdp) as [Hn Hrows]. destruct (HT _ _ Htp) as [_ Htrows].
  split; [by rewrite put_rows_length|]. by apply put_rows_Forall.
Qed.

Lemma put_rows_overwrite idx (t1 t2 dp : list (list A)) :
  NoDup idx -> length t2 = length idx -> Forall (fun k => (k < length dp)%nat) idx ->
  put_rows idx t2 (put_rows idx t1 dp) = put_rows idx t2 dp.
Proof.
  intros Hnd Hlen Hrange. apply list_eq. intros k.
  destruct (decide (k ∈ idx)) as [Hk|Hk].
  - apply list_elem_of_lookup in Hk as [i Hi].
    destruct (lookup_lt_is_Some_2 t2 i) as [r Hr];
      [rewrite Hlen; by eapply lookup_lt_Some|].
    rewrite Forall_forall in Hrange.
    assert (k < length dp)%nat as Hkl by (apply Hrange; by eapply list_elem_of_lookup_2).
    rewrite (put_rows_lookup idx t2 _ i k r), (put_rows_lookup idx t2 dp i k r); try done.
    by rewrite put_rows_length.
  - by rewrite !put_rows_lookup_ne.
Qed.

Lemma zip_put_rows_overwrite idx (D T1 T2 : tensor A) :
  NoDup idx -> Forall (fun tp => length tp = length idx) T2 ->
  Forall (fun dp => Forall (fun k => (k < length dp)%nat) idx) D ->
  length T1 = length D -> length T2 = length D ->
  zip_with (fun dp tp => put_rows idx tp dp)
    (zip_with (fun dp tp => put_rows idx tp dp) D T1) T2
  = zip_with (fun dp tp => put_rows idx tp dp) D T2.
Proof.
  intros Hnd HT2 HD. revert T1 T2 HT2.
  induction HD as [|dp D Hdp _ IH]; intros T1 T2 HT2 H1 H2.
  - by destruct T1, T2.
  - destruct T1 as [|t1 T1], T2 as [|t2 T2]; try done. simpl.
    apply Forall_cons in HT2 as [Ht2 HT2]. f_equal.
    + by apply put_rows_overwrite.
    + apply IH; simpl in *; [done|lia|lia].
Qed.

(** X7. A write keeps the artifact in shape: the labels are the ones it
    had, the dataset has the shape it had, and the indices of any parameter
    list are what they were. *)
Theorem set_h5_data_keeps_shape (P : list string) (filename : string) (T : tensor B)
    (st : store A) (h5 : h5file A) (a c : nat) :
  files st !! filename = Some h5 ->
  NoDup P ->
  Forall (fun p => p ∈ dim_labels_of h5) P ->
  has_shape a (length (dim_labels_of h5)) c (model_data h5) ->
  has_shape a (length P) c T ->
  exists st' h5',
    set_h5_data cast P filename T st = (Ok (), st')
    /\ files st' !! filename = Some h5'
    /\ dimension_labels h5' = dimension_labels h5
    /\ has_shape a (length (dim_labels_of h5)) c (model_data h5')
    /\ (forall Q, get_parameter_indices Q st' filename = get_parameter_indices Q st filename)
    /\ dom (files st') = dom (files st).
Proof.
  intros Hfile HndP HP HD HT.
  destruct (parameter_indices _ _ HP) as (idx & Hidx & Hall).
  pose proof (indices_NoDup _ _ _ Hall HndP) as Hnd.
  pose proof (has_shape_astype cast _ _ _ _ HT) as HT'.
  eexists _, _. split; [by apply (set_h5_data_Ok cast P filename T st h5 a c idx)|].
  simpl. split; [by rewrite lookup_insert_eq|]. split; [done|].
  split; [by eapply put_rows_shape|]. split.
  - intros Q. unfold get_parameter_indices, open_h5. simpl.
    by rewrite lookup_insert_eq, Hfile.
  - apply dom_insert_lookup_L. by rewrite Hfile.
Qed.

(** X8. Of two writes of the same parameters into one artifact the second
    decides what the files hold: they are as if it alone had been made. *)
Theorem second_write_wins (P : list string) (filename : string) (T1 T2 : tensor B)
    (st : store A) (h5 : h5file A) (a c : nat) :
  files st !! filename = Some h5 ->
  NoDup P ->
  Forall (fun p => p ∈ dim_labels_of h5) P ->
  has_shape a (length (dim_labels_of h5)) c (model_data h5) ->
  has_shape a (length P) c T1 ->
  has_shape a (length P) c T2 ->
  exists st1 st12 st2,
    set_h5_data cast P filename T1 st = (Ok (), st1)
    /\ set_h5_data cast P filename T2 st1 = (Ok (), st12)
    /\ set_h5_data cast P filename T2 st = (Ok (), st2)
    /\ files st12 = files st2.
Proof.
  intros Hfile HndP HP HD HT1' HT2'.
  pose proof (has_shape_astype cast _ _ _ _ HT1') as HT1.
  pose proof (has_shape_astype cast _ _ _ _ HT2') as HT2.
  destruct (parameter_indices _ _ HP) as (idx & Hidx & Hall).
  pose proof (indices_NoDup _ _ _ Hall HndP) as Hnd.
  pose proof (indices_bound _ _ _ Hall) as Hrange.
  pose proof (Forall2_length _ _ _ Hall) as Hlen.
  set (h5' := {| dimension_labels := dimension_labels h5;
                 model_data := zip_with (fun dp tp => put_rows idx tp dp)
                                 (model_data h5) (astype cast T1) |}).
  set (st1 := {| files := <[filename := h5']> (files st);
                 write_log := write_log st ++ [(filename, sort_indices idx)] |}).
  eexists st1, _, _.
  split; [by apply (set_h5_data_Ok cast P filename T1 st h5 a c idx)|].
  split; [|split; [by apply (set_h5_data_Ok cast P filename T2 st h5 a c idx)|]].
  - apply (set_h5_data_Ok cast P filename T2 st1 h5' a c idx); try done.
    + unfold st1. simpl. by rewrite lookup_insert_eq.
    + by eapply put_rows_shape.
  - simpl. rewrite insert_insert_eq. f_equal. f_equal.
    apply zip_put_rows_overwrite; [done| | | |].
    + destruct HT2 as [_ HT2]. eapply Forall_impl; [exact HT2|].
      intros tp [Htp _]. simpl in Htp. by rewrite Htp.
    + pose proof (has_shape_planes _ _ _ _ HD) as HDp.
      eapply Forall_impl; [exact HDp|]. intros dp ->. done.
    + destruct HD as [-> _], HT1 as [-> _]. done.
    + destruct HD as [-> _], HT2 as [-> _]. done.
Qed.

Lemma py_index_elem_of (labels P : list string) : forall idx p i,
  mapM (py_index labels) P = Ok idx -> p ∈ P -> py_index labels p = Ok i -> i ∈ idx.
Proof.
  induction P as [|q P IH]; intros idx p i; simpl.
  - intros _ Hp. by apply elem_of_nil in Hp.
  - destruct (py_index labels q) as [j|] eqn:Hj; simpl; [|done].
    destruct (mapM (py_index labels) P) as [jdx|] eqn:Hjdx; simpl; [|done].
    intros [= <-] Hp Hi. apply elem_of_cons in Hp as [->|Hp].
    + rewrite Hj in Hi. injection Hi as ->. by left.
    + right. by eapply IH.
Qed.

Lemma indices_NoDup_inv (labels P : list string) : forall idx,
  mapM (py_index labels) P = Ok idx -> NoDup idx -> NoDup P.
Proof.
  induction P as [|q P IH]; intros idx; simpl; [constructor|].
  destruct (py_index labels q) as [j|] eqn:Hj; simpl; [|done].
  destruct (mapM (py_index labels) P) as [jdx|] eqn:Hjdx; simpl; [|done].
  intros [= <-] [Hnot Hnd]%NoDup_cons. constructor; [|by eapply IH].
  intros Hq. apply Hnot. by eapply py_index_elem_of.
Qed.

Lemma increasing_NoDup (l : list nat) : increasing l = true -> NoDup l.
Proof.
  intros Hinc.
  assert (StronglySorted lt l) as Hs.
  { apply Sorted_StronglySorted; [intros x y z; lia|].
    induction l as [|x l IH]; [constructor|].
    destruct l as [|y l]; [by repeat constructor|].
    simpl in Hinc. apply andb_true_iff in Hinc as [Hxy Hinc].
    constructor; [by apply IH|]. constructor. by apply Nat.ltb_lt. }
  clear Hinc. induction Hs as [|x l _ IH Hx]; [constructor|].
  constructor; [|done].
  intros Hin. rewrite Forall_forall in Hx. specialize (Hx x Hin). lia.
Qed.

(** X9. A parameter configured twice: reading works (the row comes twice),
    writing does not. The index list is sorted but not strictly increasing,
    the storage layer refuses it with [TypeError], and the store stays as
    it was. *)
Theorem repeated_parameter (P : list string) (filename : string) (T : tensor B)
    (st : store A) (h5 : h5file A) (a c : nat) :
  files st !! filename = Some h5 ->
  ~ NoDup P ->
  Forall (fun p => p ∈ dim_labels_of h5) P ->
  has_shape a (length (dim_labels_of h5)) c (model_data h5) ->
  has_shape a (length P) c T ->
  set_h5_data cast P filename T st
  = (Raise (TypeError "Indexing elements must be in increasing order"), st)
  /\ returns (get_h5_data P st filename).
Proof.
  intros Hfile Hdup HP HD HT.
  pose proof (has_shape_astype cast _ _ _ _ HT) as HT'.
  destruct (parameter_indices _ _ HP) as (idx & Hidx & Hall).
  pose proof (indices_bound _ _ _ Hall) as Hrange.
  pose proof (Forall2_length _ _ _ Hall) as Hlen.
  split; [|eexists; by apply (get_h5_data_Ok P filename st h5 a c idx)].
  assert (increasing (sort_indices idx) = false) as Hinc.
  { destruct (increasing (sort_indices idx)) eqn:Hinc; [|done].
    destruct Hdup. apply (indices_NoDup_inv _ _ idx Hidx).
    rewrite <- (sort_indices_Permutation idx). by apply increasing_NoDup. }
  unfold set_h5_data, path_exists.
  rewrite bool_decide_true by (rewrite Hfile; eauto). simpl.
  unfold updated_dataset, get_parameter_indices, open_h5. rewrite Hfile. simpl.
  rewrite Hidx. simpl.
  rewrite (overwrite_slices_Ok cast T a (length P) (length (dim_labels_of h5)) c idx 0)
    by (done || lia).
  simpl.
  set (n := length (dim_labels_of h5)) in *.
  set (C := zip_with _ (model_data h5) (astype cast T)).
  assert (Forall (fun plane => length plane = n) C) as HC.
  { eapply has_shape_planes. by eapply put_rows_shape. }
  assert (Forall (fun j => (j < n)%nat) (sort_indices idx)) as Hsrt
    by (by rewrite sort_indices_Permutation).
  rewrite (take_axis1_Ok _ C n) by done. simpl.
  unfold h5_write_axis1. by rewrite Hinc.
Qed.

End artifact_more_facts.

Section same_type_facts.
Import ArtifactStore.
Context {A : Type}.

Lemma astype_id (T : tensor A) : astype id T = T.
Proof.
  unfold astype.
  rewrite <- (list_fmap_id T) at 2. apply list_fmap_ext. intros _ tp _.
  rewrite <- (list_fmap_id tp) at 2. apply list_fmap_ext. intros _ r _.
  apply list_fmap_id.
Qed.

(** X6. Writing back what was read changes nothing in the file: after
    [set_h5_data(filename, get_h5_data(filename))] every file holds what it
    held; one write has reached the storage layer. What was read has the
    element type of the dataset, so that nothing is converted. *)
Theorem write_back_what_was_read (P : list string) (filename : string) (T : tensor A)
    (st : store A) (h5 : h5file A) (a c : nat) :
  files st !! filename = Some h5 ->
  NoDup P ->
  Forall (fun p => p ∈ dim_labels_of h5) P ->
  has_shape a (length (dim_labels_of h5)) c (model_data h5) ->
  get_h5_data P st filename = Ok T ->
  exists indices,
    set_h5_data id P filename T st
    = (Ok (), {| files := files st;
                 write_log := write_log st ++ [(filename, indices)] |}).
Proof.
  intros Hfile HndP HP HD Hread.
  destruct (parameter_indices _ _ HP) as (idx & Hidx & Hall).
  destruct (get_h5_data_Ok P filename st h5 a c idx Hfile Hidx HD) as [_ Hget].
  rewrite Hget in Hread. injection Hread as <-.
  assert (has_shape a (length P) c ((fun plane => rows_of plane idx) <$> model_data h5))
    as Hshape.
  { rewrite (Forall2_length _ _ _ Hall). apply (rows_of_shape a (length (dim_labels_of h5))); [done|].
    by eapply indices_bound. }
  pose proof (indices_NoDup _ _ _ Hall HndP) as Hnd.
  pose proof (indices_bound _ _ _ Hall) as Hrange.
  exists (sort_indices idx).
  rewrite (set_h5_data_Ok id P filename _ st h5 a c idx) by done.
  rewrite astype_id. f_equal. f_equal.
  assert (zip_with (fun dp tp => put_rows idx tp dp) (model_data h5)
            ((fun plane => rows_of plane idx) <$> model_data h5) = model_data h5) as ->.
  { apply (zip_put_rows_same idx _ (length (dim_labels_of h5))); [|done].
    by eapply has_shape_planes. }
  destruct h5 as [labels D]. simpl. by apply insert_id.
Qed.

End same_type_facts.

Lemma unknown_parameter_witness :
  ArtifactStore.get_h5_data ["VSV"; "VPV"; "RHO"] ArtifactStore.sample_store
    "OPTIMIZATION/MODELS/model_00000.h5"
  = Raise (ValueError "'VPV' is not in list")
  /\ ArtifactStore.set_h5_data id ["VSV"; "VPV"; "RHO"] "OPTIMIZATION/MODELS/model_00000.h5"
       ArtifactStore.sample_update ArtifactStore.sample_store
     = (Raise (ValueError "'VPV' is not in list"), ArtifactStore.sample_store).
Proof.
  assert (Forall (fun q => q ∈ ArtifactStore.dim_labels_of ArtifactStore.sample_file)
            ["VSV"]) as Hin by (repeat constructor).
  assert ("VPV" ∉ ArtifactStore.dim_labels_of ArtifactStore.sample_file) as Hout.
  { change (ArtifactStore.dim_labels_of ArtifactStore.sample_file)
      with ["VSV"; "VSH"; "RHO"].
    apply not_elem_of_cons. split; [done|].
    apply not_elem_of_cons. split; [done|].
    apply not_elem_of_cons. split; [done|]. apply not_elem_of_nil. }
  destruct (unknown_parameter (@id Z) ["VSV"] ["RHO"] "VPV" "OPTIMIZATION/MODELS/model_00000.h5"
              ArtifactStore.sample_update ArtifactStore.sample_store
              ArtifactStore.sample_file eq_refl Hin Hout) as (_ & Hread & Hwrite).
  split; [exact Hread|exact Hwrite].
Defined.

Lemma sample_labels :
  Forall (fun p => p ∈ ArtifactStore.dim_labels_of ArtifactStore.sample_file)
    ["RHO"; "VSV"; "RHO"].
Proof.
  change (ArtifactStore.dim_labels_of ArtifactStore.sample_file) with ["VSV"; "VSH"; "RHO"].
  repeat constructor.
Qed.

Lemma get_h5_data_rows_witness :
  ArtifactStore.get_h5_data ["RHO"; "VSV"; "RHO"] ArtifactStore.sample_store
    "OPTIMIZATION/MODELS/model_00000.h5"
  = Ok [ [[5; 6]; [1; 2]; [5; 6]]; [[11; 12]; [7; 8]; [11; 12]] ].
Proof.
  destruct (get_h5_data_rows ["RHO"; "VSV"; "RHO"] "OPTIMIZATION/MODELS/model_00000.h5"
              ArtifactStore.sample_store ArtifactStore.sample_file 2 2
              eq_refl sample_labels sample_shape) as (idx & Hidx & _ & Hread & _).
  rewrite Hread. injection Hidx as <-. reflexivity.
Defined.

Lemma write_back_what_was_read_witness :
  exists indices,
    ArtifactStore.set_h5_data id ["RHO"; "VSV"] "OPTIMIZATION/MODELS/model_00000.h5"
      [ [[5; 6]; [1; 2]]; [[11; 12]; [7; 8]] ] ArtifactStore.sample_store
    = (Ok (), {| ArtifactStore.files := ArtifactStore.files ArtifactStore.sample_store;
                 ArtifactStore.write_log :=
                   [("OPTIMIZATION/MODELS/model_00000.h5", indices)] |}).
Proof.
  exact (write_back_what_was_read ["RHO"; "VSV"] "OPTIMIZATION/MODELS/model_00000.h5"
           [ [[5; 6]; [1; 2]]; [[11; 12]; [7; 8]] ] ArtifactStore.sample_store
           ArtifactStore.sample_file 2 2 eq_refl sample_rows_NoDup sample_rows_labels
           sample_shape eq_refl).
Defined.

Lemma set_h5_data_keeps_shape_witness :
  exists st' h5',
    ArtifactStore.set_h5_data id ["RHO"; "VSV"] "OPTIMIZATION/MODELS/model_00000.h5"
      ArtifactStore.sample_update ArtifactStore.sample_store = (Ok (), st')
    /\ ArtifactStore.files st' !! "OPTIMIZATION/MODELS/model_00000.h5" = Some h5'
    /\ ArtifactStore.dimension_labels h5' = "[ VSV | VSH | RHO ]"
    /\ ArtifactStore.has_shape 2 3 2 (ArtifactStore.model_data h5').
Proof.
  destruct (set_h5_data_keeps_shape (@id Z) ["RHO"; "VSV"] "OPTIMIZATION/MODELS/model_00000.h5"
              ArtifactStore.sample_update ArtifactStore.sample_store
              ArtifactStore.sample_file 2 2 eq_refl sample_rows_NoDup sample_rows_labels
              sample_shape sample_update_shape)
    as (st' & h5' & Hset & Hfile & Hlabels & Hshape & _).
  exists st', h5'. split; [exact Hset|]. split; [exact Hfile|].
  split; [exact Hlabels|exact Hshape].
Defined.

Lemma second_write_wins_witness :
  exists st1 st12 st2,
    ArtifactStore.set_h5_data id ["RHO"; "VSV"] "OPTIMIZATION/MODELS/model_00000.h5"
      ArtifactStore.sample_update ArtifactStore.sample_store = (Ok (), st1)
    /\ ArtifactStore.set_h5_data id ["RHO"; "VSV"] "OPTIMIZATION/MODELS/model_00000.h5"
         [ [[0; 0]; [1; 1]]; [[2; 2]; [3; 3]] ] st1 = (Ok (), st12)
    /\ ArtifactStore.set_h5_data id ["RHO"; "VSV"] "OPTIMIZATION/MODELS/model_00000.h5"
         [ [[0; 0]; [1; 1]]; [[2; 2]; [3; 3]] ] ArtifactStore.sample_store = (Ok (), st2)
    /\ ArtifactStore.files st12 = ArtifactStore.files st2.
Proof.
  apply (second_write_wins (@id Z) ["RHO"; "VSV"] "OPTIMIZATION/MODELS/model_00000.h5"
           ArtifactStore.sample_update [ [[0; 0]; [1; 1]]; [[2; 2]; [3; 3]] ]
           ArtifactStore.sample_store ArtifactStore.sample_file 2 2 eq_refl
           sample_rows_NoDup sample_rows_labels sample_shape sample_update_shape).
  vm_compute. repeat constructor.
Defined.

Lemma repeated_parameter_witness :
  ArtifactStore.set_h5_data id ["RHO"; "VSV"; "RHO"] "OPTIMIZATION/MODELS/model_00000.h5"
    [ [[0; 0]; [1; 1]; [2; 2]]; [[3; 3]; [4; 4]; [5; 5]] ] ArtifactStore.sample_store
  = (Raise (TypeError "Indexing elements must be in increasing order"),
     ArtifactStore.sample_store).
Proof.
  assert (~ NoDup ["RHO"; "VSV"; "RHO"]) as Hdup.
  { intros [Hnot _]%NoDup_cons. apply Hnot. right. left. }
  assert (ArtifactStore.has_shape 2 (length ["RHO"; "VSV"; "RHO"]) 2
            [ [[0; 0]; [1; 1]; [2; 2]]; [[3; 3]; [4; 4]; [5; 5]] ]) as Hshape
    by (vm_compute; repeat constructor).
  exact (proj1 (repeated_parameter (@id Z) ["RHO"; "VSV"; "RHO"]
                  "OPTIMIZATION/MODELS/model_00000.h5"
                  [ [[0; 0]; [1; 1]; [2; 2]]; [[3; 3]; [4; 4]; [5; 5]] ]
                  ArtifactStore.sample_store ArtifactStore.sample_file 2 2 eq_refl
                  Hdup sample_labels sample_shape Hshape)).
Defined.

(** ** More of the start-up *)

Section startup_more_facts.
Import Startup.
Implicit Types (fs : gmap (list string) (FS.node (gmap string toml_value))).

Lemma init_stops (d : Derived) (root : string) fs fs1 fs2 e :
  prepare_folders d root fs = (Ok (), fs1) ->
  check_config (path_div root "OPTIMIZATION") fs1 = (Raise e, fs2) ->
  __init__ d root fs = (Raise e, fs2).
Proof.
  intros Hprep Hcheck. unfold __init__, mbind, M_bind, bind.
  by rewrite Hprep, Hcheck.
Qed.

Lemma opt_folder_resolved (root : string) :
  FS.resolve (path_div root "OPTIMIZATION") = FS.resolve root ++ ["OPTIMIZATION"]
  /\ FS.parent (FS.resolve (path_div root "OPTIMIZATION")) = FS.resolve root.
Proof. split; [by apply resolve_path_div|by apply parent_resolve_path_div]. Qed.

(** X10. The first start on a project that has its root folder and no
    optimization folder yet: the folder [OPTIMIZATION] is made, the derived
    class sets up its folders, the default configuration is written and the
    process exits. A second start, the file not edited, exits again and the
    configuration is still the default one. The derived class is any that
    sets up its folders without failing and leaves the optimization folder
    and the configuration file alone. *)
Theorem first_start_scaffolds (d : Derived) (root : string) fs :
  let opt := FS.resolve (path_div root "OPTIMIZATION") in
  let config := FS.resolve (path_div (path_div root "OPTIMIZATION") "opt_config.toml") in
  FS.is_dir fs (FS.resolve root) = true ->
  FS.present fs opt = false ->
  fs !! config = None ->
  (forall s, exists s',
      _initialize_derived_class_folders d s = (Ok (), s')
      /\ s' !! opt = s !! opt /\ s' !! config = s !! config) ->
  exists fs1 fs2,
    __init__ d root fs = (Raise SystemExit, <[config := FS.File default_config]> fs1)
    /\ fs1 !! opt = Some FS.Dir
    /\ __init__ d root (<[config := FS.File default_config]> fs1) = (Raise SystemExit, fs2)
    /\ fs2 !! config = Some (FS.File default_config).
Proof.
  intros opt config Hroot Hnew Hnone Hhook.
  destruct (opt_folder_resolved root) as [Hopt Hparent].
  assert (config = opt ++ ["opt_config.toml"]) as Hconfig by apply config_file_resolved.
  assert (config <> opt) as Hne.
  { rewrite Hconfig. intros Heq. apply (f_equal length) in Heq.
    rewrite length_app in Heq. simpl in Heq. lia. }
  assert (config <> [] /\ config <> ["/"]) as [Hne1 Hne2].
  { rewrite Hconfig. unfold opt. rewrite Hopt.
    split; intros Heq; apply (f_equal length) in Heq;
      rewrite !length_app in Heq; simpl in Heq; lia. }
  destruct (Hhook (<[opt := FS.Dir]> fs)) as (fs1 & Hrun1 & Hopt1 & Hcfg1).
  rewrite lookup_insert_eq in Hopt1. rewrite lookup_insert_ne, Hnone in Hcfg1 by done.
  assert (prepare_folders d root fs = (Ok (), fs1)) as Hprep1.
  { unfold prepare_folders, mbind, M_bind, bind, read, FS.path_exists.
    fold opt. rewrite Hnew. unfold FS.mkdir. fold opt. rewrite Hnew.
    unfold opt at 1. rewrite Hparent, Hroot. simpl. exact Hrun1. }
  assert (FS.path_exists (path_div (path_div root "OPTIMIZATION") "opt_config.toml") fs1
          = false) as Hmissing.
  { unfold FS.path_exists, FS.present, FS.is_dir. fold config. rewrite Hcfg1.
    rewrite bool_decide_false by (by intros [?|?]).
    by rewrite bool_decide_false by (by intros [? ?]). }
  set (fsA := <[config := FS.File default_config]> fs1).
  destruct (Hhook fsA) as (fs2 & Hrun2 & Hopt2 & Hcfg2).
  unfold fsA in Hopt2, Hcfg2.
  rewrite lookup_insert_ne, Hopt1 in Hopt2 by done. rewrite lookup_insert_eq in Hcfg2.
  exists fs1, fs2. split; [|split; [done|split; [|done]]].
  - apply (init_stops d root fs fs1); [done|].
    apply check_config_missing; [by apply is_dir_Dir|done].
  - apply (init_stops d root fsA fs2).
    + unfold prepare_folders, mbind, M_bind, bind, read, FS.path_exists. fold opt.
      assert (FS.present fsA opt = true) as ->.
      { apply (present_file _ _ FS.Dir). unfold fsA. by rewrite lookup_insert_ne. }
      exact Hrun2.
    + by apply (check_config_empty_model _ _ default_config).
Qed.

(** X11. Without the folder of the inversion root the optimization folder
    cannot be made ([os.mkdir] makes one level): the constructor raises
    before the derived class is asked for anything, and nothing is created.
    The exception is [FileNotFoundError] where nothing on the way to the
    root is a regular file, and [NotADirectoryError] where a regular file
    stands at the root's path. *)
Theorem init_without_root (d : Derived) (root : string) fs :
  FS.present fs (FS.resolve (path_div root "OPTIMIZATION")) = false ->
  FS.is_dir fs (FS.resolve root) = false ->
  (FS.clear_way fs (FS.resolve root) ->
     __init__ d root fs = (Raise (FileNotFoundError (path_div root "OPTIMIZATION")), fs))
  /\ (forall doc,
        fs !! FS.resolve root = Some (FS.File doc) ->
        (forall q, q `prefix_of` FS.resolve root -> q <> FS.resolve root ->
                   FS.is_dir fs q = true) ->
        __init__ d root fs
        = (Raise (NotADirectoryError (path_div root "OPTIMIZATION")), fs)).
Proof.
  intros Hnew Hroot. destruct (opt_folder_resolved root) as [Hopt Hparent].
  assert (__init__ d root fs
          = (Raise (FS.missing_error fs (FS.resolve root) (path_div root "OPTIMIZATION")),
             fs)) as ->.
  { unfold __init__, prepare_folders, mbind, M_bind, bind, read, FS.path_exists.
    rewrite Hnew. unfold FS.mkdir. by rewrite Hnew, Hparent, Hroot. }
  split.
  - intros Hclear. by rewrite missing_error_clear.
  - intros doc Hfile Habove. unfold FS.missing_error.
    rewrite (file_in_the_way_file fs (FS.resolve root) [] doc); [done| |done|done|done].
    intros Hnil. rewrite Hnil in Hfile. unfold FS.is_dir in Hroot. rewrite Hnil in Hroot.
    by rewrite bool_decide_true in Hroot by (by left).
Qed.

Ltac run_check_config Hex Hfile :=
  unfold check_config, _read_config, sys_exit, mbind, M_bind, bind, read, lift, ret, raise,
    FS.read_file, getitem;
  rewrite Hex; cbn beta iota; rewrite Hex; cbn beta iota; rewrite Hfile; cbn beta iota.

(** X12. A configuration file that lacks one of the keys [initial_model],
    [step_length] and [parameters] ends the constructor with [KeyError] for
    the first of them that is missing, also where [initial_model] is empty;
    [max_iterations] may be missing. *)
Theorem init_incomplete_config (d : Derived) (root : string) fs fs1
    (doc : gmap string toml_value) :
  prepare_folders d root fs = (Ok (), fs1) ->
  fs1 !! FS.resolve (path_div (path_div root "OPTIMIZATION") "opt_config.toml")
  = Some (FS.File doc) ->
  (doc !! "initial_model" = None ->
     __init__ d root fs = (Raise (KeyError "initial_model"), fs1))
  /\ (is_Some (doc !! "initial_model") -> doc !! "step_length" = None ->
     __init__ d root fs = (Raise (KeyError "step_length"), fs1))
  /\ (is_Some (doc !! "initial_model") -> is_Some (doc !! "step_length") ->
     doc !! "parameters" = None ->
     __init__ d root fs = (Raise (KeyError "parameters"), fs1))
  /\ (forall model step params,
        doc !! "initial_model" = Some model -> model <> TStr "" ->
        doc !! "step_length" = Some step -> doc !! "parameters" = Some params ->
        __init__ d root fs
        = initialize_folders_and_tasks d
            {| opt_folder := path_div root "OPTIMIZATION";
               config_file := path_div (path_div root "OPTIMIZATION") "opt_config.toml";
               initial_model := model; step_length := step;
               max_iterations := doc !! "max_iterations"; parameters := params |} fs1).
Proof.
  intros Hprep Hfile.
  assert (FS.path_exists (path_div (path_div root "OPTIMIZATION") "opt_config.toml") fs1
          = true) as Hex by (by eapply present_file).
  split; [|split; [|split]].
  - intros Hmodel. apply (init_stops d root fs fs1); [done|].
    run_check_config Hex Hfile. by rewrite Hmodel.
  - intros [model Hmodel] Hstep. apply (init_stops d root fs fs1); [done|].
    run_check_config Hex Hfile. by rewrite Hmodel, Hstep.
  - intros [model Hmodel] [step Hstep] Hparams.
    apply (init_stops d root fs fs1); [done|].
    run_check_config Hex Hfile. by rewrite Hmodel, Hstep, Hparams.
  - intros model step params Hmodel Hne Hstep Hparams.
    unfold __init__, mbind at 1 2, M_bind at 1 2, bind at 1 2. rewrite Hprep.
    assert (check_config (path_div root "OPTIMIZATION") fs1
            = (Ok {| opt_folder := path_div root "OPTIMIZATION";
                     config_file := path_div (path_div root "OPTIMIZATION") "opt_config.toml";
                     initial_model := model; step_length := step;
                     max_iterations := doc !! "max_iterations"; parameters := params |},
               fs1)) as ->; [|done].
    run_check_config Hex Hfile. rewrite Hmodel, Hstep, Hparams. cbn beta iota.
    by rewrite decide_False.
Qed.

End startup_more_facts.

Lemma first_start_scaffolds_witness :
  exists fs1 fs2,
    Startup.__init__ Startup.plain_optimizer "inversion" Startup.fresh_project
    = (Raise SystemExit,
       <[ ["inversion"; "OPTIMIZATION"; "opt_config.toml"] := FS.File Startup.default_config ]>
         fs1)
    /\ fs1 !! ["inversion"; "OPTIMIZATION"] = Some FS.Dir
    /\ Startup.__init__ Startup.plain_optimizer "inversion"
         (<[ ["inversion"; "OPTIMIZATION"; "opt_config.toml"] :=
               FS.File Startup.default_config ]> fs1)
       = (Raise SystemExit, fs2)
    /\ fs2 !! ["inversion"; "OPTIMIZATION"; "opt_config.toml"]
       = Some (FS.File Startup.default_config).
Proof.
  apply (first_start_scaffolds Startup.plain_optimizer "inversion" Startup.fresh_project
           ltac:(vm_refl) ltac:(vm_refl) ltac:(vm_refl)).
  intros s. by exists s.
Defined.

Lemma init_without_root_witness :
  Startup.__init__ Startup.plain_optimizer "inversion" ∅
  = (Raise (FileNotFoundError "inversion/OPTIMIZATION"), ∅)
  /\ Startup.__init__ Startup.plain_optimizer "inversion"
       {[ ["inversion"] := FS.File Startup.default_config ]}
     = (Raise (NotADirectoryError "inversion/OPTIMIZATION"),
        {[ ["inversion"] := FS.File Startup.default_config ]}).
Proof.
  split.
  - apply (proj1 (init_without_root Startup.plain_optimizer "inversion" ∅
                    ltac:(vm_refl) ltac:(vm_refl))).
    apply clear_way_check. vm_refl.
  - apply (proj2 (init_without_root Startup.plain_optimizer "inversion"
                    {[ ["inversion"] := FS.File Startup.default_config ]}
                    ltac:(vm_refl) ltac:(vm_refl)) Startup.default_config);
      [vm_refl|].
    intros q [t Hq] Hne. destruct q as [|x q]; [vm_refl|].
    exfalso. apply Hne. change (FS.resolve "inversion") with ["inversion"] in *.
    injection Hq as <- Hq. symmetry in Hq. apply app_eq_nil in Hq as [-> _]. done.
Defined.

Lemma init_incomplete_config_witness :
  Startup.__init__ Startup.plain_optimizer "inversion"
    (<[ ["inversion"; "OPTIMIZATION"; "opt_config.toml"] :=
          FS.File {[ "initial_model" := Startup.TStr "" ]} ]> Startup.configured_project)
  = (Raise (KeyError "step_length"),
     <[ ["inversion"; "OPTIMIZATION"; "opt_config.toml"] :=
          FS.File {[ "initial_model" := Startup.TStr "" ]} ]> Startup.configured_project).
Proof.
  destruct (init_incomplete_config Startup.plain_optimizer "inversion"
              (<[ ["inversion"; "OPTIMIZATION"; "opt_config.toml"] :=
                    FS.File {[ "initial_model" := Startup.TStr "" ]} ]>
                 Startup.configured_project)
              (<[ ["inversion"; "OPTIMIZATION"; "opt_config.toml"] :=
                    FS.File {[ "initial_model" := Startup.TStr "" ]} ]>
                 Startup.configured_project)
              {[ "initial_model" := Startup.TStr "" ]}
              ltac:(vm_refl) ltac:(vm_refl)) as (_ & Hstep & _).
  apply Hstep; [exists (Startup.TStr ""); vm_refl|vm_refl].
Defined.

(** ** More of the remote worker *)

Section worker_more_facts.
Import RemoteWorker.
Context {Mesh Doc MeshSettings SourceInfo ReceiverInfo SimulationInfo : Type}.
Context (c : Collaborators Mesh Doc MeshSettings SourceInfo ReceiverInfo SimulationInfo).
Implicit Types (fs : gmap (list string) (FS.node (blob Mesh Doc))).
Implicit Types (info : Info MeshSettings SourceInfo ReceiverInfo SimulationInfo).

(** X13. With [gradient] false the script reads its tables before it
    touches a file: a document that lacks [source_info], [receiver_info] or
    [simulation_info], or whose [mesh_info] lacks [event_name] or
    [long_term_mesh_folder] (also where the mesh of the event is already in
    the mesh folder), ends the run with [KeyError] for the first key that is
    missing, and no file is created or changed. *)
Theorem main_missing_key info fs :
  gradient info = false ->
  (source_info info = None -> main c info fs = (Raise (KeyError "source_info"), fs))
  /\ (is_Some (source_info info) -> receiver_info info = None ->
      main c info fs = (Raise (KeyError "receiver_info"), fs))
  /\ (is_Some (source_info info) -> is_Some (receiver_info info) ->
      simulation_info info = None ->
      main c info fs = (Raise (KeyError "simulation_info"), fs))
  /\ (is_Some (source_info info) -> is_Some (receiver_info info) ->
      is_Some (simulation_info info) -> event_name (mesh_info info) = None ->
      main c info fs = (Raise (KeyError "event_name"), fs))
  /\ (is_Some (source_info info) -> is_Some (receiver_info info) ->
      is_Some (simulation_info info) -> is_Some (event_name (mesh_info info)) ->
      long_term_mesh_folder (mesh_info info) = None ->
      main c info fs = (Raise (KeyError "long_term_mesh_folder"), fs)).
Proof.
  intros Hgrad. unfold main. rewrite Hgrad. cbn [negb].
  split; [|split; [|split; [|split]]].
  - intros Hs. unfold mbind, M_bind, bind, lift. by rewrite Hs.
  - intros [si Hs] Hr. unfold mbind, M_bind, bind, lift. by rewrite Hs, Hr.
  - intros [si Hs] [ri Hr] Hsim. unfold mbind, M_bind, bind, lift.
    by rewrite Hs, Hr, Hsim.
  - intros [si Hs] [ri Hr] [sim Hsim] Hev.
    unfold create_mesh, mbind, M_bind, bind, lift. by rewrite Hs, Hr, Hsim, Hev.
  - intros [si Hs] [ri Hr] [sim Hsim] [ev Hev] Hlt.
    unfold create_mesh, mbind, M_bind, bind, lift. by rewrite Hs, Hr, Hsim, Hev, Hlt.
Qed.

(** X14. With [gradient] true and no standard gradient mesh in the mesh
    folder (nothing at its path, and no regular file on the way to it) the
    run ends with [FileNotFoundError] at the first step; nothing is created
    or changed. *)
Theorem main_without_standard_gradient info fs :
  gradient info = true ->
  FS.present fs (FS.resolve (path_div (path_div (mesh_folder (mesh_info info))
                                         "standard_gradient") "mesh.h5")) = false ->
  FS.clear_way fs (FS.resolve (path_div (path_div (mesh_folder (mesh_info info))
                                           "standard_gradient") "mesh.h5")) ->
  main c info fs
  = (Raise (FileNotFoundError (path_div (path_div (mesh_folder (mesh_info info))
                                           "standard_gradient") "mesh.h5")), fs).
Proof.
  intros Hgrad Hnone Hclear. pose proof Hnone as Hpresent.
  apply present_false in Hnone as [Hnodir Hnone].
  unfold main. rewrite Hgrad. cbn [negb].
  unfold get_standard_gradient, FS.copy, FS.read_file, mbind, M_bind, bind, read.
  rewrite Hpresent, andb_false_r. cbn beta iota.
  by rewrite Hnone, Hnodir, missing_error_clear.
Qed.

Lemma move_mesh_kept (mf ev : string) fs :
  FS.path_exists (store_location mf ev) fs = true -> move_mesh mf ev fs = (Ok (), fs).
Proof. intros H. unfold move_mesh, mbind, M_bind, bind, read. by rewrite H. Qed.

(** X15. Storing the mesh of an event is done once: [move_mesh] puts a copy
    of [output/mesh.h5] into the mesh folder unless something is there
    already, the mesh in [output/] stays, and a second call changes
    nothing. *)
Theorem move_mesh_once (mf ev : string) fs (b : blob Mesh Doc) :
  startswith "/" mf = true ->
  fs !! ["output"; "mesh.h5"] = Some (FS.File b) ->
  FS.clear_way fs (FS.resolve (store_folder mf ev)) ->
  exists fs',
    move_mesh mf ev fs = (Ok (), fs')
    /\ move_mesh mf ev fs' = (Ok (), fs')
    /\ fs' !! ["output"; "mesh.h5"] = Some (FS.File b)
    /\ fs' !! FS.resolve (store_location mf ev)
       = (if FS.path_exists (store_location mf ev) fs
          then fs !! FS.resolve (store_location mf ev)
          else Some (FS.File b)).
Proof.
  intros Habs Hout Hclear.
  destruct (move_mesh_Ok mf ev fs b Habs Hout Hclear) as (fs' & Hrun & Hrel & Hstore).
  exists fs'. split; [done|].
  destruct (FS.path_exists (store_location mf ev) fs) eqn:Hhere.
  - subst fs'. split; [by apply move_mesh_kept|done].
  - split; [|split; [by rewrite Hrel|done]].
    apply move_mesh_kept. unfold FS.path_exists. by eapply present_file.
Qed.

(** X16. When the interpolation fails, the run stops there: the target mesh
    that the first step has put into [to_mesh.h5] is left behind as it was,
    nothing reaches [output/] and nothing is stored. In both modes. *)
Theorem main_interpolation_fails info fs (src : Mesh) e :
  job_folder_ready fs ->
  fs !! ["from_mesh.h5"] = Some (FS.File (BMesh src)) ->
  (gradient info = false ->
   forall si ri sim to0,
     source_info info = Some si -> receiver_info info = Some ri ->
     simulation_info info = Some sim ->
     mesh_source c fs (mesh_info info) si to0 ->
     gll_2_gll_layered_multi c src to0 20 "nocore" interpolated_parameters = Raise e ->
     main c info fs = (Raise e, <[ ["to_mesh.h5"] := FS.File (BMesh to0) ]> fs))
  /\ (gradient info = true ->
      forall g,
        fs !! FS.resolve (path_div (path_div (mesh_folder (mesh_info info))
                                      "standard_gradient") "mesh.h5")
        = Some (FS.File (BMesh g)) ->
        gll_2_gll_layered_multi c src g 20 "nocore" interpolated_parameters = Raise e ->
        main c info fs = (Raise e, <[ ["to_mesh.h5"] := FS.File (BMesh g) ]> fs)).
Proof.
  intros (Hout & Hto & Hmesh & Hsim) Hfrom.
  assert (forall t,
    gll_2_gll_layered_multi c src t 20 "nocore" interpolated_parameters = Raise e ->
    interpolate_fields c "./from_mesh.h5" "./to_mesh.h5" "nocore" interpolated_parameters
      (<[ ["to_mesh.h5"] := FS.File (BMesh t) ]> fs)
    = (Raise e, <[ ["to_mesh.h5"] := FS.File (BMesh t) ]> fs)) as Hfail.
  { intros t Hgll.
    unfold interpolate_fields, read_mesh, mbind, M_bind, bind, lift, ret.
    rewrite (read_file_Ok _ "./from_mesh.h5" (BMesh src)) by (by rewrite lookup_insert_ne).
    rewrite (read_file_Ok _ "./to_mesh.h5" (BMesh t)) by (by rewrite lookup_insert_eq).
    by rewrite Hgll. }
  split.
  - intros Hgrad si ri sim to0 Hs Hr Hsi Hsrc Hgll.
    unfold main. rewrite Hgrad. cbn [negb].
    unfold mbind at 1, M_bind at 1, bind at 1.
    assert ((source_info ← lift (getitem "source_info" (source_info info));
             receiver_info ← lift (getitem "receiver_info" (receiver_info info));
             simulation_info ← lift (getitem "simulation_info" (simulation_info info));
             create_mesh c (mesh_info info) source_info) fs
            = (Ok (), <[ ["to_mesh.h5"] := FS.File (BMesh to0) ]> fs)) as ->.
    { rewrite Hs, Hr, Hsi. unfold mbind, M_bind, bind, lift. cbn [getitem].
      by apply create_mesh_Ok. }
    unfold mbind at 1, M_bind at 1, bind at 1. by rewrite (Hfail to0).
  - intros Hgrad g Hstd Hgll.
    unfold main. rewrite Hgrad. cbn [negb].
    unfold mbind at 1, M_bind at 1, bind at 1.
    assert (get_standard_gradient (mesh_info info) fs
            = (Ok (), <[ ["to_mesh.h5"] := FS.File (BMesh g) ]> fs)) as ->.
    { unfold get_standard_gradient.
      apply copy_Ok; [done| |done|apply gradient_location_not_target].
      by apply is_dir_not_dir. }
    unfold mbind at 1, M_bind at 1, bind at 1. by rewrite (Hfail g).
Qed.

End worker_more_facts.

Lemma main_missing_key_witness :
  RemoteWorker.main RemoteWorker.trace_tools
    {| RemoteWorker.mesh_info := RemoteWorker.mesh_info RemoteWorker.forward_info;
       RemoteWorker.gradient := false;
       RemoteWorker.source_info := Some ();
       RemoteWorker.receiver_info := None;
       RemoteWorker.simulation_info := Some () |}
    RemoteWorker.job_folder
  = (Raise (KeyError "receiver_info"), RemoteWorker.job_folder).
Proof.
  destruct (main_missing_key RemoteWorker.trace_tools
              {| RemoteWorker.mesh_info := RemoteWorker.mesh_info RemoteWorker.forward_info;
                 RemoteWorker.gradient := false;
                 RemoteWorker.source_info := Some ();
                 RemoteWorker.receiver_info := None;
                 RemoteWorker.simulation_info := Some () |}
              RemoteWorker.job_folder eq_refl) as (_ & Hreceiver & _).
  apply Hreceiver; [by exists ()|done].
Defined.

Lemma main_without_standard_gradient_witness :
  RemoteWorker.main RemoteWorker.trace_tools RemoteWorker.gradient_info
    {[ ["from_mesh.h5"] := FS.File (RemoteWorker.BMesh ["model"]); ["output"] := FS.Dir ]}
  = (Raise (FileNotFoundError "/scratch/meshes/standard_gradient/mesh.h5"),
     {[ ["from_mesh.h5"] := FS.File (RemoteWorker.BMesh ["model"]); ["output"] := FS.Dir ]}).
Proof.
  exact (main_without_standard_gradient RemoteWorker.trace_tools RemoteWorker.gradient_info
           {[ ["from_mesh.h5"] := FS.File (RemoteWorker.BMesh ["model"]);
              ["output"] := FS.Dir ]} eq_refl ltac:(vm_refl)
           ltac:(apply clear_way_check; vm_refl)).
Defined.

Lemma move_mesh_once_witness :
  exists fs',
    RemoteWorker.move_mesh "/scratch/meshes" "event_a"
      (<[ ["output"; "mesh.h5"] := FS.File (RemoteWorker.BMesh ["new mesh"]) ]>
         RemoteWorker.job_folder) = (Ok (), fs')
    /\ RemoteWorker.move_mesh "/scratch/meshes" "event_a" fs' = (Ok (), fs')
    /\ fs' !! ["output"; "mesh.h5"] = Some (FS.File (RemoteWorker.BMesh ["new mesh"]))
    /\ fs' !! ["/"; "scratch"; "meshes"; "event_a"; "mesh.h5"]
       = Some (FS.File (RemoteWorker.BMesh ["new mesh"])).
Proof.
  destruct (move_mesh_once "/scratch/meshes" "event_a"
              (<[ ["output"; "mesh.h5"] := FS.File (RemoteWorker.BMesh ["new mesh"]) ]>
                 RemoteWorker.job_folder)
              (RemoteWorker.BMesh ["new mesh"]) eq_refl ltac:(vm_refl)
              ltac:(apply clear_way_check; vm_refl))
    as (fs' & Hrun & Hagain & Hout & Hstore).
  assert (FS.resolve (RemoteWorker.store_location "/scratch/meshes" "event_a")
          = ["/"; "scratch"; "meshes"; "event_a"; "mesh.h5"]) as Hloc by vm_refl.
  assert (FS.path_exists (RemoteWorker.store_location "/scratch/meshes" "event_a")
            (<[ ["output"; "mesh.h5"] := FS.File (RemoteWorker.BMesh ["new mesh"]) ]>
               RemoteWorker.job_folder) = false) as Hnew by vm_refl.
  rewrite Hloc, Hnew in Hstore.
  exists fs'. split; [exact Hrun|]. split; [exact Hagain|]. split; [exact Hout|exact Hstore].
Defined.

Lemma main_interpolation_fails_witness :
  RemoteWorker.main
    {| RemoteWorker.smoothie_mesh := fun _ _ => Ok ["smoothie"];
       RemoteWorker.gll_2_gll_layered_multi := fun _ _ _ _ _ =>
         Raise (External "no element found");
       RemoteWorker.simulation_dictionary := fun _ _ _ _ =>
         Ok "simulation on output/mesh.h5" |}
    RemoteWorker.forward_info RemoteWorker.job_folder
  = (Raise (External "no element found"),
     <[ ["to_mesh.h5"] := FS.File (RemoteWorker.BMesh ["smoothie"]) ]>
       RemoteWorker.job_folder).
Proof.
  assert (RemoteWorker.job_folder_ready RemoteWorker.job_folder) as Hready.
  { unfold RemoteWorker.job_folder_ready.
    assert (RemoteWorker.job_folder !! ["to_mesh.h5"] = None) as -> by vm_refl.
    assert (RemoteWorker.job_folder !! ["output"; "mesh.h5"] = None) as -> by vm_refl.
    assert (RemoteWorker.job_folder !! ["output"; "simulation_dict.toml"] = None) as ->
      by vm_refl.
    split; [vm_refl|done]. }
  apply (proj1 (main_interpolation_fails _ RemoteWorker.forward_info RemoteWorker.job_folder
                  ["model"] (External "no element found") Hready ltac:(vm_refl))
           eq_refl tt tt tt ["smoothie"] eq_refl eq_refl eq_refl); [|done].
  apply (RemoteWorker.built_mesh _ _ _ _ _ "event_a" "/project/meshes"); vm_refl.
Defined.

(** ** More of the look-ups in the LASIF project *)

Section lookup_facts.
Import Seismograms Gradients.
Context {C : Type}.
Implicit Types (fs : gmap (list string) (FS.node C)).

Lemma prefix_app (p s : string) : String.prefix p (p +:+ s) = true.
Proof.
  induction p as [|x p IH]; [apply prefix_nil|].
  rewrite str_app_cons. simpl. by destruct (ascii_dec x x).
Qed.

Lemma iteration_folder_idem (iteration : string) :
  iteration_folder (iteration_folder iteration) = iteration_folder iteration.
Proof.
  unfold iteration_folder.
  destruct (startswith "ITERATION_" iteration) eqn:Hstart; cbn [negb].
  - by rewrite Hstart.
  - unfold startswith. by rewrite prefix_app.
Qed.

(** X17. The short and the long name of an iteration are the same to
    [find_seismograms]: [ITERATION_<name>] given for [<name>] leads to the
    same folder, the same path and the same effect. *)
Theorem find_seismograms_long_name (lasif_root event iteration : string) fs :
  find_seismograms lasif_root event (iteration_folder iteration) fs
  = find_seismograms lasif_root event iteration fs
  /\ find_seismograms lasif_root event ("ITERATION_" +:+ iteration) fs
     = find_seismograms lasif_root event
         (if startswith "ITERATION_" iteration then "ITERATION_" +:+ iteration
          else iteration) fs.
Proof.
  split.
  - unfold find_seismograms. by rewrite iteration_folder_idem.
  - destruct (startswith "ITERATION_" iteration) eqn:Hstart; [done|].
    unfold find_seismograms.
    assert (iteration_folder ("ITERATION_" +:+ iteration) = iteration_folder iteration)
      as ->; [|done].
    unfold iteration_folder. rewrite Hstart. cbn [negb].
    unfold startswith. by rewrite prefix_app.
Qed.

(** X18. Looking up the seismograms of an event a second time gives the
    same path and changes nothing: after a call that returned, the folder of
    the event exists. *)
Theorem find_seismograms_again (lasif_root event iteration : string) fs fs' (p : string) :
  find_seismograms lasif_root event iteration fs = (Ok p, fs') ->
  find_seismograms lasif_root event iteration fs' = (Ok p, fs')
  /\ FS.path_exists (event_folder lasif_root event iteration) fs' = true
  /\ p = os_path_join (event_folder lasif_root event iteration) ["receivers.h5"].
Proof.
  unfold find_seismograms.
  change (os_path_join lasif_root
            ["SYNTHETICS"; "EARTHQUAKES"; iteration_folder iteration; event])
    with (event_folder lasif_root event iteration).
  set (folder := event_folder lasif_root event iteration).
  unfold mbind, M_bind, bind, read, ret.
  destruct (FS.path_exists folder fs) eqn:Hhere.
  - intros [= <- <-]. by rewrite Hhere.
  - unfold FS.mkdir. unfold FS.path_exists in Hhere. rewrite Hhere.
    destruct (FS.is_dir fs (FS.parent (FS.resolve folder))); simpl; [|done].
    intros [= <- <-].
    assert (FS.path_exists folder (<[FS.resolve folder := FS.Dir]> fs) = true) as Hnow.
    { unfold FS.path_exists. apply (present_file _ _ FS.Dir). by rewrite lookup_insert_eq. }
    by rewrite Hnow.
Qed.

Lemma plain_prefixed (iteration : string) :
  plain_name iteration -> plain_name ("ITERATION_" +:+ iteration).
Proof.
  intros [_ Hs]. split; [done|].
  change ("ITERATION_" +:+ iteration) with ("ITERATION_" +:+ iteration).
  by rewrite contains_char_app, Hs.
Qed.

(** X19. [find_gradient] looks for
    [<gradients>/ITERATION_<iteration>/<event>/gradient.h5], or
    [smooth_gradient.h5] when the smoothed gradient is asked for, returns
    that path when something is there and raises [ValueError] when not; it
    creates nothing. The prefix [ITERATION_] is put in front of every
    iteration name, also of one that has it. *)
Theorem find_gradient_spec (gradients iteration event : string) (smooth : bool) fs :
  gradients <> "" -> endswith "/" gradients = false ->
  plain_name iteration -> plain_name event ->
  find_gradient (Ok gradients) iteration event smooth fs
  = (if FS.path_exists
          (gradients +:+ "/ITERATION_" +:+ iteration +:+ "/" +:+ event +:+ "/"
           +:+ (if smooth then "smooth_gradient.h5" else "gradient.h5")) fs
     then (Ok (gradients +:+ "/ITERATION_" +:+ iteration +:+ "/" +:+ event +:+ "/"
               +:+ (if smooth then "smooth_gradient.h5" else "gradient.h5")), fs)
     else (Raise (ValueError
                    ("File: " +:+ gradients +:+ "/ITERATION_" +:+ iteration +:+ "/"
                     +:+ event +:+ "/"
                     +:+ (if smooth then "smooth_gradient.h5" else "gradient.h5")
                     +:+ " does not exist.")), fs)).
Proof.
  intros Hg Hend Hit%plain_prefixed Hev.
  assert (forall file, plain_name file ->
    os_path_join gradients ["ITERATION_" +:+ iteration; event; file]
    = gradients +:+ "/ITERATION_" +:+ iteration +:+ "/" +:+ event +:+ "/" +:+ file) as Hjoin.
  { intros file Hfile. unfold os_path_join. cbn [foldl].
    destruct (join2_plain gradients _ Hg Hend Hit) as (-> & Hne1 & Hend1).
    destruct (join2_plain _ _ Hne1 Hend1 Hev) as (-> & Hne2 & Hend2).
    destruct (join2_plain _ _ Hne2 Hend2 Hfile) as (-> & _ & _).
    by rewrite !str_app_assoc. }
  unfold find_gradient, mbind, M_bind, bind, lift, read, ret, raise.
  destruct smooth; rewrite Hjoin by done.
  - destruct (FS.path_exists _ fs); [done|]. by rewrite !str_app_assoc.
  - destruct (FS.path_exists _ fs); [done|]. by rewrite !str_app_assoc.
Qed.

End lookup_facts.

Lemma find_seismograms_again_witness :
  Seismograms.find_seismograms "lasif" "event_b" "model_00000"
    (<[ ["lasif"; "SYNTHETICS"; "EARTHQUAKES"; "ITERATION_model_00000"; "event_b"] := FS.Dir ]>
       Seismograms.lasif_project)
  = (Ok "lasif/SYNTHETICS/EARTHQUAKES/ITERATION_model_00000/event_b/receivers.h5",
     <[ ["lasif"; "SYNTHETICS"; "EARTHQUAKES"; "ITERATION_model_00000"; "event_b"] := FS.Dir ]>
       Seismograms.lasif_project).
Proof.
  exact (proj1 (find_seismograms_again "lasif" "event_b" "model_00000"
                  Seismograms.lasif_project
                  (<[ ["lasif"; "SYNTHETICS"; "EARTHQUAKES"; "ITERATION_model_00000";
                       "event_b"] := FS.Dir ]> Seismograms.lasif_project)
                  "lasif/SYNTHETICS/EARTHQUAKES/ITERATION_model_00000/event_b/receivers.h5"
                  ltac:(vm_refl))).
Defined.

Lemma find_gradient_spec_witness :
  Gradients.find_gradient (Ok "lasif/GRADIENTS") "model_00000" "event_a" true
    Gradients.gradient_store
  = (Ok "lasif/GRADIENTS/ITERATION_model_00000/event_a/smooth_gradient.h5",
     Gradients.gradient_store)
  /\ Gradients.find_gradient (Ok "lasif/GRADIENTS") "ITERATION_model_00000" "event_a" false
       Gradients.gradient_store
     = (Raise (ValueError
                 "File: lasif/GRADIENTS/ITERATION_ITERATION_model_00000/event_a/gradient.h5 does not exist."),
        Gradients.gradient_store).
Proof.
  split.
  - rewrite (find_gradient_spec "lasif/GRADIENTS" "model_00000" "event_a" true
               Gradients.gradient_store); [|done|done|done|done].
    assert (FS.path_exists
              ("lasif/GRADIENTS" +:+ "/ITERATION_" +:+ "model_00000" +:+ "/" +:+ "event_a"
               +:+ "/" +:+ "smooth_gradient.h5") Gradients.gradient_store = true) as ->
      by vm_refl.
    reflexivity.
  - rewrite (find_gradient_spec "lasif/GRADIENTS" "ITERATION_model_00000" "event_a" false
               Gradients.gradient_store); [|done|done|done|done].
    assert (FS.path_exists
              ("lasif/GRADIENTS" +:+ "/ITERATION_" +:+ "ITERATION_model_00000" +:+ "/"
               +:+ "event_a" +:+ "/" +:+ "gradient.h5") Gradients.gradient_store = false) as ->
      by vm_refl.
    reflexivity.
Defined.

(** ** Finding the project *)

Section project_facts.
Import ProjectComm.
Context {C Comm : Type}.
Implicit Types (fs : gmap (list string) (FS.node C)).

Lemma search_found fs (k : nat) : forall depth folder,
  (k < depth)%nat ->
  has_config fs (Nat.iter k path_parent folder) = true ->
  (forall j, (j < k)%nat -> has_config fs (Nat.iter j path_parent folder) = false) ->
  search fs depth folder = Some (Nat.iter k path_parent folder).
Proof.
  induction k as [|k IH]; intros depth folder Hk Hhere Habove.
  - destruct depth; [lia|]. simpl in *. by rewrite Hhere.
  - destruct depth; [lia|]. simpl search.
    pose proof (Habove 0%nat ltac:(lia)) as H0. simpl in H0. rewrite H0.
    rewrite Nat.iter_succ_r in *. apply IH; [lia|done|].
    intros j Hj. rewrite <- Nat.iter_succ_r. apply Habove. lia.
Qed.

Lemma search_none fs : forall depth folder,
  (forall k, (k < depth)%nat -> has_config fs (Nat.iter k path_parent folder) = false) ->
  search fs depth folder = None.
Proof.
  induction depth as [|depth IH]; intros folder Hnone; [done|].
  simpl. pose proof (Hnone 0%nat ltac:(lia)) as H0. simpl in H0. rewrite H0. apply IH.
  intros k Hk. rewrite <- Nat.iter_succ_r. apply Hnone. lia.
Qed.

(** X20. The project is looked for in the given folder and its three
    nearest ancestors, nearest first: the communicator is that of the first
    of the four that holds [lasif_config.toml]; when none of them does, the
    call raises [ValueError], whatever lies further up. *)
Theorem find_project_comm_spec (get_communicator : list string -> result Comm)
    (lasif_root : string) (folder : list string) fs :
  (forall k, (k < 4)%nat ->
     has_config fs (Nat.iter k path_parent folder) = true ->
     (forall j, (j < k)%nat -> has_config fs (Nat.iter j path_parent folder) = false) ->
     _find_project_comm get_communicator lasif_root folder fs
     = get_communicator (Nat.iter k path_parent folder))
  /\ ((forall k, (k < 4)%nat -> has_config fs (Nat.iter k path_parent folder) = false) ->
      _find_project_comm get_communicator lasif_root folder fs
      = Raise (ValueError ("Path " +:+ lasif_root +:+ " is not a LASIF project")))
  /\ path_parent ["/"] = ["/"].
Proof.
  split; [|split; [|done]].
  - intros k Hk Hhere Habove. unfold _find_project_comm, max_folder_depth.
    by rewrite (search_found fs k 4 folder).
  - intros Hnone. unfold _find_project_comm, max_folder_depth.
    by rewrite search_none.
Qed.

End project_facts.

Lemma find_project_comm_examples :
  ProjectComm._find_project_comm Ok "/p/a/b" ["/"; "p"; "a"; "b"] ProjectComm.nested_project
  = Ok ["/"; "p"]
  /\ ProjectComm._find_project_comm (Comm := list string) Ok "/p/a/b/c/d"
       ["/"; "p"; "a"; "b"; "c"; "d"] ProjectComm.nested_project
     = Raise (ValueError "Path /p/a/b/c/d is not a LASIF project").
Proof.
  split.
  - apply (proj1 (find_project_comm_spec Ok "/p/a/b" ["/"; "p"; "a"; "b"]
                    ProjectComm.nested_project) 2%nat); [lia|vm_refl|].
    intros j Hj. destruct j as [|[|j]]; [vm_refl|vm_refl|lia].
  - apply (proj1 (proj2 (find_project_comm_spec Ok "/p/a/b/c/d"
                           ["/"; "p"; "a"; "b"; "c"; "d"] ProjectComm.nested_project))).
    intros k Hk. destruct k as [|[|[|[|k]]]]; [vm_refl|vm_refl|vm_refl|vm_refl|lia].
Defined.

(** ** More of the iteration set-up *)

Section prepare_more_facts.
Import PrepareIteration.
Context {L P : Type} (c : Collaborators L P).

(** X21. [has_iteration] changes nothing and answers [True] for a name in
    the list of iterations, [None] (not [False]) for a name that is not in
    the list, and [False] only when the catalogue does not answer with a
    list. *)
Theorem has_iteration_answers (name : string) (w : World L P) :
  snd (has_iteration c name w) = w
  /\ (registered c name w -> fst (has_iteration c name w) = Ok (VBool true))
  /\ (isinstance_list (lapi_list_iterations c (lasif w)) = true ->
      ~ registered c name w -> fst (has_iteration c name w) = Ok VNone)
  /\ (isinstance_list (lapi_list_iterations c (lasif w)) = false ->
      fst (has_iteration c name w) = Ok (VBool false)).
Proof.
  unfold has_iteration, bind, read, ret, registered.
  destruct (lapi_list_iterations c (lasif w)) as [| | | |l|l] eqn:Hl; simpl;
    try (split; [done|split; [by intros (l' & [=] & _)|split; done]]).
  destruct (bool_decide_reflect (name ∈ l)) as [Hin|Hout]; simpl.
  - split; [done|]. split; [done|]. split; [|done].
    intros _ Hnot. destruct Hnot. eauto.
  - split; [done|]. split; [|split; done].
    intros (l' & [= <-] & Hin). done.
Qed.

(** X22. [set_up_iteration] does not refuse a name that is registered: it
    records one warning and hands the name to LASIF all the same; for any
    other name it hands it over without a warning. *)
Theorem set_up_iteration_only_warns (name : string) (events : value) (w : World L P) :
  (registered c name w ->
     set_up_iteration c name events w
     = on_lasif (lapi_set_up_iteration c name events)
         (snd (warn ("Iteration " +:+ name +:+ " already exists") w)))
  /\ (~ registered c name w ->
      set_up_iteration c name events w
      = on_lasif (lapi_set_up_iteration c name events) w).
Proof.
  unfold set_up_iteration, bind, read, registered. split.
  - intros (l & Hl & Hin). rewrite Hl. simpl.
    by rewrite bool_decide_true.
  - intros Hnot.
    destruct (lapi_list_iterations c (lasif w)) as [| | | |l|l] eqn:Hl; simpl; try done.
    rewrite bool_decide_false; [done|]. intros Hin. apply Hnot. eauto.
Qed.

End prepare_more_facts.

(** ** The job folder after a run *)

Section worker_frame_facts.
Import RemoteWorker.
Context {Mesh Doc MeshSettings SourceInfo ReceiverInfo SimulationInfo : Type}.
Context (c : Collaborators Mesh Doc MeshSettings SourceInfo ReceiverInfo SimulationInfo).
Implicit Types (fs : gmap (list string) (FS.node (blob Mesh Doc))).


End worker_frame_facts.


(** ** The mesh of an event *)

Section event_mesh_facts.
Import EventMesh.
Context {C : Type}.
Implicit Types (fs : gmap (list string) (FS.node C)).

(** X24. [move_mesh] copies: when LASIF knows no mesh for the event it
    raises [ValueError] and changes nothing; when it knows one and the mesh
    of the event for the iteration is another path, that path gets the
    content of the event's mesh, which stays where it is, and no other path
    is touched; when the two are one file, [shutil.copy] refuses with
    [SameFileError] and nothing changes. *)
Theorem lasif_move_mesh_copies (find_event_mesh : string -> result (bool * string))
    (get_simulation_mesh : string -> string -> result string)
    (event iteration event_mesh : string) fs :
  (find_event_mesh event = Ok (false, event_mesh) ->
     move_mesh find_event_mesh get_simulation_mesh event iteration fs
     = (Raise (ValueError (event_mesh +:+ " does not exist")), fs))
  /\ (forall target content,
        find_event_mesh event = Ok (true, event_mesh) ->
        get_simulation_mesh event iteration = Ok target ->
        fs !! FS.resolve event_mesh = Some (FS.File content) ->
        FS.is_dir fs (FS.resolve target) = false ->
        FS.is_dir fs (FS.parent (FS.resolve target)) = true ->
        FS.resolve target <> FS.resolve event_mesh ->
        exists fs',
          move_mesh find_event_mesh get_simulation_mesh event iteration fs = (Ok (), fs')
          /\ fs' !! FS.resolve target = Some (FS.File content)
          /\ fs' !! FS.resolve event_mesh = Some (FS.File content)
          /\ (forall k, k <> FS.resolve target -> fs' !! k = fs !! k))
  /\ (forall target content,
        find_event_mesh event = Ok (true, event_mesh) ->
        get_simulation_mesh event iteration = Ok target ->
        fs !! FS.resolve event_mesh = Some (FS.File content) ->
        FS.is_dir fs (FS.resolve target) = false ->
        FS.resolve target = FS.resolve event_mesh ->
        move_mesh find_event_mesh get_simulation_mesh event iteration fs
        = (Raise (SameFileError event_mesh target), fs)).
Proof.
  split; [|split].
  - intros Hfind. unfold move_mesh, mbind, M_bind, bind, lift. by rewrite Hfind.
  - intros target content Hfind Htarget Hfile Hnodir Hparent Hne.
    exists (<[FS.resolve target := FS.File content]> fs). split; [|split; [|split]].
    + unfold move_mesh, mbind, M_bind, bind, lift. rewrite Hfind. cbn [negb].
      rewrite Htarget. by apply copy_Ok.
    + by rewrite lookup_insert_eq.
    + by rewrite lookup_insert_ne.
    + intros k Hk. by rewrite lookup_insert_ne.
  - intros target content Hfind Htarget Hfile Hnodir Hsame.
    unfold move_mesh, mbind, M_bind, bind, lift. rewrite Hfind. cbn [negb].
    rewrite Htarget. unfold FS.copy, mbind, M_bind, bind, read, FS.real_dst.
    rewrite Hnodir, bool_decide_true by done.
    by rewrite (present_file _ _ (FS.File content)).
Qed.

End event_mesh_facts.

Lemma lasif_move_mesh_copies_examples :
  EventMesh.move_mesh (fun _ => Ok (false, "lasif/MESHES/event_b.h5"))
    (fun _ _ => Ok "lasif/MODELS/ITERATION_model_00000/event_b.h5")
    "event_b" "model_00000" EventMesh.mesh_project
  = (Raise (ValueError "lasif/MESHES/event_b.h5 does not exist"), EventMesh.mesh_project)
  /\ (exists fs',
        EventMesh.move_mesh (fun _ => Ok (true, "lasif/MESHES/event_a.h5"))
          (fun _ _ => Ok "lasif/MODELS/ITERATION_model_00000/event_a.h5")
          "event_a" "model_00000" EventMesh.mesh_project = (Ok (), fs')
        /\ fs' !! ["lasif"; "MODELS"; "ITERATION_model_00000"; "event_a.h5"]
           = Some (FS.File "mesh of event_a")
        /\ fs' !! ["lasif"; "MESHES"; "event_a.h5"] = Some (FS.File "mesh of event_a"))
  /\ EventMesh.move_mesh (fun _ => Ok (true, "lasif/MESHES/event_a.h5"))
       (fun _ _ => Ok "./lasif/MESHES/event_a.h5")
       "event_a" "model_00000" EventMesh.mesh_project
     = (Raise (SameFileError "lasif/MESHES/event_a.h5" "./lasif/MESHES/event_a.h5"),
        EventMesh.mesh_project).
Proof.
  split; [|split].
  - exact (proj1 (lasif_move_mesh_copies (fun _ => Ok (false, "lasif/MESHES/event_b.h5"))
                    (fun _ _ => Ok "lasif/MODELS/ITERATION_model_00000/event_b.h5")
                    "event_b" "model_00000" "lasif/MESHES/event_b.h5"
                    EventMesh.mesh_project) eq_refl).
  - destruct (proj1 (proj2 (lasif_move_mesh_copies
                       (fun _ => Ok (true, "lasif/MESHES/event_a.h5"))
                       (fun _ _ => Ok "lasif/MODELS/ITERATION_model_00000/event_a.h5")
                       "event_a" "model_00000" "lasif/MESHES/event_a.h5"
                       EventMesh.mesh_project))
                "lasif/MODELS/ITERATION_model_00000/event_a.h5" "mesh of event_a"
                eq_refl eq_refl ltac:(vm_refl) ltac:(vm_refl) ltac:(vm_refl)
                ltac:(discriminate))
      as (fs' & Hrun & Htarget & Hsource & _).
    exists fs'. split; [exact Hrun|]. split; [exact Htarget|exact Hsource].
  - exact (proj2 (proj2 (lasif_move_mesh_copies
                    (fun _ => Ok (true, "lasif/MESHES/event_a.h5"))
                    (fun _ _ => Ok "./lasif/MESHES/event_a.h5")
                    "event_a" "model_00000" "lasif/MESHES/event_a.h5"
                    EventMesh.mesh_project))
             "./lasif/MESHES/event_a.h5" "mesh of event_a"
             eq_refl eq_refl ltac:(vm_refl) ltac:(vm_refl) ltac:(vm_refl)).
Defined.

(** ** The labels of an artifact *)

Section label_facts.
Import ArtifactStore.

Lemma rev_app_rev_app (s : string) : forall t u,
  String.rev_app (String.rev_app s t) u = String.rev_app t (s +:+ u).
Proof.
  induction s as [|a s IH]; intros t u; [done|].
  rewrite str_app_cons. simpl. by rewrite IH.
Qed.

Lemma rev_app_app (s : string) : forall t u,
  String.rev_app (s +:+ t) u = String.rev_app t (String.rev_app s u).
Proof.
  induction s as [|a s IH]; intros t u; [done|].
  rewrite str_app_cons. simpl. by rewrite IH.
Qed.

Lemma strip_ends_brackets (x y : ascii) (s : string) :
  strip_ends (String x (s +:+ String y "")) = s.
Proof.
  unfold strip_ends, String.rev. rewrite rev_app_app. simpl.
  by rewrite rev_app_rev_app, str_app_nil_r.
Qed.

Lemma remove_spaces_app (a b : string) :
  remove_spaces (a +:+ b) = remove_spaces a +:+ remove_spaces b.
Proof.
  induction a as [|x a IH]; [done|].
  rewrite str_app_cons. simpl. rewrite IH. by destruct (Ascii.eqb x " ").
Qed.

Lemma remove_spaces_clean (s : string) :
  contains " " s = false -> remove_spaces s = s.
Proof.
  induction s as [|x s IH]; [done|].
  rewrite contains_char_cons. intros [Hx Hs]%orb_false_elim.
  simpl. by rewrite Hx, IH.
Qed.

(** A label as the file format writes it: no blank and no bar in it. *)
Lemma remove_spaces_labels (ls : list string) :
  Forall (fun l => contains " " l = false) ls ->
  remove_spaces (String.concat " | " ls) = String.concat "|" ls.
Proof.
  induction 1 as [|l ls Hl Hls IH]; [done|].
  destruct ls as [|l' ls]; [by apply remove_spaces_clean|].
  change (String.concat " | " (l :: l' :: ls))
    with (l +:+ " | " +:+ String.concat " | " (l' :: ls)).
  change (String.concat "|" (l :: l' :: ls))
    with (l +:+ "|" +:+ String.concat "|" (l' :: ls)).
  rewrite !remove_spaces_app, IH, remove_spaces_clean by done. done.
Qed.

Lemma concat_bar_clean (ls : list string) :
  Forall (fun l => contains " " l = false) ls ->
  contains " " (String.concat "|" ls) = false.
Proof.
  induction 1 as [|l ls Hl Hblank IH]; [done|].
  destruct ls as [|l' ls]; [done|].
  change (String.concat "|" (l :: l' :: ls))
    with (l +:+ String "|" (String.concat "|" (l' :: ls))).
  by rewrite contains_char_app, Hl, contains_char_cons, IH.
Qed.

Lemma split_labels (ls : list string) :
  ls <> [] -> Forall (fun l => contains "|" l = false) ls ->
  split "|" (String.concat "|" ls) = ls.
Proof.
  intros Hne Hls. induction Hls as [|l ls Hl Hls IH]; [done|].
  destruct ls as [|l' ls]; [by apply split_no_sep|].
  change (String.concat "|" (l :: l' :: ls))
    with (l +:+ String "|" (String.concat "|" (l' :: ls))).
  rewrite split_app, IH by done. by rewrite split_no_sep.
Qed.

(** X25. The labels of the parameters are read back from the attribute as
    the file format writes it: from [[ a | b | c ]] (brackets, the labels
    separated by a bar between blanks) [get_parameter_indices] works with
    the list [a; b; c], for labels that hold no blank and no bar; so the
    index of a parameter is its position in that list. With no label at all
    the list is one empty label. *)
Theorem dim_labels_round_trip {A} (ls : list string) (data : tensor A) :
  ls <> [] ->
  Forall (fun l => contains " " l = false /\ contains "|" l = false) ls ->
  dim_labels_of {| dimension_labels := "[ " +:+ String.concat " | " ls +:+ " ]";
                   model_data := data |} = ls
  /\ dim_labels_of {| dimension_labels := "[" +:+ String.concat "|" ls +:+ "]";
                      model_data := data |} = ls
  /\ dim_labels_of {| dimension_labels := "[  ]"; model_data := data |} = [""]
  /\ (forall st filename i p,
        files st !! filename
        = Some {| dimension_labels := "[ " +:+ String.concat " | " ls +:+ " ]";
                  model_data := data |} ->
        NoDup ls -> ls !! i = Some p ->
        get_parameter_indices [p] st filename = Ok [i]).
Proof.
  intros Hne Hls.
  assert (Forall (fun l => contains " " l = false) ls) as Hblank
    by (eapply Forall_impl; [exact Hls|]; by intros l [? ?]).
  assert (Forall (fun l => contains "|" l = false) ls) as Hbar
    by (eapply Forall_impl; [exact Hls|]; by intros l [? ?]).
  assert (dim_labels_of {| dimension_labels := "[ " +:+ String.concat " | " ls +:+ " ]";
                           model_data := data |} = ls) as Hpadded.
  { unfold dim_labels_of. simpl dimension_labels.
    assert ("[ " +:+ String.concat " | " ls +:+ " ]"
            = String "[" ((" " +:+ String.concat " | " ls +:+ " ") +:+ String "]" "")) as ->.
    { change (String "[" (String " " (String.concat " | " ls +:+ " " +:+ "]"))
              = String "[" (String " " ((String.concat " | " ls +:+ " ") +:+ "]"))).
      by rewrite str_app_assoc. }
    rewrite strip_ends_brackets, !remove_spaces_app, remove_spaces_labels by done.
    change (remove_spaces " ") with "". rewrite str_app_nil_r.
    change ("" +:+ String.concat "|" ls) with (String.concat "|" ls).
    by apply split_labels. }
  split; [done|]. split; [|split; [done|]].
  - unfold dim_labels_of. simpl dimension_labels.
    change ("[" +:+ String.concat "|" ls +:+ "]")
      with (String "[" (String.concat "|" ls +:+ String "]" "")).
    rewrite strip_ends_brackets.
    rewrite remove_spaces_clean; [by apply split_labels|by apply concat_bar_clean].
  - intros st filename i p Hfile Hnd Hi.
    unfold get_parameter_indices, open_h5. rewrite Hfile. simpl mbind.
    rewrite Hpadded. simpl.
    assert (index_of ls p = Some i) as Hidx.
    { destruct (index_of_elem_of ls p) as [j Hj]; [by eapply list_elem_of_lookup_2|].
      rewrite Hj. f_equal. eapply NoDup_lookup; [exact Hnd|by apply index_of_lookup|done]. }
    unfold py_index. by rewrite Hidx.
Qed.

End label_facts.

Lemma dim_labels_round_trip_witness :
  ArtifactStore.dim_labels_of ArtifactStore.sample_file = ["VSV"; "VSH"; "RHO"]
  /\ ArtifactStore.get_parameter_indices ["RHO"] ArtifactStore.sample_store
       "OPTIMIZATION/MODELS/model_00000.h5" = Ok [2%nat].
Proof.
  destruct (dim_labels_round_trip ["VSV"; "VSH"; "RHO"]
              (ArtifactStore.model_data ArtifactStore.sample_file)
              ltac:(done) ltac:(repeat constructor))
    as (Hlabels & _ & _ & Hindex).
  split; [exact Hlabels|].
  apply (Hindex ArtifactStore.sample_store "OPTIMIZATION/MODELS/model_00000.h5" 2%nat "RHO");
    [reflexivity| |reflexivity].
  apply (bool_decide_unpack _). by vm_compute.
Defined.
